(** * RAPT SDK provisioning ([rapt/buildlib/rapt/install_sdk.py])

    A shallow embedding of the provisioning workflow of
    [install_sdk.py]: the property files, the key provisioning, the SDK
    unpacking and the orchestrator, over an explicit model of the file
    system, of the interactive interface and of external processes. *)

From Stdlib Require Import List Ascii String Bool Arith Lia.
From stdpp Require Import base option gmap strings.

Set Warnings "-register-all".
Local Open Scope list_scope.

(** ** Python text *)

(** Text is a list of characters; [txt] turns a literal into text. *)
Abbreviation str := (list ascii).

Definition txt (s : string) : str := list_ascii_of_string s.

Module Py.

Definition LF : ascii := "010"%char.
Definition CR : ascii := "013"%char.
Definition EQUALS : ascii := "="%char.
Definition SLASH : ascii := "/"%char.
Definition BACKSLASH : ascii := ascii_of_nat 92.

(** [str.isspace] on one character, for code points below 256:
    tab .. carriage return, the four separators 0x1c .. 0x1f, space,
    NEL (0x85) and the no-break space (0xa0). *)
Definition is_space (c : ascii) : bool :=
  let n := nat_of_ascii c in
  ((9 <=? n) && (n <=? 13)) || ((28 <=? n) && (n <=? 32))
  || (n =? 133) || (n =? 160).

Fixpoint lstrip (s : str) : str :=
  match s with
  | [] => []
  | c :: r => if is_space c then lstrip r else s
  end.

Definition rstrip (s : str) : str := rev (lstrip (rev s)).

(** [s.strip()] *)
Definition strip (s : str) : str := rstrip (lstrip s).

(** [s.partition(sep)] for a one-character separator: the text before
    the first separator, the separator (empty when there is none) and
    the text after it. *)
Fixpoint partition (sep : ascii) (s : str) : str * str * str :=
  match s with
  | [] => ([], [], [])
  | c :: r =>
      if Ascii.eqb c sep then ([], [sep], r)
      else let '(a, m, b) := partition sep r in (c :: a, m, b)
  end.

(** [s.replace(a, b)] for one-character [a] and [b]. *)
Definition replace (a b : ascii) (s : str) : str :=
  map (fun c => if Ascii.eqb c a then b else c) s.

(** What a text-mode read makes of line ends (universal newlines):
    CR LF and a lone CR both arrive as LF. *)
Fixpoint universal_newlines (s : str) : str :=
  match s with
  | [] => []
  | c :: r =>
      if Ascii.eqb c CR then
        match r with
        | d :: r' => if Ascii.eqb d LF then LF :: universal_newlines r'
                     else LF :: universal_newlines r
        | [] => [LF]
        end
      else c :: universal_newlines r
  end.

(** Iterating over a text file: the lines, each with its line end; the
    last one has none when the text does not end in LF. *)
Fixpoint iter_lines (s : str) : list str :=
  match s with
  | [] => []
  | c :: r =>
      if Ascii.eqb c LF then [c] :: iter_lines r
      else match iter_lines r with
           | [] => [[c]]
           | l :: ls => (c :: l) :: ls
           end
  end.

(** The lines a text-mode read of a file with text [s] delivers. *)
Definition lines_of (s : str) : list str :=
  iter_lines (universal_newlines s).

(** ["{}={}\n".format(key, value)] *)
Definition format_property (key value : str) : str :=
  key ++ EQUALS :: value ++ [LF].

End Py.

(** ** Exceptions *)

(** The exceptions the workflow can meet.  [OSError] stands for the
    class with its subclasses (file not found, permission denied, is a
    directory, ...). [SystemExit] is what [interface.fail] ends the run
    with. *)
Inductive exn :=
  | CalledProcessError
  | OSError
  | UnicodeDecodeError
  | UnboundLocalError
  | BadZipFile
  | SystemExit.

Inductive result (A : Type) :=
  | Ok (a : A)
  | Raise (e : exn).
Arguments Ok {A} a.
Arguments Raise {A} e.

(** ** The file system *)

Abbreviation path := (list string).

(** One member of a zip archive: its name, split at the slashes, and its
    data ([None] for a directory entry). *)
Definition member : Type := path * option str.

(** What a file holds.  [Text] is a readable text file.  [Faulty ls e]
    is a file a text-mode read cannot get through: iterating over it
    yields the lines [ls] and then raises [e] (with [ls] empty, a file
    that cannot be opened for reading at all).  [Zip] is an archive. *)
Inductive content :=
  | Text (s : str)
  | Faulty (yielded : list str) (e : exn)
  | Zip (members : list member).

Inductive node :=
  | File (c : content)
  | Dir (entries : gmap string node).

Module FS.

Fixpoint lookup (p : path) (n : node) : option node :=
  match p with
  | [] => Some n
  | c :: p' =>
      match n with
      | File _ => None
      | Dir es =>
          match es !! c with
          | Some n' => lookup p' n'
          | None => None
          end
      end
  end.

(** [os.path.exists] *)
Definition exists_ (p : path) (n : node) : bool :=
  match lookup p n with Some _ => true | None => false end.

Definition is_dir (p : path) (n : node) : bool :=
  match lookup p n with Some (Dir _) => true | _ => false end.

Definition set_entry (c : string) (v : option node)
    (es : gmap string node) : gmap string node :=
  match v with
  | Some x => <[c := x]> es
  | None => delete c es
  end.

(** Replaces (or, with [None], removes) the entry at [p]; the parent of
    [p] has to be a directory.  [None] when it is not. *)
Fixpoint put (p : path) (v : option node) (n : node) : option node :=
  match p, n with
  | c :: p', Dir es =>
      match p' with
      | [] => Some (Dir (set_entry c v es))
      | _ :: _ =>
          match es !! c with
          | Some n' =>
              match put p' v n' with
              | Some n'' => Some (Dir (<[c := n'']> es))
              | None => None
              end
          | None => None
          end
      end
  | _, _ => None
  end.

(** Two paths part ways: neither is a prefix of the other. *)
Fixpoint diverge (p q : path) : bool :=
  match p, q with
  | c :: p', d :: q' => if String.eqb c d then diverge p' q' else true
  | _, _ => false
  end.

Fixpoint is_prefix (p q : path) : bool :=
  match p, q with
  | [], _ => true
  | c :: p', d :: q' => String.eqb c d && is_prefix p' q'
  | _ :: _, [] => false
  end.

(** Creating or overwriting the file at [p] with content [c]: the
    parent has to be a directory and [p] must not be one. *)
Definition write_file (p : path) (c : content) (n : node) : result node :=
  match lookup p n with
  | Some (Dir _) => Raise OSError
  | _ =>
      match put p (Some (File c)) n with
      | Some n' => Ok n'
      | None => Raise OSError
      end
  end.

(** The test [write_file] passes: [p] is a file, or is nothing yet
    inside a directory. *)
Definition writable (p : path) (n : node) : bool :=
  match p with
  | [] => false
  | _ :: _ =>
      match lookup p n with
      | Some (File _) => true
      | Some (Dir _) => false
      | None => is_dir (removelast p) n
      end
  end.

(** [open(p, "w")] followed by writing [s] and closing; line ends are
    written as they are. *)
Definition write_text (p : path) (s : str) (n : node) : result node :=
  write_file p (Text s) n.

(** [os.mkdir] *)
Definition mkdir (p : path) (n : node) : result node :=
  match lookup p n with
  | Some _ => Raise OSError
  | None =>
      match put p (Some (Dir ∅)) n with
      | Some n' => Ok n'
      | None => Raise OSError
      end
  end.

(** [os.makedirs(p, exist_ok=True)], walking down from the root: [pre]
    is the part of the path already known to be a directory. *)
Fixpoint makedirs_from (pre : path) (p : path) (n : node) : result node :=
  match p with
  | [] => Ok n
  | c :: p' =>
      let here := pre ++ [c] in
      match lookup here n with
      | Some (Dir _) => makedirs_from here p' n
      | Some (File _) => Raise OSError
      | None =>
          match mkdir here n with
          | Ok n' => makedirs_from here p' n'
          | Raise e => Raise e
          end
      end
  end.

Definition makedirs (p : path) (n : node) : result node :=
  makedirs_from [] p n.

Definition is_empty_dir (v : node) : bool :=
  match v with
  | Dir es => bool_decide (es = ∅)
  | File _ => false
  end.

(** [os.rename] with the POSIX rules: the source has to exist; a
    directory may only replace an empty directory, a file may only
    replace a file; nothing moves into itself. *)
Definition rename (src dst : path) (n : node) : result node :=
  match lookup src n with
  | None => Raise OSError
  | Some v =>
      if is_prefix src dst then
        (if is_prefix dst src then Ok n else Raise OSError)
      else
        let fits :=
          match lookup dst n, v with
          | None, _ => true
          | Some (File _), File _ => true
          | Some d, Dir _ => is_empty_dir d
          | Some (Dir _), File _ => false
          end in
        if fits then
          match put src None n with
          | Some n1 =>
              match put dst (Some v) n1 with
              | Some n2 => Ok n2
              | None => Raise OSError
              end
          | None => Raise OSError
          end
        else Raise OSError
  end.

End FS.

(** ** Paths as the platform writes them *)

Module Paths.

(** The pieces of [s] between slashes. *)
Fixpoint segments (s : str) : list str :=
  match s with
  | [] => [[]]
  | c :: r =>
      if Ascii.eqb c Py.SLASH then [] :: segments r
      else match segments r with
           | [] => [[c]]
           | x :: xs => (c :: x) :: xs
           end
  end.

Definition is_name (x : str) : bool :=
  match x with
  | [] => false
  | [c] => negb (Ascii.eqb c "."%char)
  | _ => true
  end.

(** The components a path text resolves to: empty pieces and [.] drop
    out. *)
Definition components (s : str) : path :=
  map string_of_list_ascii (List.filter is_name (segments s)).

(** The text of an absolute path. *)
Definition text (p : path) : str :=
  concat (map (fun c => Py.SLASH :: txt c) p).

End Paths.

(** ** The platform descriptor, the interface and the world *)

(** Modelled from the spec: the platform descriptor, the module [plat],
    is not among the sources at hand.  It resolves the absolute paths
    of the project files, of the SDK root and of the command-line tools
    ([javac], [java], [keytool], the SDK manager) and knows the family
    of the operating system and the version of the SDK.  [rapt_path] is
    the directory [plat.path] resolves names against.  Paths are kept
    as their components and written the POSIX way. *)
Record platform := Platform {
  rapt_path : path;
  sdk : path;
  sdkmanager : path;
  javac : str;
  java : str;
  keytool : str;
  sdk_version : str;
  windows : bool;
  macintosh : bool;
  linux : bool
}.

(** What the run does to its surroundings, in order. *)
Inductive event :=
  | Info (m : string)
  | Success (m : string)
  | FinalSuccess (m : string)
  | Fail (m : string)
  | YesNo (prompt : string) (answer : bool)
  | Input (prompt : string) (answer : str)
  | Terms (url prompt : string)
  | Download (url : str) (dest : path)
  | Background
  | Call (args : list str) (cancel use_path yes : bool).

(** How an external process ends: it exits with status zero or with
    another status, leaving the file system as given, or its executable
    is not found. *)
Inductive outcome :=
  | Exit0 (fs' : node)
  | ExitNonZero (fs' : node)
  | NotFound.

(** Modelled from the spec: the object [interface], the interactive and
    reporting surface, is not among the sources at hand.  The record
    holds what the workflow cannot decide of it: the answers of the
    user, what the network delivers and what external processes do,
    each depending on everything that happened before. *)
Record interface := Interface {
  yesno_answer : list event -> string -> bool;
  input_answer : list event -> string -> str;
  terms_accepted : list event -> bool;
  download_result : list event -> str -> option content;
  call_outcome : list event -> node -> path -> list str -> outcome
}.

Record world := World {
  fs : node;
  cwd : path;
  environ : list string;
  trace : list event
}.

Definition with_fs (n : node) (w : world) : world :=
  World n (cwd w) (environ w) (trace w).

Definition with_cwd (d : path) (w : world) : world :=
  World (fs w) d (environ w) (trace w).

Definition with_event (e : event) (w : world) : world :=
  World (fs w) (cwd w) (environ w) (trace w ++ [e]).

(** ** Computations that change the world and may raise *)

Definition M (A : Type) : Type := world -> result A * world.

Definition ret {A} (a : A) : M A := fun w => (Ok a, w).

Definition raise {A} (e : exn) : M A := fun w => (Raise e, w).

Definition bind {A B} (m : M A) (k : A -> M B) : M B :=
  fun w =>
    match m w with
    | (Ok a, w') => k a w'
    | (Raise e, w') => (Raise e, w')
    end.

Declare Scope run_scope.
Delimit Scope run_scope with run.
Notation "'let*' x ':=' m 'in' k" := (bind m (fun x => k))
  (at level 10, x name, m at level 100, k at level 200) : run_scope.
Notation "m ;; k" := (bind m (fun _ => k))
  (at level 100, k at level 200, right associativity) : run_scope.
Local Open Scope run_scope.

Definition log (e : event) : M unit :=
  fun w => (Ok tt, with_event e w).

(** Lifts a file-system operation. *)
Definition on_fs (f : node -> result node) : M unit :=
  fun w =>
    match f (fs w) with
    | Ok n => (Ok tt, with_fs n w)
    | Raise e => (Raise e, w)
    end.

Definition path_exists (p : path) : M bool :=
  fun w => (Ok (FS.exists_ p (fs w)), w).

Definition getcwd : M path := fun w => (Ok (cwd w), w).

(** [os.chdir] *)
Definition chdir (p : path) : M unit :=
  fun w =>
    if FS.is_dir p (fs w) then (Ok tt, with_cwd p w) else (Raise OSError, w).

(** A name given relative to the working directory. *)
Definition relative (name : string) : M path :=
  fun w => (Ok (cwd w ++ Paths.components (txt name)), w).

(** [after m Q w]: running [m] in the world [w] ends with a result
    and in a world that satisfy [Q]. *)
Definition after {A} (m : M A) (Q : result A -> world -> Prop) (w : world) : Prop :=
  Q (fst (m w)) (snd (m w)).

(** ** The interface of [install_sdk.py] to its surroundings *)

Section Surroundings.

Context (ui : interface).

(** Modelled from the spec: [interface.info], [interface.success] and
    [interface.final_success] report a message. *)
Definition info (m : string) : M unit := log (Info m).

Definition success (m : string) : M unit := log (Success m).

Definition final_success (m : string) : M unit := log (FinalSuccess m).

(** Modelled from the spec: [interface.fail] reports and aborts the
    run. *)
Definition fail {A} (m : string) : M A := log (Fail m) ;; raise SystemExit.

(** Modelled from the spec: [interface.yesno] asks and returns the
    answer. *)
Definition yesno (prompt : string) : M bool :=
  fun w =>
    let a := yesno_answer ui (trace w) prompt in
    (Ok a, with_event (YesNo prompt a) w).

(** Modelled from the spec: [interface.input] asks for a text. *)
Definition input (prompt : string) : M str :=
  fun w =>
    let a := input_answer ui (trace w) prompt in
    (Ok a, with_event (Input prompt a) w).

(** Modelled from the spec: [interface.terms] obtains consent or aborts
    the run. *)
Definition terms (url prompt : string) : M unit :=
  fun w =>
    let w' := with_event (Terms url prompt) w in
    if terms_accepted ui (trace w) then (Ok tt, w') else (Raise SystemExit, w').

(** Modelled from the spec: [interface.download] fetches the file to
    [dest]; a failure to download ends the run. *)
Definition download (url : str) (dest : path) : M unit :=
  fun w =>
    let w' := with_event (Download url dest) w in
    match download_result ui (trace w) url with
    | Some c => on_fs (FS.write_file dest c) w'
    | None => (Raise SystemExit, w')
    end.

(** Modelled from the spec: [interface.background] runs the given
    function; that it can be cancelled is not modelled. *)
Definition background {A} (f : M A) : M A := log Background ;; f.

(** Modelled from the spec: [interface.call] runs an external process
    and raises when it exits with a status other than zero
    ([CalledProcessError]) or when the executable is missing
    ([OSError]). *)
Definition call (args : list str) (cancel use_path yes : bool) : M unit :=
  fun w =>
    let w' := with_event (Call args cancel use_path yes) w in
    match call_outcome ui (trace w) (fs w) (cwd w) args with
    | Exit0 n => (Ok tt, with_fs n w')
    | ExitNonZero n => (Raise CalledProcessError, with_fs n w')
    | NotFound => (Raise OSError, w')
    end.

(** [run]: [try: interface.call(...); return True] with
    [except (subprocess.CalledProcessError, OSError): return False]. *)
Definition run (args : list str) (use_path yes : bool) : M bool :=
  fun w =>
    match call args false use_path yes w with
    | (Ok _, w') => (Ok true, w')
    | (Raise CalledProcessError, w') => (Ok false, w')
    | (Raise OSError, w') => (Ok false, w')
    | (Raise e, w') => (Raise e, w')
    end.

(** [run_slow]: the same with [cancel=True]. *)
Definition run_slow (args : list str) (use_path yes : bool) : M bool :=
  fun w =>
    match call args true use_path yes w with
    | (Raise CalledProcessError, w') => (Ok false, w')
    | (Raise OSError, w') => (Ok false, w')
    | (Raise e, w') => (Raise e, w')
    | (Ok _, w') => (Ok true, w')
    end.

End Surroundings.

(** ** The property files *)

(** Opening [p] for reading and iterating over it: the lines that
    arrive and, when the read does not reach the end of the file, the
    exception that stops it. *)
Definition read_lines (p : path) (n : node) : list str * option exn :=
  match FS.lookup p n with
  | Some (File (Text s)) => (Py.lines_of s, None)
  | Some (File (Faulty ls e)) => (ls, Some e)
  | Some (File (Zip _)) => ([], Some UnicodeDecodeError)
  | Some (Dir _) => ([], Some OSError)
  | None => ([], Some OSError)
  end.

(** [l.partition("=")[0].strip()] *)
Definition line_key (l : str) : str :=
  Py.strip (fst (fst (Py.partition Py.EQUALS l))).

(** The loop of [set_property] either returns from the function or
    leaves the lines it has collected. *)
Inductive scan :=
  | Returned
  | Collected (lines : list str).

Fixpoint scan_lines (key : str) (replace : bool) (ls : list str) : scan :=
  match ls with
  | [] => Collected []
  | l :: rest =>
      if bool_decide (line_key l = key) then
        (if negb replace then Returned else scan_lines key replace rest)
      else
        match scan_lines key replace rest with
        | Returned => Returned
        | Collected lines => Collected (l :: lines)
        end
  end.

(** [set_property(properties, key, value, replace)].  Whatever stops
    the read is passed over ([except: pass]); the lines collected until
    then are written back, followed by the new line. *)
Definition set_property (properties : path) (key value : str)
    (replace : bool) : M unit :=
  fun w =>
    let '(ls, _) := read_lines properties (fs w) in
    match scan_lines key replace ls with
    | Returned => (Ok tt, w)
    | Collected lines =>
        on_fs (FS.write_text properties
                 (concat lines ++ Py.format_property key value)) w
    end.

(** The loop of [get_property] over the lines that arrive. *)
Fixpoint find_property (key : str) (ls : list str) : option str :=
  match ls with
  | [] => None
  | l :: rest =>
      let '(k, _, v) := Py.partition Py.EQUALS l in
      if bool_decide (Py.strip k = key) then Some (Py.strip v)
      else find_property key rest
  end.

(** [get_property(properties, key)]: nothing catches what [open] or the
    read raises. *)
Definition get_property (properties : path) (key : str) : M (option str) :=
  fun w =>
    let '(ls, err) := read_lines properties (fs w) in
    match find_property key ls with
    | Some v => (Ok (Some v), w)
    | None =>
        match err with
        | Some e => (Raise e, w)
        | None => (Ok None, w)
        end
    end.

(** *** Well-formed property text

    The conditions under which a property survives being written and
    read back; each is a test that can be run. *)

(** No line break inside. *)
Definition no_breaks (s : str) : bool :=
  forallb (fun c => negb (Ascii.eqb c Py.LF) && negb (Ascii.eqb c Py.CR)) s.

(** A line that ends in its line break and has none before. *)
Definition whole_line (l : str) : bool :=
  match rev l with
  | c :: b => Ascii.eqb c Py.LF && no_breaks b
  | [] => false
  end.

(** A key that is read back as itself: stripped, on one line, free of
    the equals sign. *)
Definition clean_key (k : str) : bool :=
  bool_decide (Py.strip k = k) && no_breaks k
  && negb (existsb (Ascii.eqb Py.EQUALS) k).

(** A value that is read back as itself: stripped and on one line. *)
Definition clean_value (v : str) : bool :=
  bool_decide (Py.strip v = v) && no_breaks v.

(** No line of [ls] has the key. *)
Definition key_absent (key : str) (ls : list str) : bool :=
  forallb (fun l => negb (bool_decide (line_key l = key))) ls.

(** The lines the loop of [set_property] keeps when it replaces. *)
Definition others (key : str) (ls : list str) : list str :=
  List.filter (fun l => negb (bool_decide (line_key l = key))) ls.

(** [set_property] leaves the trace, the working directory and the
    environment alone, and every path that parts ways with the file. *)
Definition set_property_frame (f : path) (w w1 : world) : Prop :=
  trace w1 = trace w /\ cwd w1 = cwd w /\ environ w1 = environ w
  /\ forall q, FS.diverge f q = true -> FS.lookup q (fs w1) = FS.lookup q (fs w).

(** The result of [get_property(f, k)] after [set_property(f, k, v)]. *)
Definition set_then_get (f : path) (k v : str) (w : world) : result (option str) :=
  fst (get_property f k (snd (set_property f k v false w))).

(** ** The workflow *)

Section Workflow.

Context (plat : platform) (ui : interface).

(** Modelled from the spec: [plat.path(name)] resolves a name against
    the RAPT directory. *)
Definition plat_path (name : str) : path :=
  rapt_path plat ++ Paths.components name.

Definition local_properties : path :=
  plat_path (txt "project/local.properties").

Definition bundle_properties : path :=
  plat_path (txt "project/bundle.properties").

Definition check_java : M unit :=
  info "I'm compiling a short test program, to see if you have a working JDK on your system." ;;
  let* ok := run_slow ui
      [javac plat; Paths.text (plat_path (txt "buildlib/CheckJDK8.java"))]
      true false in
  (if negb ok then
     fail "I was unable to use javac to compile a test file. If you haven't installed the Java Development Kit yet, please download it from:\n\nhttps://adoptopenjdk.net/?variant=openjdk8&jvmVariant=hotspot\n\nThe JDK is different from the JRE, so it's possible you have Java without having the JDK. Without a working JDK, I can't continue."
   else ret tt) ;;
  let* ok := run_slow ui
      [java plat; txt "-classpath"; Paths.text (plat_path (txt "buildlib"));
       txt "CheckJDK8"]
      true false in
  (if negb ok then
     fail "The version of Java on your computer does not appear to be JDK 8, which is the only version supported by the Android SDK. If you need to install JDK 8, you can download it from:\n\nhttps://adoptopenjdk.net/?variant=openjdk8&jvmVariant=hotspot\n\nYou can also set the JAVA_HOME environment variable to use a different version of Java."
   else ret tt) ;;
  success "The JDK is present and working. Good!".

(** [zf.extractall(dest)] of the standard library, member by member:
    the directories above a member are made when they are missing, a
    directory entry becomes a directory, a file entry is written. *)
Definition extract_member (dest : path) (m : member) (n : node) : result node :=
  let target := dest ++ fst m in
  match FS.makedirs (removelast target) n with
  | Raise e => Raise e
  | Ok n1 =>
      match snd m with
      | None => if FS.is_dir target n1 then Ok n1 else FS.mkdir target n1
      | Some data => FS.write_text target data n1
      end
  end.

Fixpoint extractall (dest : path) (ms : list member) (n : node) : result node :=
  match ms with
  | [] => Ok n
  | m :: rest =>
      match extract_member dest m n with
      | Ok n' => extractall dest rest n'
      | Raise e => Raise e
      end
  end.

(** [FixedZipFile(name)] opens an archive. *)
Definition open_zip (p : path) : M (list member) :=
  fun w =>
    match FS.lookup p (fs w) with
    | Some (File (Zip ms)) => (Ok ms, w)
    | Some (File _) => (Raise BadZipFile, w)
    | _ => (Raise OSError, w)
    end.

(** The function [extract] local to [unpack_sdk]. *)
Definition extract (archive : str) : M unit :=
  let* zf := open_zip (plat_path archive) in
  let* old_cwd := getcwd in
  chdir (plat_path (txt ".")) ;;
  let* dest := relative "Sdk" in
  on_fs (extractall dest zf) ;;
  let* tools := relative "Sdk/cmdline-tools" in
  let* latest := relative "Sdk/latest" in
  on_fs (FS.rename tools latest) ;;
  on_fs (FS.mkdir tools) ;;
  let* nested := relative "Sdk/cmdline-tools/latest" in
  on_fs (FS.rename latest nested) ;;
  chdir old_cwd.

(** The archive name for the platform; with no platform flag set the
    name [archive] is never bound. *)
Definition archive_name : option str :=
  if windows plat then
    Some (txt "commandlinetools-windows-" ++ sdk_version plat ++ txt ".zip")
  else if macintosh plat then
    Some (txt "commandlinetools-darwin-" ++ sdk_version plat ++ txt ".zip")
  else if linux plat then
    Some (txt "commandlinetools-linux-" ++ sdk_version plat ++ txt ".zip")
  else None.

Definition unpack_sdk : M unit :=
  let* present := path_exists (sdkmanager plat) in
  if present then
    success "The Android SDK has already been unpacked."
  else
    (fun w =>
       if bool_decide ("RAPT_NO_TERMS"%string ∈ environ w) then (Ok tt, w)
       else terms ui "https://developer.android.com/studio/terms"
                  "Do you accept the Android SDK Terms and Conditions?" w) ;;
    match archive_name with
    | None => raise UnboundLocalError
    | Some archive =>
        let url := txt "https://dl.google.com/android/repository/" ++ archive in
        info "I'm downloading the Android SDK. This might take a while." ;;
        download ui url (plat_path archive) ;;
        info "I'm extracting the Android SDK." ;;
        background (extract archive) ;;
        success "I've finished unpacking the Android SDK."
    end.

Definition wanted_packages : list (string * string) :=
  [("platform-tools", "platform-tools");
   ("platforms;android-30", "platforms/android-30")]%string.

(** The loop of [get_packages] collecting what is missing. *)
Definition missing_packages (n : node) : list str :=
  map (fun ij => txt (fst ij))
    (List.filter
       (fun ij => negb (FS.exists_ (sdk plat ++ Paths.components (txt (snd ij))) n))
       wanted_packages).

Definition get_packages : M unit :=
  let* packages := (fun w => (Ok (missing_packages (fs w)), w)) in
  (match packages with
   | [] => ret tt
   | _ :: _ =>
       info "I'm about to download and install the required Android packages. This might take a while." ;;
       let* ok := run_slow ui [Paths.text (sdkmanager plat); txt "--update"] false true in
       (if negb ok then fail "I was unable to accept the Android licenses." else ret tt) ;;
       let* ok := run_slow ui [Paths.text (sdkmanager plat); txt "--licenses"] false true in
       (if negb ok then fail "I was unable to accept the Android licenses." else ret tt) ;;
       let* ok := run_slow ui (Paths.text (sdkmanager plat) :: packages) false true in
       (if negb ok then fail "I was unable to install the required Android packages." else ret tt)
   end) ;;
  success "I've finished installing the required Android packages.".

Definition keytool_args (keystore : string) (dname : str) : list str :=
  [keytool plat; txt "-genkey"; txt "-keystore"; txt keystore;
   txt "-alias"; txt "android"; txt "-keyalg"; txt "RSA";
   txt "-keysize"; txt "2048"; txt "-keypass"; txt "android";
   txt "-storepass"; txt "android"; txt "-dname"; dname;
   txt "-validity"; txt "20000"].

(** [plat.path(name).replace("\\", "/")] *)
Definition default_keystore (name : string) : str :=
  Py.replace Py.BACKSLASH Py.SLASH (Paths.text (plat_path (txt name))).

(** The two questions [generate_keys] asks before it makes a key. *)
Definition create_question : string :=
  "I can create an application signing key for you. Signing an application with this key allows it to be placed in the Android Market and other app stores.\n\nDo you want to create a key?".

Definition backup_question : string :=
  "I will create the key in the android.keystore file.\n\nYou need to back this file up. If you lose it, you will not be able to upgrade your application.\n\nYou also need to keep the key safe. If evil people get this file, they could make fake versions of your application, and potentially steal your users' data.\n\nWill you make a backup of android.keystore, and keep it in a safe place?".

Definition generate_keys : M unit :=
  let properties := local_properties in
  set_property properties (txt "key.alias") (txt "android") false ;;
  set_property properties (txt "key.store.password") (txt "android") false ;;
  set_property properties (txt "key.alias.password") (txt "android") false ;;
  set_property properties (txt "key.store") (default_keystore "android.keystore") false ;;
  let* stored := get_property properties (txt "key.store") in
  if negb (bool_decide (stored = Some (default_keystore "android.keystore"))) then
    info "You set the keystore yourself, so I'll assume it's how you want it."
  else
    let* present := path_exists (plat_path (txt "android.keystore")) in
    if present then
      info "You've already created an Android keystore, so I won't create a new one for you."
    else
      let* create := yesno ui create_question in
      if negb create then ret tt
      else
        let* backup := yesno ui backup_question in
        if negb backup then ret tt
        else
          let* org := input ui "Please enter your name or the name of your organization." in
          let dname := txt "CN=" ++ org in
          let* ok := run ui (keytool_args "android.keystore" dname) true false in
          (if negb ok then
             fail "Could not create android.keystore. Is keytool in your path?"
           else ret tt) ;;
          success "I've finished creating android.keystore. Please back it up, and keep it in a safe place.".

Definition generate_bundle_keys : M unit :=
  let properties := bundle_properties in
  set_property properties (txt "key.alias") (txt "android") false ;;
  set_property properties (txt "key.store.password") (txt "android") false ;;
  set_property properties (txt "key.alias.password") (txt "android") false ;;
  set_property properties (txt "key.store") (default_keystore "bundle.keystore") false ;;
  let* stored := get_property properties (txt "key.store") in
  if negb (bool_decide (stored = Some (default_keystore "bundle.keystore"))) then
    ret tt
  else
    let* present := path_exists (plat_path (txt "bundle.keystore")) in
    if present then ret tt
    else
      let dname := txt "CN=Ren'Py Creator" in
      let* ok := run ui (keytool_args "bundle.keystore" dname) true false in
      if negb ok then
        fail "Could not create bundle.keystore. Is keytool in your path?"
      else ret tt.

(** Modelled from the spec: [rapt.build.copy_project] is not among the
    sources at hand.  It is the step that copies or prepares the project
    skeleton ([install_sdk] calls it to create the project directory);
    called with [False], as here, it leaves a project directory that
    exists as it is. *)
Definition copy_project : M unit :=
  let* present := path_exists (plat_path (txt "project")) in
  if present then ret tt
  else on_fs (FS.makedirs (plat_path (txt "project"))).

(** The four writes with which both key steps begin. *)
Definition seed_defaults (properties : path) (store : str) : M unit :=
  set_property properties (txt "key.alias") (txt "android") false ;;
  set_property properties (txt "key.store.password") (txt "android") false ;;
  set_property properties (txt "key.alias.password") (txt "android") false ;;
  set_property properties (txt "key.store") store false.

(** The steps of [install_sdk] before the key steps. *)
Definition before_keys : M unit :=
  copy_project ;;
  check_java ;;
  unpack_sdk ;;
  get_packages.

(** [plat.sdk.replace("\\", "/")] *)
Definition sdk_dir : str :=
  Py.replace Py.BACKSLASH Py.SLASH (Paths.text (sdk plat)).

(** The last three statements of [install_sdk]. *)
Definition persist_sdk_dir : M unit :=
  set_property local_properties (txt "sdk.dir") sdk_dir true ;;
  set_property bundle_properties (txt "sdk.dir") sdk_dir true ;;
  final_success "It looks like you're ready to start packaging games.".

Definition install_sdk : M unit :=
  copy_project ;;
  check_java ;;
  unpack_sdk ;;
  get_packages ;;
  generate_keys ;;
  generate_bundle_keys ;;
  persist_sdk_dir.

(** *** Running the workflow again

    What a second run relies on, each as a condition on a state. *)

(** The line [set_property] writes for [sdk.dir]. *)
Definition sdk_line : str := Py.format_property (txt "sdk.dir") sdk_dir.

(** A property file as the last statements of [install_sdk] leave it
    when nothing is in their way: its lines are the lines [ls] of the
    other keys, the four key properties among them, and then the one
    line of [sdk.dir]; its text is these lines. *)
Definition persisted (properties : path) (n : node) : Prop :=
  exists ls,
    FS.lookup properties n = Some (File (Text (concat ls ++ sdk_line)))
    /\ read_lines properties n = (ls ++ [sdk_line], None)
    /\ key_absent (txt "sdk.dir") ls = true
    /\ key_absent (txt "key.alias") ls = false
    /\ key_absent (txt "key.store.password") ls = false
    /\ key_absent (txt "key.alias.password") ls = false
    /\ key_absent (txt "key.store") ls = false.

(** A key step that will not make a key: the keystore is there, or the
    property file names another keystore than the default one. *)
Definition settled (properties : path) (name : string) (n : node) : bool :=
  FS.exists_ (plat_path (txt name)) n
  || negb (bool_decide
             (find_property (txt "key.store") (fst (read_lines properties n))
              = Some (default_keystore name))).

(** The file system an external process leaves. *)
Definition left_by (o : outcome) (n : node) : node :=
  match o with
  | Exit0 n' => n'
  | ExitNonZero n' => n'
  | NotFound => n
  end.

(** A command line that asks the key tool for a key. *)
Definition genkey (args : list str) : bool :=
  match args with
  | _ :: g :: _ => bool_decide (g = txt "-genkey")
  | _ => false
  end.

(** External processes leave the two property files alone, and every
    process but the key generation leaves the SDK manager and the two
    keystores alone. *)
Definition tools_keep : Prop :=
  forall tr n d args,
    let n' := left_by (call_outcome ui tr n d args) n in
    FS.lookup local_properties n' = FS.lookup local_properties n
    /\ FS.lookup bundle_properties n' = FS.lookup bundle_properties n
    /\ (genkey args = false ->
        FS.lookup (sdkmanager plat) n' = FS.lookup (sdkmanager plat) n
        /\ FS.lookup (plat_path (txt "android.keystore")) n'
           = FS.lookup (plat_path (txt "android.keystore")) n
        /\ FS.lookup (plat_path (txt "bundle.keystore")) n'
           = FS.lookup (plat_path (txt "bundle.keystore")) n).

(** An event that is a key generation. *)
Definition keygen_call (e : event) : bool :=
  match e with
  | Call args _ _ _ => genkey args
  | _ => false
  end.

(** An event that is neither a download nor a key generation. *)
Definition quiet (e : event) : bool :=
  match e with
  | Download _ _ => false
  | Call args _ _ _ => negb (genkey args)
  | _ => true
  end.

(** The world [w] is [w1] as far as a second run cares: the property
    files, the SDK manager and the keystores are as in [w1], and what
    happened since is quiet. *)
Definition steady (w1 w : world) : Prop :=
  FS.lookup local_properties (fs w) = FS.lookup local_properties (fs w1)
  /\ FS.lookup bundle_properties (fs w) = FS.lookup bundle_properties (fs w1)
  /\ FS.lookup (sdkmanager plat) (fs w) = FS.lookup (sdkmanager plat) (fs w1)
  /\ FS.lookup (plat_path (txt "android.keystore")) (fs w)
     = FS.lookup (plat_path (txt "android.keystore")) (fs w1)
  /\ FS.lookup (plat_path (txt "bundle.keystore")) (fs w)
     = FS.lookup (plat_path (txt "bundle.keystore")) (fs w1)
  /\ exists evs, trace w = trace w1 ++ evs /\ forallb quiet evs = true.

(** *** Running the workflow for the first time *)

(** A property file a run can build on: it is not there yet, or it is
    text whose lines all end in a line break. *)
Definition tidy (properties : path) (n : node) : bool :=
  match FS.lookup properties n with
  | None => true
  | Some (File (Text s)) => forallb whole_line (Py.lines_of s)
  | Some _ => false
  end.

(** The lines of a property file have the four key properties. *)
Definition has_defaults (properties : path) (n : node) : bool :=
  let ls := fst (read_lines properties n) in
  negb (key_absent (txt "key.alias") ls)
  && negb (key_absent (txt "key.store.password") ls)
  && negb (key_absent (txt "key.alias.password") ls)
  && negb (key_absent (txt "key.store") ls).

(** Both property files are in [w] as they are in [w0]. *)
Definition same_properties (w0 w : world) : Prop :=
  FS.lookup local_properties (fs w) = FS.lookup local_properties (fs w0)
  /\ FS.lookup bundle_properties (fs w) = FS.lookup bundle_properties (fs w0).

(** The computation [m] leaves both property files as they are, however
    it ends. *)
Definition frames {A} (m : M A) : Prop :=
  forall w, after m (fun _ w' => same_properties w w') w.

(** What a second run has to leave: both property files as they are in
    [w1], and neither a download nor a key generation since. *)
Definition unchanged (w1 w : world) : Prop :=
  FS.lookup local_properties (fs w) = FS.lookup local_properties (fs w1)
  /\ FS.lookup bundle_properties (fs w) = FS.lookup bundle_properties (fs w1)
  /\ exists evs, trace w = trace w1 ++ evs /\ forallb quiet evs = true.

(** The computation [m] takes steady worlds to steady worlds, however
    it ends. *)
Definition keeps {A} (w1 : world) (m : M A) : Prop :=
  forall w, steady w1 w -> after m (fun _ w' => steady w1 w') w.

End Workflow.

(** ** Sample worlds

    A platform, surroundings and worlds to run the workflow on. *)

Module Sample.

Local Open Scope string_scope.

Definition plat : platform :=
  Platform ["rapt"] ["rapt"; "Sdk"]
    ["rapt"; "Sdk"; "cmdline-tools"; "latest"; "bin"; "sdkmanager"]
    (txt "javac") (txt "java") (txt "keytool") (txt "7583922_latest")
    false false true.

Definition sdk_zip : content :=
  Zip [(["cmdline-tools"; "bin"; "sdkmanager"], Some (txt "#!/bin/sh"));
       (["cmdline-tools"; "lib"], None)].

(** The keystore a key-generation command line names, if it is one. *)
Definition keystore_of (args : list str) : option path :=
  match args with
  | _ :: g :: _ :: name :: _ =>
      if bool_decide (g = txt "-genkey") then Some (Paths.components name)
      else None
  | _ => None
  end.

(** External processes: the key tool writes the keystore it is asked
    for, one of the two the workflow knows, into the RAPT directory;
    every other tool succeeds and changes nothing. *)
Definition processes (n : node) (args : list str) : outcome :=
  match keystore_of args with
  | Some name =>
      if bool_decide (name = ["android.keystore"])
         || bool_decide (name = ["bundle.keystore"])
      then
        match FS.write_text (["rapt"] ++ name) (txt "KEY") n with
        | Ok n' => Exit0 n'
        | Raise _ => ExitNonZero n
        end
      else ExitNonZero n
  | None => Exit0 n
  end.

(** A user who says no to every question asked before [agree_from]
    events have happened and yes from then on. *)
Definition ui (agree_from : nat) : interface :=
  Interface
    (fun tr _ => Nat.leb agree_from (length tr))
    (fun _ _ => txt "Me")
    (fun _ => true)
    (fun _ _ => Some sdk_zip)
    (fun _ n _ args => processes n args).

(** Nothing but the RAPT directory. *)
Definition fresh : world :=
  World (Dir (<["rapt" := Dir ∅]> ∅)) [] [] [].

(** A project directory without any file, and no keystore. *)
Definition project_only : world :=
  World (Dir (<["rapt" := Dir (<["project" := Dir ∅]> ∅)]> ∅)) [] [] [].

(** A world whose only file is a property file with the given content. *)
Definition with_properties (c : content) : world :=
  World
    (Dir (<["rapt" :=
             Dir (<["project" :=
                     Dir (<["local.properties" := File c]> ∅)]> ∅)]> ∅))
    [] [] [].

Definition properties : path := ["rapt"; "project"; "local.properties"].

(** The world a first run with a user who agrees to everything leaves. *)
Definition provisioned : world :=
  snd (install_sdk plat (ui 0) fresh).

(** The project directory after the default writes of [generate_keys]. *)
Definition seeded : world :=
  snd (seed_defaults properties (default_keystore plat "android.keystore")
         project_only).

Definition archive : str := txt "commandlinetools-linux-7583922_latest.zip".

(** The archive has arrived and nothing is unpacked yet. *)
Definition downloaded : world :=
  World
    (Dir (<["rapt" :=
             Dir (<["commandlinetools-linux-7583922_latest.zip" :=
                     File sdk_zip]> ∅)]> ∅))
    [] [] [].

(** The file system once the archive is unpacked under [Sdk]. *)
Definition unzipped : node :=
  match extractall ["rapt"; "Sdk"] [(["cmdline-tools"; "bin"; "sdkmanager"], Some (txt "#!/bin/sh"));
       (["cmdline-tools"; "lib"], None)] (fs downloaded) with
  | Ok n => n
  | Raise _ => fs downloaded
  end.

(** What the archive unpacks as [cmdline-tools]. *)
Definition tools : node :=
  Dir (<["bin" := Dir (<["sdkmanager" := File (Text (txt "#!/bin/sh"))]> ∅)]>
         (<["lib" := Dir ∅]> ∅)).

End Sample.

(** ** The rest of the property store and of the key steps *)

(** What [get_local_key_properties] ends with: the list it returns (an
    element is [None] where [get_property] found nothing), an exception
    of the read, or the [TypeError] of ["pass:" + None]. *)
Inductive key_properties :=
  | KeyArgs (args : list (option str))
  | KeyRaise (e : exn)
  | KeyTypeError.

Section KeyProperties.

Context (plat : platform).

(** [get_local_key_properties()]: the elements of the list are
    evaluated from left to right; ["pass:" + get_property(...)] is a
    [TypeError] when the property is not there. *)
Definition get_local_key_properties : world -> key_properties * world :=
  fun w =>
    match get_property (local_properties plat) (txt "key.store") w with
    | (Raise e, w1) => (KeyRaise e, w1)
    | (Ok store, w1) =>
    match get_property (local_properties plat) (txt "key.store.password") w1 with
    | (Raise e, w2) => (KeyRaise e, w2)
    | (Ok None, w2) => (KeyTypeError, w2)
    | (Ok (Some store_password), w2) =>
    match get_property (local_properties plat) (txt "key.alias") w2 with
    | (Raise e, w3) => (KeyRaise e, w3)
    | (Ok alias, w3) =>
    match get_property (local_properties plat) (txt "key.alias.password") w3 with
    | (Raise e, w4) => (KeyRaise e, w4)
    | (Ok None, w4) => (KeyTypeError, w4)
    | (Ok (Some alias_password), w4) =>
        (KeyArgs [Some (txt "--ks"); store;
                  Some (txt "--ks-pass"); Some (txt "pass:" ++ store_password);
                  Some (txt "--ks-key-alias"); alias;
                  Some (txt "--key-pass"); Some (txt "pass:" ++ alias_password)],
         w4)
    end end end end.

End KeyProperties.

(** What a default write makes of the lines [ls] of a file: the line of
    the key joins them at the end when no line has the key yet. *)
Definition seed_line (k v : str) (ls : list str) : list str :=
  if key_absent k ls then ls ++ [Py.format_property k v] else ls.

(** The lines after the four default writes of a key step. *)
Definition seeded_lines (store : str) (ls : list str) : list str :=
  seed_line (txt "key.store") store
    (seed_line (txt "key.alias.password") (txt "android")
       (seed_line (txt "key.store.password") (txt "android")
          (seed_line (txt "key.alias") (txt "android") ls))).

(** The lines of [ls] that have the key. *)
Definition lines_with (key : str) (ls : list str) : list str :=
  List.filter (fun l => bool_decide (line_key l = key)) ls.

(** Only white space. *)
Definition blank (s : str) : bool := forallb Py.is_space s.

(** ** More sample worlds *)

Module Cases.

Local Open Scope string_scope.

(** Surroundings in which nothing works: the user agrees to the
    questions but not to the terms, nothing can be downloaded and no
    executable is found. *)
Definition nothing_works : interface :=
  Interface (fun _ _ => true) (fun _ _ => []) (fun _ => false)
    (fun _ _ => None) (fun _ _ _ _ => NotFound).

(** An SDK directory with both wanted packages. *)
Definition with_packages : world :=
  World
    (Dir (<["rapt" :=
             Dir (<["Sdk" :=
                     Dir (<["platform-tools" := Dir ∅]>
                            (<["platforms" :=
                                Dir (<["android-30" := Dir ∅]> ∅)]> ∅))]>
                    ∅)]> ∅))
    [] [] [].

End Cases.

(** ** Facts about text *)

Section TextFacts.

Lemma lstrip_length (s : str) : length (Py.lstrip s) <= length s.
Proof.
  induction s as [|c r IH]; simpl; [lia|].
  destruct (Py.is_space c); simpl; lia.
Qed.

Lemma rstrip_length (s : str) : length (Py.rstrip s) <= length s.
Proof.
  unfold Py.rstrip. rewrite length_rev.
  etransitivity; [apply lstrip_length|]. now rewrite length_rev.
Qed.

Lemma strip_fixed_lstrip (v : str) : Py.strip v = v -> Py.lstrip v = v.
Proof.
  intros H. destruct v as [|c r]; [reflexivity|].
  simpl. destruct (Py.is_space c) eqn:E; [|reflexivity].
  exfalso. unfold Py.strip in H. simpl in H. rewrite E in H.
  pose proof (rstrip_length (Py.lstrip r)) as H1.
  pose proof (lstrip_length r) as H2.
  rewrite H in H1. simpl in H1. lia.
Qed.

Lemma strip_fixed_rstrip (v : str) : Py.strip v = v -> Py.rstrip v = v.
Proof.
  intros H. pose proof (strip_fixed_lstrip v H) as L.
  unfold Py.strip in H. now rewrite L in H.
Qed.

Lemma rstrip_snoc_space (s : str) (c : ascii) :
  Py.is_space c = true -> Py.rstrip (s ++ [c]) = Py.rstrip s.
Proof.
  intros E. unfold Py.rstrip. rewrite rev_app_distr. simpl. now rewrite E.
Qed.

Lemma lstrip_fixed_app (v t : str) :
  v <> [] -> Py.lstrip v = v -> Py.lstrip (v ++ t) = v ++ t.
Proof.
  destruct v as [|c r]; [congruence|]. intros _ H. simpl in *.
  destruct (Py.is_space c) eqn:E; [|reflexivity].
  exfalso. pose proof (lstrip_length r) as H2. rewrite H in H2. simpl in H2. lia.
Qed.

(** A stripped value is read back from its line as it was written. *)
Lemma strip_value_line (v : str) :
  Py.strip v = v -> Py.strip (v ++ [Py.LF]) = v.
Proof.
  intros H. destruct v as [|c r]; [reflexivity|].
  unfold Py.strip.
  rewrite lstrip_fixed_app by (try discriminate; now apply strip_fixed_lstrip).
  rewrite rstrip_snoc_space by reflexivity.
  now apply strip_fixed_rstrip.
Qed.

Lemma partition_at (sep : ascii) (a b : str) :
  sep ∉ a -> Py.partition sep (a ++ sep :: b) = (a, [sep], b).
Proof.
  induction a as [|c r IH]; intros Hn; simpl.
  - now rewrite Ascii.eqb_refl.
  - destruct (Ascii.eqb c sep) eqn:E.
    + apply Ascii.eqb_eq in E. subst. exfalso. apply Hn. left.
    + rewrite IH; [reflexivity|]. intros Hin. apply Hn. now right.
Qed.

Lemma partition_absent (sep : ascii) (s : str) :
  sep ∉ s -> Py.partition sep s = (s, [], []).
Proof.
  induction s as [|c r IH]; intros Hn; simpl; [reflexivity|].
  destruct (Ascii.eqb c sep) eqn:E.
  - apply Ascii.eqb_eq in E. subst. exfalso. apply Hn. left.
  - rewrite IH; [reflexivity|]. intros Hin. apply Hn. now right.
Qed.

Lemma universal_newlines_id (s : str) :
  Py.CR ∉ s -> Py.universal_newlines s = s.
Proof.
  induction s as [|c r IH]; intros Hn; [reflexivity|].
  simpl. destruct (Ascii.eqb c Py.CR) eqn:E.
  - apply Ascii.eqb_eq in E. subst. exfalso. apply Hn. left.
  - f_equal. apply IH. intros Hin. apply Hn. now right.
Qed.

Lemma concat_iter_lines (s : str) : concat (Py.iter_lines s) = s.
Proof.
  induction s as [|c r IH]; [reflexivity|].
  simpl. destruct (Ascii.eqb c Py.LF).
  - simpl. now rewrite IH.
  - destruct (Py.iter_lines r) as [|l ls]; simpl in *.
    + now rewrite <- IH.
    + now rewrite <- IH.
Qed.

Lemma iter_lines_line (b r : str) :
  Py.LF ∉ b -> Py.iter_lines (b ++ Py.LF :: r) = (b ++ [Py.LF]) :: Py.iter_lines r.
Proof.
  induction b as [|c b IH]; intros Hn; simpl.
  - reflexivity.
  - destruct (Ascii.eqb c Py.LF) eqn:E.
    + apply Ascii.eqb_eq in E. subst. exfalso. apply Hn. left.
    + rewrite IH; [reflexivity|]. intros Hin. apply Hn. now right.
Qed.

End TextFacts.

(** ** Facts about property lines *)

Section LineFacts.

Lemma no_breaks_spec (s : str) :
  no_breaks s = true -> (Py.LF ∉ s) /\ (Py.CR ∉ s).
Proof.
  induction s as [|c r IH]; simpl; intros H.
  - split; apply not_elem_of_nil.
  - apply andb_prop in H as [Hc Hr]. apply andb_prop in Hc as [H1 H2].
    apply negb_true_iff in H1, H2. apply Ascii.eqb_neq in H1, H2.
    destruct (IH Hr) as [I1 I2].
    split; intros Hin; apply elem_of_cons in Hin as [E|Hin]; try tauto; congruence.
Qed.

Lemma no_breaks_app (a b : str) :
  no_breaks (a ++ b) = no_breaks a && no_breaks b.
Proof. unfold no_breaks. apply forallb_app. Qed.

Lemma whole_line_inv (l : str) :
  whole_line l = true -> exists b, l = b ++ [Py.LF] /\ no_breaks b = true.
Proof.
  unfold whole_line. destruct (rev l) as [|c b] eqn:E; [discriminate|].
  intros H. apply andb_prop in H as [Hc Hb]. apply Ascii.eqb_eq in Hc. subst c.
  exists (rev b). split.
  - rewrite <- (rev_involutive l), E. reflexivity.
  - unfold no_breaks in *. rewrite forallb_forall in *.
    intros x Hx. apply Hb. now apply in_rev.
Qed.

Lemma whole_line_intro (b : str) :
  no_breaks b = true -> whole_line (b ++ [Py.LF]) = true.
Proof.
  intros H. unfold whole_line. rewrite rev_app_distr. simpl.
  unfold no_breaks in *. rewrite forallb_forall in *.
  intros x Hx. apply H. now apply in_rev.
Qed.

Lemma whole_line_format (k v : str) :
  no_breaks k = true -> no_breaks v = true ->
  whole_line (Py.format_property k v) = true.
Proof.
  intros Hk Hv. unfold Py.format_property.
  replace (k ++ Py.EQUALS :: v ++ [Py.LF])
    with ((k ++ Py.EQUALS :: v) ++ [Py.LF])
    by (rewrite <- app_assoc; reflexivity).
  apply whole_line_intro.
  rewrite no_breaks_app, Hk. simpl. exact Hv.
Qed.

Lemma universal_newlines_app (a t : str) :
  Py.CR ∉ a -> Py.universal_newlines (a ++ t) = a ++ Py.universal_newlines t.
Proof.
  induction a as [|c r IH]; intros Hn; [reflexivity|].
  simpl. destruct (Ascii.eqb c Py.CR) eqn:E.
  - apply Ascii.eqb_eq in E. subst. exfalso. apply Hn. left.
  - f_equal. apply IH. intros Hin. apply Hn. now right.
Qed.

Lemma concat_no_CR (ls : list str) :
  forallb whole_line ls = true -> Py.CR ∉ concat ls.
Proof.
  induction ls as [|l ls IH]; simpl; intros H.
  - apply not_elem_of_nil.
  - apply andb_prop in H as [Hl Hls].
    apply whole_line_inv in Hl as (b & -> & Hb).
    apply no_breaks_spec in Hb as [_ Hb].
    intros Hin. apply elem_of_app in Hin as [Hin|Hin]; [|now apply IH].
    apply elem_of_app in Hin as [Hin|Hin]; [tauto|].
    apply list_elem_of_singleton in Hin. discriminate.
Qed.

Lemma iter_lines_whole (ls : list str) (t : str) :
  forallb whole_line ls = true ->
  Py.iter_lines (concat ls ++ t) = ls ++ Py.iter_lines t.
Proof.
  induction ls as [|l ls IH]; simpl; intros H; [reflexivity|].
  apply andb_prop in H as [Hl Hls].
  apply whole_line_inv in Hl as (b & -> & Hb).
  apply no_breaks_spec in Hb as [Hb _].
  rewrite <- !app_assoc. simpl.
  rewrite iter_lines_line by assumption. now rewrite IH.
Qed.

(** Reading back what was written after whole lines gives these lines
    and then the lines of the rest. *)
Lemma lines_of_whole (ls : list str) (t : str) :
  forallb whole_line ls = true ->
  Py.lines_of (concat ls ++ t) = ls ++ Py.lines_of t.
Proof.
  intros H. unfold Py.lines_of.
  rewrite universal_newlines_app by now apply concat_no_CR.
  now apply iter_lines_whole.
Qed.

Lemma lines_of_one (l : str) :
  whole_line l = true -> Py.lines_of l = [l].
Proof.
  intros H. pose proof (lines_of_whole [l] [] ) as E. simpl in E.
  rewrite !app_nil_r in E. apply E. now rewrite H.
Qed.

Lemma lines_of_written (ls : list str) (k v : str) :
  forallb whole_line ls = true -> no_breaks k = true -> no_breaks v = true ->
  Py.lines_of (concat ls ++ Py.format_property k v)
  = ls ++ [Py.format_property k v].
Proof.
  intros H Hk Hv. rewrite lines_of_whole by assumption.
  now rewrite lines_of_one by now apply whole_line_format.
Qed.

Lemma clean_key_spec (k : str) :
  clean_key k = true ->
  Py.strip k = k /\ no_breaks k = true /\ (Py.EQUALS ∉ k).
Proof.
  unfold clean_key. intros H.
  apply andb_prop in H as [H H3]. apply andb_prop in H as [H1 H2].
  apply bool_decide_eq_true in H1. repeat split; try assumption.
  apply negb_true_iff in H3. intros Hin.
  assert (existsb (Ascii.eqb Py.EQUALS) k = true); [|congruence].
  apply existsb_exists. exists Py.EQUALS. split.
  - now apply list_elem_of_In.
  - apply Ascii.eqb_refl.
Qed.

Lemma clean_value_spec (v : str) :
  clean_value v = true -> Py.strip v = v /\ no_breaks v = true.
Proof.
  unfold clean_value. intros H. apply andb_prop in H as [H1 H2].
  apply bool_decide_eq_true in H1. now split.
Qed.

Lemma partition_format (k v : str) :
  Py.EQUALS ∉ k ->
  Py.partition Py.EQUALS (Py.format_property k v)
  = (k, [Py.EQUALS], v ++ [Py.LF]).
Proof. intros H. unfold Py.format_property. now apply partition_at. Qed.

Lemma line_key_format (k v : str) :
  clean_key k = true -> line_key (Py.format_property k v) = k.
Proof.
  intros H. apply clean_key_spec in H as (H1 & _ & H3).
  unfold line_key. now rewrite partition_format.
Qed.

Lemma find_property_cons (key l : str) (ls : list str) :
  find_property key (l :: ls)
  = if bool_decide (line_key l = key)
    then Some (Py.strip (snd (Py.partition Py.EQUALS l)))
    else find_property key ls.
Proof.
  simpl. unfold line_key.
  destruct (Py.partition Py.EQUALS l) as [[a m] b]. reflexivity.
Qed.

Lemma find_property_app (key : str) (a b : list str) :
  find_property key (a ++ b)
  = match find_property key a with
    | Some v => Some v
    | None => find_property key b
    end.
Proof.
  induction a as [|l a IH]; [reflexivity|].
  rewrite <- app_comm_cons, !find_property_cons.
  destruct (bool_decide (line_key l = key)); [reflexivity|apply IH].
Qed.

Lemma find_property_absent (key : str) (ls : list str) :
  key_absent key ls = true -> find_property key ls = None.
Proof.
  induction ls as [|l ls IH]; [reflexivity|].
  simpl key_absent. intros H. apply andb_prop in H as [H1 H2].
  rewrite find_property_cons.
  apply negb_true_iff in H1. rewrite H1. now apply IH.
Qed.

Lemma find_property_present (key : str) (ls : list str) :
  key_absent key ls = false -> exists v, find_property key ls = Some v.
Proof.
  induction ls as [|l ls IH]; [discriminate|].
  simpl key_absent. rewrite find_property_cons.
  destruct (bool_decide (line_key l = key)); simpl; eauto.
Qed.

Lemma find_property_format (k v : str) :
  clean_key k = true -> clean_value v = true ->
  find_property k [Py.format_property k v] = Some v.
Proof.
  intros Hk Hv. rewrite find_property_cons.
  rewrite line_key_format by assumption.
  rewrite bool_decide_eq_true_2 by reflexivity.
  apply clean_key_spec in Hk as (_ & _ & Hk).
  apply clean_value_spec in Hv as (Hv & _).
  rewrite partition_format by assumption. simpl.
  now rewrite strip_value_line.
Qed.

Lemma scan_lines_replace (key : str) (ls : list str) :
  scan_lines key true ls = Collected (others key ls).
Proof.
  induction ls as [|l ls IH]; [reflexivity|].
  simpl. destruct (bool_decide (line_key l = key)); simpl; [exact IH|].
  now rewrite IH.
Qed.

Lemma scan_lines_absent (key : str) (replace : bool) (ls : list str) :
  key_absent key ls = true -> scan_lines key replace ls = Collected ls.
Proof.
  induction ls as [|l ls IH]; [reflexivity|].
  simpl. intros H. apply andb_prop in H as [H1 H2].
  apply negb_true_iff in H1. rewrite H1. now rewrite IH.
Qed.

Lemma scan_lines_present (key : str) (ls : list str) :
  key_absent key ls = false -> scan_lines key false ls = Returned.
Proof.
  induction ls as [|l ls IH]; [discriminate|].
  simpl. destruct (bool_decide (line_key l = key)); simpl; [reflexivity|].
  intros H. now rewrite IH.
Qed.

Lemma others_absent (key : str) (ls : list str) :
  key_absent key (others key ls) = true.
Proof.
  unfold key_absent, others. apply forallb_forall.
  intros l Hl. now apply filter_In in Hl as [_ Hl].
Qed.

Lemma others_whole (key : str) (ls : list str) :
  forallb whole_line ls = true -> forallb whole_line (others key ls) = true.
Proof.
  rewrite !forallb_forall. intros H l Hl.
  apply H. unfold others in Hl. now apply filter_In in Hl as [Hl _].
Qed.

Lemma others_id (key : str) (ls : list str) :
  key_absent key ls = true -> others key ls = ls.
Proof.
  induction ls as [|l ls IH]; [reflexivity|].
  simpl. intros H. apply andb_prop in H as [H1 H2].
  rewrite H1. now rewrite IH.
Qed.

End LineFacts.

(** ** Facts about the file system *)

Section FileSystemFacts.

Lemma lookup_app (p q : path) (n : node) :
  FS.lookup (p ++ q) n
  = match FS.lookup p n with Some x => FS.lookup q x | None => None end.
Proof.
  revert n. induction p as [|c p IH]; intros n; [reflexivity|].
  simpl. destruct n as [f|es]; [reflexivity|].
  destruct (es !! c); [apply IH|reflexivity].
Qed.

Lemma lookup_set_entry (c d : string) (v : option node) (es : gmap string node) :
  FS.set_entry c v es !! d = if decide (c = d) then v else es !! d.
Proof.
  unfold FS.set_entry. destruct v as [x|].
  - apply lookup_insert.
  - rewrite lookup_delete. now destruct (decide (c = d)).
Qed.

Lemma put_nil (v : option node) (n : node) : FS.put [] v n = None.
Proof. now destruct n. Qed.

Lemma put_file (p : path) (v : option node) (f : content) :
  FS.put p v (File f) = None.
Proof. now destruct p. Qed.

(** What was put is found. *)
Lemma lookup_put (p : path) (v : option node) (n n' : node) :
  FS.put p v n = Some n' -> FS.lookup p n' = v.
Proof.
  revert n n'. induction p as [|c p IH]; intros n n' H.
  - now rewrite put_nil in H.
  - destruct n as [f|es]; [discriminate|]. simpl in H.
    destruct p as [|d p].
    + injection H as <-. simpl. rewrite lookup_set_entry.
      rewrite decide_True by reflexivity. now destruct v.
    + destruct (es !! c) as [n1|]; [|discriminate].
      destruct (FS.put (d :: p) v n1) as [n2|] eqn:E; [|discriminate].
      injection H as <-.
      change (FS.lookup (c :: d :: p) (Dir (<[c:=n2]> es)))
        with (match <[c:=n2]> es !! c with
              | Some x => FS.lookup (d :: p) x | None => None end).
      rewrite lookup_insert_eq. now apply (IH n1).
Qed.

Lemma lookup_put_under (p q : path) (x n n' : node) :
  FS.put p (Some x) n = Some n' -> FS.lookup (p ++ q) n' = FS.lookup q x.
Proof. intros H. rewrite lookup_app. now rewrite (lookup_put _ _ _ _ H). Qed.

Lemma diverge_cons (c d : string) (p q : path) :
  FS.diverge (c :: p) (d :: q) = true -> c <> d \/ (c = d /\ FS.diverge p q = true).
Proof.
  simpl. destruct (String.eqb c d) eqn:E.
  - apply String.eqb_eq in E. auto.
  - apply String.eqb_neq in E. auto.
Qed.

(** A path that parts ways with [p] sees nothing of a change at [p]. *)
Lemma lookup_put_diverge (p q : path) (v : option node) (n n' : node) :
  FS.put p v n = Some n' -> FS.diverge p q = true ->
  FS.lookup q n' = FS.lookup q n.
Proof.
  revert q n n'. induction p as [|c p IH]; intros q n n' H D.
  - now rewrite put_nil in H.
  - destruct q as [|d q]; [discriminate|].
    destruct n as [f|es]; [discriminate|]. simpl in H.
    apply diverge_cons in D.
    destruct p as [|e p].
    + injection H as <-. simpl. rewrite lookup_set_entry.
      destruct D as [D|[_ D]]; [|discriminate].
      now rewrite decide_False.
    + destruct (es !! c) as [n1|] eqn:L; [|discriminate].
      destruct (FS.put (e :: p) v n1) as [n2|] eqn:E; [|discriminate].
      injection H as <-.
      change (FS.lookup (d :: q) (Dir (<[c:=n2]> es)))
        with (match <[c:=n2]> es !! d with
              | Some x => FS.lookup q x | None => None end).
      change (FS.lookup (d :: q) (Dir es))
        with (match es !! d with
              | Some x => FS.lookup q x | None => None end).
      destruct D as [D|[<- D]].
      * now rewrite lookup_insert_ne.
      * rewrite lookup_insert_eq, L. now apply (IH q n1).
Qed.

Lemma diverge_app (r a b : path) :
  FS.diverge (r ++ a) (r ++ b) = FS.diverge a b.
Proof.
  induction r as [|c r IH]; [reflexivity|].
  simpl. now rewrite String.eqb_refl.
Qed.

Lemma diverge_sym (p q : path) : FS.diverge p q = FS.diverge q p.
Proof.
  revert q. induction p as [|c p IH]; intros [|d q]; try reflexivity.
  simpl. rewrite (String.eqb_sym d c). destruct (String.eqb c d); auto.
Qed.

(** Where something is, something can be put. *)
Lemma put_over (p : path) (v : option node) (n x : node) :
  p <> [] -> FS.lookup p n = Some x -> exists n', FS.put p v n = Some n'.
Proof.
  revert n. induction p as [|c p IH]; intros n Hp H; [congruence|].
  destruct n as [f|es]; [discriminate|]. simpl in H |- *.
  destruct p as [|d p]; [eauto|].
  destruct (es !! c) as [n1|]; [|discriminate].
  destruct (IH n1) as [n2 E]; [discriminate|exact H|].
  rewrite E. eauto.
Qed.

(** Into a directory something can be put. *)
Lemma put_into (p : path) (c : string) (v : option node) (n : node) :
  FS.is_dir p n = true -> exists n', FS.put (p ++ [c]) v n = Some n'.
Proof.
  revert n. induction p as [|d p IH]; intros n H.
  - unfold FS.is_dir in H. simpl in H. destruct n as [f|es]; [discriminate|].
    simpl. eauto.
  - unfold FS.is_dir in H. simpl in H.
    destruct n as [f|es]; [discriminate|].
    destruct (es !! d) as [n1|] eqn:L; [|discriminate].
    destruct (IH n1) as [n2 E]; [exact H|].
    simpl. rewrite L. destruct (p ++ [c]) eqn:Q.
    + now destruct p.
    + rewrite E. eauto.
Qed.

End FileSystemFacts.

(** ** Reading and writing property files *)

Section PropertyFiles.

Lemma set_property_unfold (p : path) (key v : str) (r : bool) (w : world) :
  set_property p key v r w
  = match scan_lines key r (fst (read_lines p (fs w))) with
    | Returned => (Ok tt, w)
    | Collected lines =>
        on_fs (FS.write_text p (concat lines ++ Py.format_property key v)) w
    end.
Proof.
  unfold set_property. now destruct (read_lines p (fs w)).
Qed.

Lemma get_property_unfold (p : path) (key : str) (w : world) :
  get_property p key w
  = match find_property key (fst (read_lines p (fs w))) with
    | Some v => (Ok (Some v), w)
    | None =>
        match snd (read_lines p (fs w)) with
        | Some e => (Raise e, w)
        | None => (Ok None, w)
        end
    end.
Proof.
  unfold get_property. now destruct (read_lines p (fs w)).
Qed.

(** Writing over a file succeeds and leaves the new text there. *)
Lemma write_text_over (p : path) (s : str) (n : node) (f : content) :
  p <> [] -> FS.lookup p n = Some (File f) ->
  exists n', FS.write_text p s n = Ok n'
             /\ FS.put p (Some (File (Text s))) n = Some n'.
Proof.
  intros Hp H. unfold FS.write_text, FS.write_file. rewrite H.
  destruct (put_over p (Some (File (Text s))) n _ Hp H) as [n' E].
  rewrite E. eauto.
Qed.

(** Writing a new file into a directory succeeds as well. *)
Lemma write_text_new (d : path) (c : string) (s : str) (n : node) :
  FS.is_dir d n = true -> FS.lookup (d ++ [c]) n = None ->
  exists n', FS.write_text (d ++ [c]) s n = Ok n'
             /\ FS.put (d ++ [c]) (Some (File (Text s))) n = Some n'.
Proof.
  intros Hd H. unfold FS.write_text, FS.write_file. rewrite H.
  destruct (put_into d c (Some (File (Text s))) n Hd) as [n' E].
  rewrite E. eauto.
Qed.

End PropertyFiles.

(** ** The claims about single operations *)

(** C7: [run] and [run_slow] give [True] for a process that exits with
    status zero and the same [False] both for a process that exits with
    another status and for an executable that is not found. *)
Theorem run_collapses_failures (ui : interface) (args : list str)
    (use_path yes : bool) (w : world) :
  let verdict :=
    match call_outcome ui (trace w) (fs w) (cwd w) args with
    | Exit0 _ => Ok true
    | ExitNonZero _ => Ok false
    | NotFound => Ok false
    end in
  fst (run ui args use_path yes w) = verdict
  /\ fst (run_slow ui args use_path yes w) = verdict.
Proof.
  unfold run, run_slow, call. simpl.
  destruct (call_outcome ui (trace w) (fs w) (cwd w) args); simpl; auto.
Qed.




(** C5: with the SDK manager in place [unpack_sdk] reports success and
    returns: its only trace is the success message (no terms prompt, no
    download, no background extraction) and the file system is as it
    was. *)
Theorem unpack_sdk_already_unpacked (plat : platform) (ui : interface)
    (w : world) :
  FS.exists_ (sdkmanager plat) (fs w) = true ->
  unpack_sdk plat ui w
  = (Ok tt, with_event (Success "The Android SDK has already been unpacked.") w).
Proof.
  intros H. unfold unpack_sdk, bind, path_exists. now rewrite H.
Qed.

(** C9: when the read of an existing property file stops with an
    exception, whichever it is, after the lines [ls] have arrived (and
    the loop has not returned from the function before),
    [set_property] raises nothing and rewrites the file with the lines
    of [ls] it keeps followed by the new line; the rest of the file is
    gone. *)
Theorem set_property_swallows_read_error (p : path) (key v : str)
    (replace : bool) (ls : list str) (e : exn) (w : world) :
  p <> [] ->
  FS.lookup p (fs w) = Some (File (Faulty ls e)) ->
  replace = true \/ key_absent key ls = true ->
  exists n',
    set_property p key v replace w = (Ok tt, with_fs n' w)
    /\ FS.lookup p n'
       = Some (File (Text (concat (others key ls) ++ Py.format_property key v))).
Proof.
  intros Hp H C. rewrite set_property_unfold.
  unfold read_lines. rewrite H. simpl fst.
  assert (scan_lines key replace ls = Collected (others key ls)) as ->.
  { destruct C as [->|A]; [apply scan_lines_replace|].
    rewrite scan_lines_absent by assumption. now rewrite others_id. }
  destruct (write_text_over p
              (concat (others key ls) ++ Py.format_property key v)
              (fs w) _ Hp H) as (n' & W & P).
  exists n'. unfold on_fs. rewrite W. split; [reflexivity|].
  now apply lookup_put in P.
Qed.

(** An unreadable property file is cut down to the one new line. *)
Lemma set_property_swallows_read_error_witness :
  exists n',
    set_property Sample.properties (txt "sdk.dir") (txt "/rapt/Sdk") true
      (Sample.with_properties (Faulty [] UnicodeDecodeError))
    = (Ok tt, with_fs n' (Sample.with_properties (Faulty [] UnicodeDecodeError)))
    /\ FS.lookup Sample.properties n'
       = Some (File (Text (txt "sdk.dir=/rapt/Sdk" ++ [Py.LF]))).
Proof.
  apply (set_property_swallows_read_error Sample.properties
           (txt "sdk.dir") (txt "/rapt/Sdk") true [] UnicodeDecodeError).
  - discriminate.
  - reflexivity.
  - left. reflexivity.
Defined.

Lemma others_app (key : str) (a b : list str) :
  others key (a ++ b) = others key a ++ others key b.
Proof. unfold others. apply List.filter_app. Qed.

Lemma key_absent_app (key : str) (a b : list str) :
  key_absent key (a ++ b) = key_absent key a && key_absent key b.
Proof. unfold key_absent. apply List.forallb_app. Qed.

(** C10: a line without an equals sign counts as a line of the key it
    spells, with an empty value: [get_property] returns the empty text,
    [set_property] without [replace] finds the key and does nothing,
    and [set_property] with [replace] drops the bare line. *)
Theorem bare_line_is_a_key (p : path) (key v s l : str)
    (pre post : list str) (w : world) :
  p <> [] ->
  FS.lookup p (fs w) = Some (File (Text s)) ->
  Py.lines_of s = pre ++ l :: post ->
  key_absent key pre = true ->
  Py.EQUALS ∉ l ->
  Py.strip l = key ->
  get_property p key w = (Ok (Some []), w)
  /\ set_property p key v false w = (Ok tt, w)
  /\ exists n',
       set_property p key v true w = (Ok tt, with_fs n' w)
       /\ FS.lookup p n'
          = Some (File (Text (concat (others key (pre ++ post))
                              ++ Py.format_property key v))).
Proof.
  intros Hp H L A Hl K.
  assert (line_key l = key) as LK.
  { unfold line_key. now rewrite partition_absent. }
  split; [|split].
  - rewrite get_property_unfold. unfold read_lines. rewrite H. simpl fst.
    rewrite L, find_property_app, find_property_absent by assumption.
    rewrite find_property_cons, bool_decide_eq_true_2 by assumption.
    now rewrite partition_absent.
  - rewrite set_property_unfold. unfold read_lines. rewrite H. simpl fst.
    rewrite scan_lines_present; [reflexivity|].
    rewrite L, key_absent_app. simpl.
    rewrite bool_decide_eq_true_2 by assumption.
    apply andb_false_r.
  - rewrite set_property_unfold. unfold read_lines. rewrite H. simpl fst.
    rewrite scan_lines_replace.
    assert (others key (Py.lines_of s) = others key (pre ++ post)) as ->.
    { rewrite L, !others_app. simpl.
      now rewrite bool_decide_eq_true_2 by assumption. }
    destruct (write_text_over p
                (concat (others key (pre ++ post)) ++ Py.format_property key v)
                (fs w) _ Hp H) as (n' & W & P).
    exists n'. unfold on_fs. rewrite W. split; [reflexivity|].
    now apply lookup_put in P.
Qed.

(** The claim's own instance: a file whose second line is a bare [k]. *)
Lemma bare_line_is_a_key_witness :
  let w := Sample.with_properties (Text (txt "a=1" ++ Py.LF :: txt "k" ++ [Py.LF])) in
  get_property Sample.properties (txt "k") w = (Ok (Some []), w)
  /\ set_property Sample.properties (txt "k") (txt "2") false w = (Ok tt, w)
  /\ exists n',
       set_property Sample.properties (txt "k") (txt "2") true w
       = (Ok tt, with_fs n' w)
       /\ FS.lookup Sample.properties n'
          = Some (File (Text (txt "a=1" ++ Py.LF :: txt "k=2" ++ [Py.LF]))).
Proof.
  apply (bare_line_is_a_key Sample.properties (txt "k") (txt "2")
           (txt "a=1" ++ Py.LF :: txt "k" ++ [Py.LF]) (txt "k" ++ [Py.LF])
           [txt "a=1" ++ [Py.LF]] []).
  - discriminate.
  - reflexivity.
  - reflexivity.
  - reflexivity.
  - vm_compute. intros H. repeat (apply elem_of_cons in H as [H|H]; [discriminate|]).
    now apply not_elem_of_nil in H.
  - reflexivity.
Defined.

(** ** Writing a property and reading it back *)

Section RoundTrip.

Lemma writable_write (f : path) (s : str) (n : node) :
  FS.writable f n = true ->
  exists n', FS.write_text f s n = Ok n'
             /\ FS.put f (Some (File (Text s))) n = Some n'.
Proof.
  unfold FS.writable. destruct f as [|c f]; [discriminate|].
  destruct (FS.lookup (c :: f) n) as [[x|es]|] eqn:L; try discriminate.
  - intros _. now apply (write_text_over _ _ _ x).
  - intros D.
    assert (c :: f <> []) as Hne by discriminate.
    rewrite (app_removelast_last c Hne) in L |- *.
    now apply write_text_new.
Qed.

Lemma written_writable (f : path) (c : content) (n n' : node) :
  FS.put f (Some (File c)) n = Some n' -> FS.writable f n' = true.
Proof.
  intros P. unfold FS.writable. destruct f as [|a f].
  - now rewrite put_nil in P.
  - now rewrite (lookup_put _ _ _ _ P).
Qed.

Lemma read_lines_written (f : path) (ls : list str) (k v : str) (n n' : node) :
  FS.put f (Some (File (Text (concat ls ++ Py.format_property k v)))) n = Some n' ->
  forallb whole_line ls = true -> no_breaks k = true -> no_breaks v = true ->
  read_lines f n' = (ls ++ [Py.format_property k v], None).
Proof.
  intros P W Hk Hv. unfold read_lines. rewrite (lookup_put _ _ _ _ P).
  now rewrite lines_of_written.
Qed.

(** What [set_property] does when its loop runs to the end of what the
    read delivers: the kept lines and the new line are written, and are
    what the next read delivers. *)
Lemma set_property_writes (f : path) (k v : str) (r : bool)
    (kept : list str) (w : world) :
  FS.writable f (fs w) = true ->
  scan_lines k r (fst (read_lines f (fs w))) = Collected kept ->
  forallb whole_line kept = true -> no_breaks k = true -> no_breaks v = true ->
  exists n',
    set_property f k v r w = (Ok tt, with_fs n' w)
    /\ FS.put f (Some (File (Text (concat kept ++ Py.format_property k v))))
         (fs w) = Some n'
    /\ read_lines f n' = (kept ++ [Py.format_property k v], None).
Proof.
  intros Hw S W Hk Hv. rewrite set_property_unfold, S.
  destruct (writable_write f (concat kept ++ Py.format_property k v)
              (fs w) Hw) as (n' & E & P).
  exists n'. unfold on_fs. rewrite E. repeat split; [exact P|].
  now apply (read_lines_written f kept k v (fs w)).
Qed.

Lemma key_absent_format (k v : str) :
  clean_key k = true -> key_absent k [Py.format_property k v] = false.
Proof.
  intros H. simpl. rewrite line_key_format by assumption.
  now rewrite bool_decide_eq_true_2.
Qed.

Lemma others_format (k v : str) (ls : list str) :
  clean_key k = true -> key_absent k ls = true ->
  others k (ls ++ [Py.format_property k v]) = ls.
Proof.
  intros Hk A. rewrite others_app, others_id by assumption.
  simpl. rewrite line_key_format by assumption.
  rewrite bool_decide_eq_true_2 by reflexivity. apply app_nil_r.
Qed.

End RoundTrip.

(** C2, as the code has it.  For a clean key (stripped, on one line,
    without an equals sign) and clean values (stripped, on one line),
    and a file that can be written, whose lines all end in a line break
    and among which the key does not occur yet: after
    [set_property(f, k, v)] a [get_property(f, k)] returns [v];
    [set_property(f, k, v2, replace=False)] then changes nothing;
    [set_property(f, k, v2, replace=True)] leaves the lines of the other
    keys as they were, in their order, followed by the line of [k] with
    [v2], and [get_property(f, k)] returns [v2]. *)
Theorem property_round_trip (f : path) (k v v2 : str) (ls : list str)
    (w : world) :
  clean_key k = true -> clean_value v = true -> clean_value v2 = true ->
  FS.writable f (fs w) = true ->
  fst (read_lines f (fs w)) = ls ->
  forallb whole_line ls = true ->
  key_absent k ls = true ->
  exists n1 n2,
    set_property f k v false w = (Ok tt, with_fs n1 w)
    /\ read_lines f n1 = (ls ++ [Py.format_property k v], None)
    /\ get_property f k (with_fs n1 w) = (Ok (Some v), with_fs n1 w)
    /\ set_property f k v2 false (with_fs n1 w) = (Ok tt, with_fs n1 w)
    /\ set_property f k v2 true (with_fs n1 w) = (Ok tt, with_fs n2 w)
    /\ read_lines f n2 = (ls ++ [Py.format_property k v2], None)
    /\ get_property f k (with_fs n2 w) = (Ok (Some v2), with_fs n2 w).
Proof.
  intros Hk Hv Hv2 Hw R W A.
  pose proof (clean_key_spec k Hk) as (_ & Bk & _).
  pose proof (clean_value_spec v Hv) as (_ & Bv).
  pose proof (clean_value_spec v2 Hv2) as (_ & Bv2).
  destruct (set_property_writes f k v false ls w Hw) as (n1 & S1 & P1 & R1);
    try assumption.
  { rewrite R. now apply scan_lines_absent. }
  assert (FS.writable f n1 = true) as Hw1 by now apply written_writable in P1.
  destruct (set_property_writes f k v2 true ls (with_fs n1 w)) as (n2 & S2 & P2 & R2);
    try assumption.
  { simpl. rewrite R1. simpl. rewrite scan_lines_replace.
    now rewrite others_format. }
  exists n1, n2. repeat split; try assumption.
  - rewrite get_property_unfold. simpl fs. rewrite R1. simpl fst. simpl snd.
    rewrite find_property_app, find_property_absent by assumption.
    now rewrite find_property_format.
  - rewrite set_property_unfold. simpl fs. rewrite R1. simpl fst.
    rewrite scan_lines_present; [reflexivity|].
    rewrite key_absent_app, key_absent_format by assumption.
    apply andb_false_r.
  - rewrite get_property_unfold. simpl fs. rewrite R2. simpl fst. simpl snd.
    rewrite find_property_app, find_property_absent by assumption.
    now rewrite find_property_format.
Qed.

Lemma property_round_trip_witness :
  let f := Sample.properties in
  let w := Sample.with_properties (Text (txt "x=1" ++ [Py.LF])) in
  let ls := [txt "x=1" ++ [Py.LF]] in
  exists n1 n2,
    set_property f (txt "a") (txt "1") false w = (Ok tt, with_fs n1 w)
    /\ read_lines f n1 = (ls ++ [Py.format_property (txt "a") (txt "1")], None)
    /\ get_property f (txt "a") (with_fs n1 w) = (Ok (Some (txt "1")), with_fs n1 w)
    /\ set_property f (txt "a") (txt "2") false (with_fs n1 w) = (Ok tt, with_fs n1 w)
    /\ set_property f (txt "a") (txt "2") true (with_fs n1 w) = (Ok tt, with_fs n2 w)
    /\ read_lines f n2 = (ls ++ [Py.format_property (txt "a") (txt "2")], None)
    /\ get_property f (txt "a") (with_fs n2 w) = (Ok (Some (txt "2")), with_fs n2 w).
Proof.
  apply (property_round_trip Sample.properties (txt "a") (txt "1") (txt "2")
           [txt "x=1" ++ [Py.LF]]
           (Sample.with_properties (Text (txt "x=1" ++ [Py.LF]))));
    reflexivity.
Defined.

(** C2, as the claim has it, fails for some files, keys and values.
    With [set_then_get f k v w] the result of [get_property(f, k)]
    after [set_property(f, k, v)]: a value with a space in front comes
    back without it; a key that is in the file keeps its old value; on
    a file whose last line has no line break the new property is
    written onto that line and is not found; a key with an equals sign
    is not found either. *)
Lemma property_round_trip_fails :
  let f := Sample.properties in
  let on s := Sample.with_properties (Text (txt s)) in
  (set_then_get f (txt "a") (txt " 1") (on "") = Ok (Some (txt "1"))
   /\ set_then_get f (txt "a") (txt " 1") (on "") <> Ok (Some (txt " 1")))
  /\ (set_then_get f (txt "a") (txt "1") (on "a=0") = Ok (Some (txt "0"))
      /\ set_then_get f (txt "a") (txt "1") (on "a=0") <> Ok (Some (txt "1")))
  /\ (set_then_get f (txt "a") (txt "1") (on "x=1") = Ok None
      /\ FS.lookup f (fs (snd (set_property f (txt "a") (txt "1") false (on "x=1"))))
         = Some (File (Text (txt "x=1a=1" ++ [Py.LF]))))
  /\ set_then_get f (txt "a=b") (txt "1") (on "") = Ok None.
Proof.
  repeat split; try reflexivity; discriminate.
Qed.

(** ** Reasoning about runs *)

Section Runs.

Lemma after_bind {A B} (m : M A) (k : A -> M B) (Q : result B -> world -> Prop)
    (w : world) :
  after m (fun r w1 =>
             match r with
             | Ok a => after (k a) Q w1
             | Raise e => Q (Raise e) w1
             end) w ->
  after (bind m k) Q w.
Proof.
  unfold after, bind. destruct (m w) as [[a|e] w1]; simpl; auto.
Qed.

Lemma after_ret {A} (a : A) (Q : result A -> world -> Prop) (w : world) :
  Q (Ok a) w -> after (ret a) Q w.
Proof. auto. Qed.

Lemma after_log (e : event) (Q : result unit -> world -> Prop) (w : world) :
  Q (Ok tt) (with_event e w) -> after (log e) Q w.
Proof. auto. Qed.

Lemma after_path_exists (p : path) (Q : result bool -> world -> Prop) (w : world) :
  Q (Ok (FS.exists_ p (fs w))) w -> after (path_exists p) Q w.
Proof. auto. Qed.

Lemma after_set_property (f : path) (k v : str) (r : bool)
    (Q : result unit -> world -> Prop) (w : world) :
  (forall res w1, set_property_frame f w w1 -> Q res w1) ->
  after (set_property f k v r) Q w.
Proof.
  intros H. unfold after. apply H. rewrite set_property_unfold.
  destruct (scan_lines k r (fst (read_lines f (fs w)))) as [|lines].
  - repeat split.
  - unfold on_fs, FS.write_text, FS.write_file.
    destruct (FS.lookup f (fs w)) as [[x|es]|];
      try (repeat split; fail);
      (destruct (FS.put f _ (fs w)) as [n'|] eqn:P; [|repeat split]);
      (repeat split; simpl; intros q D; now apply (lookup_put_diverge f q _ _ _ P)).
Qed.

Lemma after_get_property (f : path) (k : str)
    (Q : result (option str) -> world -> Prop) (w : world) :
  (forall res, Q res w) -> after (get_property f k) Q w.
Proof.
  intros H. unfold after. rewrite get_property_unfold.
  destruct (find_property k _); [apply H|].
  destruct (snd _); apply H.
Qed.

End Runs.

(** ** Existing keystores *)

Section Keystores.

Context (plat : platform) (ui : interface).

Lemma properties_part_from (name : string) :
  FS.diverge [name] ["project"; "local.properties"]%string = true ->
  FS.diverge [name] ["project"; "bundle.properties"]%string = true ->
  FS.diverge (local_properties plat) (rapt_path plat ++ [name]) = true
  /\ FS.diverge (bundle_properties plat) (rapt_path plat ++ [name]) = true.
Proof.
  intros H1 H2. unfold local_properties, bundle_properties, plat_path.
  rewrite !diverge_app. rewrite diverge_sym in H1, H2. split; assumption.
Qed.

(** The four default properties are written without a trace and away
    from [q]. *)
Lemma seeding_frame (f q : path) (store : str) (k : M unit)
    (Q : result unit -> world -> Prop) (w : world) :
  FS.diverge f q = true ->
  (forall w1, trace w1 = trace w ->
              FS.lookup q (fs w1) = FS.lookup q (fs w) ->
              (forall e, Q (Raise e) w1) /\ after k Q w1) ->
  after (set_property f (txt "key.alias") (txt "android") false ;;
         set_property f (txt "key.store.password") (txt "android") false ;;
         set_property f (txt "key.alias.password") (txt "android") false ;;
         set_property f (txt "key.store") store false ;;
         k) Q w.
Proof.
  intros D H.
  apply after_bind, after_set_property. intros r1 w1 (T1 & _ & _ & F1).
  destruct r1; [|apply H; [congruence|now rewrite F1]].
  apply after_bind, after_set_property. intros r2 w2 (T2 & _ & _ & F2).
  destruct r2; [|apply H; [congruence|now rewrite F2, F1]].
  apply after_bind, after_set_property. intros r3 w3 (T3 & _ & _ & F3).
  destruct r3; [|apply H; [congruence|now rewrite F3, F2, F1]].
  apply after_bind, after_set_property. intros r4 w4 (T4 & _ & _ & F4).
  destruct r4; [|apply H; [congruence|now rewrite F4, F3, F2, F1]].
  apply H; [congruence|now rewrite F4, F3, F2, F1].
Qed.

End Keystores.

(** C4: when the keystore exists where [generate_keys] looks for it,
    the run of [generate_keys] leaves it as it is and adds at most one
    message to the trace: no question is asked and no process is
    started, so the key tool is not.  The same holds for
    [generate_bundle_keys] and its keystore, without any message.  The
    answers the user would give play no part. *)
Theorem existing_keystore_is_kept (plat : platform) (ui : interface) (w : world) :
  (FS.exists_ (plat_path plat (txt "android.keystore")) (fs w) = true ->
   after (generate_keys plat ui)
     (fun _ w' =>
        FS.lookup (plat_path plat (txt "android.keystore")) (fs w')
        = FS.lookup (plat_path plat (txt "android.keystore")) (fs w)
        /\ (trace w' = trace w \/ exists m, trace w' = trace w ++ [Info m])) w)
  /\ (FS.exists_ (plat_path plat (txt "bundle.keystore")) (fs w) = true ->
      after (generate_bundle_keys plat ui)
        (fun _ w' =>
           FS.lookup (plat_path plat (txt "bundle.keystore")) (fs w')
           = FS.lookup (plat_path plat (txt "bundle.keystore")) (fs w)
           /\ trace w' = trace w) w).
Proof.
  split; intros E.
  - unfold generate_keys.
    change (plat_path plat (txt "android.keystore"))
      with (rapt_path plat ++ ["android.keystore"%string]) in *.
    apply (seeding_frame _ (rapt_path plat ++ ["android.keystore"%string])).
    { apply (properties_part_from plat "android.keystore"); reflexivity. }
    intros w1 T F. split; [auto|].
    apply after_bind, after_get_property. intros [stored|e]; [|auto].
    destruct (negb (bool_decide (stored = _))).
    { apply after_log. simpl. split; [exact F|]. right. rewrite T. eauto. }
    apply after_bind, after_path_exists.
    unfold FS.exists_ in *. rewrite F.
    destruct (FS.lookup _ (fs w)); [|discriminate].
    apply after_log. simpl. split; [exact F|]. right. rewrite T. eauto.
  - unfold generate_bundle_keys.
    change (plat_path plat (txt "bundle.keystore"))
      with (rapt_path plat ++ ["bundle.keystore"%string]) in *.
    apply (seeding_frame _ (rapt_path plat ++ ["bundle.keystore"%string])).
    { apply (properties_part_from plat "bundle.keystore"); reflexivity. }
    intros w1 T F. split; [auto|].
    apply after_bind, after_get_property. intros [stored|e]; [|auto].
    destruct (negb (bool_decide (stored = _))).
    { apply after_ret. auto. }
    apply after_bind, after_path_exists.
    unfold FS.exists_ in *. rewrite F.
    destruct (FS.lookup _ (fs w)); [|discriminate].
    apply after_ret. auto.
Qed.

(** ** Moving and making directories *)

Section Directories.

Lemma is_prefix_app (r a b : path) :
  FS.is_prefix (r ++ a) (r ++ b) = FS.is_prefix a b.
Proof.
  induction r as [|c r IH]; [reflexivity|].
  simpl. now rewrite String.eqb_refl.
Qed.

Lemma is_prefix_shorter (a b q : path) :
  FS.is_prefix a q = false -> FS.is_prefix (a ++ b) q = false.
Proof.
  revert q. induction a as [|c a IH]; intros q H; [discriminate|].
  destruct q as [|d q]; [reflexivity|]. simpl in *.
  destruct (String.eqb c d); [|reflexivity]. simpl in *. now apply IH.
Qed.

Lemma diverge_not_prefix (p q : path) :
  FS.diverge p q = true -> FS.is_prefix p q = false.
Proof.
  revert q. induction p as [|c p IH]; intros [|d q] H; try discriminate.
  simpl in *. destruct (String.eqb c d); [|reflexivity]. simpl. now apply IH.
Qed.

Lemma is_dir_cons (c : string) (q : path) (es : gmap string node) :
  FS.is_dir (c :: q) (Dir es)
  = match es !! c with Some x => FS.is_dir q x | None => false end.
Proof. unfold FS.is_dir. simpl. now destruct (es !! c). Qed.

Lemma put_is_dir (p : path) (v : option node) (n n' : node) :
  FS.put p v n = Some n' -> FS.is_dir [] n' = true.
Proof.
  destruct p as [|c p]; [now rewrite put_nil|].
  destruct n as [f|es]; [discriminate|]. simpl.
  destruct p as [|d p].
  - now intros [= <-].
  - destruct (es !! c) as [n1|]; [|discriminate].
    destruct (FS.put (d :: p) v n1); [|discriminate]. now intros [= <-].
Qed.

(** After a change at [p ++ [c]] the parent [p] is a directory. *)
Lemma put_parent_dir (p : path) (c : string) (v : option node) (n n' : node) :
  FS.put (p ++ [c]) v n = Some n' -> FS.is_dir p n' = true.
Proof.
  revert n n'. induction p as [|d p IH]; intros n n' H.
  - now apply put_is_dir in H.
  - destruct n as [f|es]; [discriminate|].
    rewrite <- app_comm_cons in H. simpl in H.
    destruct (p ++ [c]) as [|e t] eqn:Q; [now destruct p|].
    destruct (es !! d) as [n1|]; [|discriminate].
    destruct (FS.put (e :: t) v n1) as [n2|] eqn:P; [|discriminate].
    injection H as <-. rewrite is_dir_cons, lookup_insert_eq.
    now apply (IH n1).
Qed.

(** A change at [p] leaves every directory outside [p] a directory. *)
Lemma is_dir_put_outside (p q : path) (v : option node) (n n' : node) :
  FS.put p v n = Some n' -> FS.is_prefix p q = false ->
  FS.is_dir q n = true -> FS.is_dir q n' = true.
Proof.
  revert q n n'. induction p as [|c p IH]; intros q n n' H N D;
    [discriminate|].
  destruct q as [|d q]; [now apply put_is_dir in H|].
  destruct n as [f|es]; [discriminate|]. simpl in H, N.
  rewrite is_dir_cons in D.
  destruct (String.eqb c d) eqn:E.
  - apply String.eqb_eq in E. subst d. simpl in N.
    destruct p as [|e p]; [discriminate|].
    destruct (es !! c) as [n1|]; [|discriminate].
    destruct (FS.put (e :: p) v n1) as [n2|] eqn:P; [|discriminate].
    injection H as <-. rewrite is_dir_cons, lookup_insert_eq.
    now apply (IH q n1).
  - apply String.eqb_neq in E.
    destruct p as [|e p].
    + injection H as <-. rewrite is_dir_cons, lookup_set_entry.
      now rewrite decide_False.
    + destruct (es !! c) as [n1|]; [|discriminate].
      destruct (FS.put (e :: p) v n1) as [n2|] eqn:P; [|discriminate].
      injection H as <-. rewrite is_dir_cons, lookup_insert_ne by assumption.
      exact D.
Qed.

Lemma lookup_is_dir_parent (p : path) (c : string) (n x : node) :
  FS.lookup (p ++ [c]) n = Some x -> FS.is_dir p n = true.
Proof.
  rewrite lookup_app. unfold FS.is_dir.
  destruct (FS.lookup p n) as [[f|es]|]; simpl; try discriminate. auto.
Qed.

(** [os.mkdir] of a new name inside a directory. *)
Lemma mkdir_new (p : path) (c : string) (n : node) :
  FS.is_dir p n = true -> FS.lookup (p ++ [c]) n = None ->
  exists n', FS.mkdir (p ++ [c]) n = Ok n'
             /\ FS.put (p ++ [c]) (Some (Dir ∅)) n = Some n'.
Proof.
  intros D L. unfold FS.mkdir. rewrite L.
  destruct (put_into p c (Some (Dir ∅)) n D) as [n' E]. rewrite E. eauto.
Qed.

(** [os.rename] of [src] to a new name [dst] that parts ways with it,
    inside a directory: first [src] goes, then [dst] comes. *)
Lemma rename_new (src p : path) (c : string) (n v : node) :
  FS.lookup src n = Some v -> FS.diverge src (p ++ [c]) = true ->
  FS.lookup (p ++ [c]) n = None -> FS.is_dir p n = true ->
  FS.is_prefix src p = false ->
  exists n1 n2,
    FS.rename src (p ++ [c]) n = Ok n2
    /\ FS.put src None n = Some n1
    /\ FS.put (p ++ [c]) (Some v) n1 = Some n2.
Proof.
  intros L D N P NP. unfold FS.rename. rewrite L.
  rewrite (diverge_not_prefix _ _ D), N.
  assert (src <> []) as Hs by (intros ->; discriminate).
  destruct (put_over src None n v Hs L) as [n1 E1]. rewrite E1.
  assert (FS.is_dir p n1 = true) as P1
    by now apply (is_dir_put_outside src p None n n1).
  destruct (put_into p c (Some v) n1 P1) as [n2 E2]. rewrite E2.
  exists n1, n2. auto.
Qed.

End Directories.

(** Computes the components of the literal names in the goal. *)
Ltac literal_components :=
  repeat match goal with
    | |- context [Paths.components (txt ?s)] =>
        let v := eval vm_compute in (Paths.components (txt s)) in
        change (Paths.components (txt s)) with v
    end.

(** C6: when the archive has unpacked something as [Sdk/cmdline-tools]
    and no [Sdk/latest] is in the way, the three steps after the
    unpacking (rename it to [Sdk/latest], make a new
    [Sdk/cmdline-tools], move [Sdk/latest] to
    [Sdk/cmdline-tools/latest]) all succeed, [extract] returns, and
    whatever was at [Sdk/cmdline-tools/q] is at
    [Sdk/cmdline-tools/latest/q]. *)
Theorem extract_nests_tools (plat : platform) (archive : str)
    (zf : list member) (w : world) (n1 d : node) :
  let root := rapt_path plat in
  let tools := root ++ ["Sdk"; "cmdline-tools"]%string in
  FS.lookup (plat_path plat archive) (fs w) = Some (File (Zip zf)) ->
  FS.is_dir root (fs w) = true ->
  extractall (root ++ ["Sdk"%string]) zf (fs w) = Ok n1 ->
  FS.lookup tools n1 = Some d ->
  FS.lookup (root ++ ["Sdk"; "latest"]%string) n1 = None ->
  FS.is_dir (cwd w) n1 = true ->
  FS.is_prefix (root ++ ["Sdk"%string]) (cwd w) = false ->
  exists n2,
    extract plat archive w = (Ok tt, with_fs n2 w)
    /\ forall q, FS.lookup (tools ++ "latest"%string :: q) n2 = FS.lookup q d.
Proof.
  intros root tools Z R X T L C NC.
  set (sdk := root ++ ["Sdk"%string]).
  set (latest := root ++ ["Sdk"; "latest"]%string) in *.
  assert (tools = sdk ++ ["cmdline-tools"%string]) as Et
    by (unfold tools, sdk; now rewrite <- app_assoc).
  assert (latest = sdk ++ ["latest"%string]) as El
    by (unfold latest, sdk; now rewrite <- app_assoc).
  assert (FS.diverge tools latest = true) as Dtl
    by (unfold tools, latest; now rewrite diverge_app).
  assert (FS.is_prefix tools (cwd w) = false) as Pt
    by (rewrite Et; now apply is_prefix_shorter).
  assert (FS.is_prefix latest (cwd w) = false) as Pl
    by (rewrite El; now apply is_prefix_shorter).
  (* Sdk/cmdline-tools becomes Sdk/latest *)
  destruct (rename_new tools sdk "latest" n1 d) as (a1 & a2 & Ra & Pa1 & Pa2);
    rewrite <- ?El; try assumption.
  { rewrite Et in T. now apply lookup_is_dir_parent in T. }
  { unfold tools, sdk. rewrite is_prefix_app. reflexivity. }
  rewrite <- El in Ra, Pa2.
  (* a new Sdk/cmdline-tools *)
  assert (FS.lookup tools a2 = None) as Ta2.
  { rewrite (lookup_put_diverge latest tools _ _ _ Pa2)
      by now rewrite diverge_sym.
    apply (lookup_put _ _ _ _ Pa1). }
  destruct (mkdir_new sdk "cmdline-tools" a2) as (a3 & Ma & Pa3);
    rewrite <- ?Et; try assumption.
  { rewrite El in Pa2. now apply put_parent_dir in Pa2. }
  rewrite <- Et in Ma, Pa3.
  (* Sdk/latest becomes Sdk/cmdline-tools/latest *)
  assert (FS.lookup latest a3 = Some d) as La3.
  { rewrite (lookup_put_diverge tools latest _ _ _ Pa3) by assumption.
    apply (lookup_put _ _ _ _ Pa2). }
  destruct (rename_new latest tools "latest" a3 d) as (a4 & a5 & Rb & Pa4 & Pa5);
    try assumption.
  { unfold latest, tools. rewrite <- app_assoc, diverge_app. reflexivity. }
  { rewrite lookup_app, (lookup_put _ _ _ _ Pa3). reflexivity. }
  { unfold FS.is_dir. now rewrite (lookup_put _ _ _ _ Pa3). }
  { unfold latest, tools. rewrite is_prefix_app. reflexivity. }
  assert (FS.is_dir (cwd w) a5 = true) as C5.
  { apply (is_dir_put_outside _ _ _ _ _ Pa5); [now apply is_prefix_shorter|].
    apply (is_dir_put_outside _ _ _ _ _ Pa4); [assumption|].
    apply (is_dir_put_outside _ _ _ _ _ Pa3); [assumption|].
    apply (is_dir_put_outside _ _ _ _ _ Pa2); [assumption|].
    now apply (is_dir_put_outside _ _ _ _ _ Pa1). }
  exists a5. split.
  - unfold extract, bind, open_zip. rewrite Z.
    unfold getcwd, chdir, relative, on_fs, plat_path.
    literal_components. cbn [fs cwd with_cwd with_fs].
    fold root. rewrite app_nil_r, R.
    cbn [fs cwd with_cwd with_fs]. rewrite X.
    cbn [fs cwd with_cwd with_fs].
    change (root ++ ["Sdk"; "cmdline-tools"]%string) with tools.
    change (root ++ ["Sdk"; "latest"]%string) with latest.
    rewrite Ra. cbn [fs cwd with_cwd with_fs]. rewrite Ma.
    cbn [fs cwd with_cwd with_fs].
    change (root ++ ["Sdk"; "cmdline-tools"; "latest"]%string)
      with (root ++ (["Sdk"%string; "cmdline-tools"%string] ++ ["latest"%string])).
    rewrite app_assoc. fold tools. rewrite Rb.
    cbn [fs cwd with_cwd with_fs]. rewrite C5.
    reflexivity.
  - intros q.
    change ("latest"%string :: q) with (["latest"%string] ++ q).
    rewrite app_assoc. apply (lookup_put_under _ _ _ _ _ Pa5).
Qed.


Lemma extract_nests_tools_witness :
  exists n2,
    extract Sample.plat Sample.archive Sample.downloaded
    = (Ok tt, with_fs n2 Sample.downloaded)
    /\ forall q,
         FS.lookup (["rapt"; "Sdk"; "cmdline-tools"; "latest"]%string ++ q) n2
         = FS.lookup q Sample.tools.
Proof.
  apply (extract_nests_tools Sample.plat Sample.archive
           [(["cmdline-tools"; "bin"; "sdkmanager"]%string, Some (txt "#!/bin/sh"));
            (["cmdline-tools"; "lib"]%string, None)]
           Sample.downloaded Sample.unzipped Sample.tools);
    vm_compute; reflexivity.
Defined.

Lemma existing_keystore_is_kept_witness :
  after (generate_keys Sample.plat (Sample.ui 0))
    (fun _ w' =>
       FS.lookup ["rapt"; "android.keystore"]%string (fs w')
       = FS.lookup ["rapt"; "android.keystore"]%string (fs Sample.provisioned)
       /\ (trace w' = trace Sample.provisioned
           \/ exists m, trace w' = trace Sample.provisioned ++ [Info m]))
    Sample.provisioned
  /\ after (generate_bundle_keys Sample.plat (Sample.ui 0))
       (fun _ w' =>
          FS.lookup ["rapt"; "bundle.keystore"]%string (fs w')
          = FS.lookup ["rapt"; "bundle.keystore"]%string (fs Sample.provisioned)
          /\ trace w' = trace Sample.provisioned)
       Sample.provisioned.
Proof.
  split.
  - apply (proj1 (existing_keystore_is_kept Sample.plat (Sample.ui 0)
                    Sample.provisioned)).
    vm_compute. reflexivity.
  - apply (proj2 (existing_keystore_is_kept Sample.plat (Sample.ui 0)
                    Sample.provisioned)).
    vm_compute. reflexivity.
Defined.

Lemma unpack_sdk_already_unpacked_witness :
  unpack_sdk Sample.plat (Sample.ui 0) Sample.provisioned
  = (Ok tt,
     with_event (Success "The Android SDK has already been unpacked.")
       Sample.provisioned).
Proof.
  apply unpack_sdk_already_unpacked. vm_compute. reflexivity.
Defined.

(** ** Declining the key *)

Section Declining.

Lemma bind_assoc {A B C} (m : M A) (f : A -> M B) (g : B -> M C) (w : world) :
  bind (bind m f) g w = bind m (fun x => bind (f x) g) w.
Proof.
  unfold bind. destruct (m w) as [[a|e] w1]; reflexivity.
Qed.

Lemma bind_ok {A B} (m : M A) (k : A -> M B) (a : A) (w w1 : world) :
  m w = (Ok a, w1) -> bind m k w = k a w1.
Proof. unfold bind. now intros ->. Qed.

Lemma bind_ext {A B} (m : M A) (f g : A -> M B) (w : world) :
  (forall a w1, f a w1 = g a w1) -> bind m f w = bind m g w.
Proof.
  intros H. unfold bind. destruct (m w) as [[a|e] w1]; auto.
Qed.

(** [generate_keys] is the four default writes and then the rest. *)
Lemma seed_defaults_then {A} (f : path) (store : str) (k : M A) (w : world) :
  (set_property f (txt "key.alias") (txt "android") false ;;
   set_property f (txt "key.store.password") (txt "android") false ;;
   set_property f (txt "key.alias.password") (txt "android") false ;;
   set_property f (txt "key.store") store false ;;
   k) w
  = (seed_defaults f store ;; k) w.
Proof.
  unfold seed_defaults. rewrite !bind_assoc.
  apply bind_ext. intros _ w1. rewrite !bind_assoc.
  apply bind_ext. intros _ w2. now rewrite !bind_assoc.
Qed.

End Declining.



(** ** A second run *)

Section SecondRun.

Context (plat : platform) (ui : interface) (w1 : world).

Hypothesis tools : tools_keep plat ui.

Lemma steady_refl : steady plat w1 w1.
Proof.
  repeat split. exists []. now rewrite app_nil_r.
Qed.

Lemma steady_event (e : event) (w : world) :
  quiet e = true -> steady plat w1 w -> steady plat w1 (with_event e w).
Proof.
  intros Q (H1 & H2 & H3 & H4 & H5 & evs & T & F).
  repeat split; try assumption.
  exists (evs ++ [e]). simpl. rewrite T, app_assoc. split; [reflexivity|].
  rewrite forallb_app, F. simpl. now rewrite Q.
Qed.

Lemma steady_fs (n : node) (w : world) :
  FS.lookup (local_properties plat) n = FS.lookup (local_properties plat) (fs w) ->
  FS.lookup (bundle_properties plat) n = FS.lookup (bundle_properties plat) (fs w) ->
  FS.lookup (sdkmanager plat) n = FS.lookup (sdkmanager plat) (fs w) ->
  FS.lookup (plat_path plat (txt "android.keystore")) n
  = FS.lookup (plat_path plat (txt "android.keystore")) (fs w) ->
  FS.lookup (plat_path plat (txt "bundle.keystore")) n
  = FS.lookup (plat_path plat (txt "bundle.keystore")) (fs w) ->
  steady plat w1 w -> steady plat w1 (with_fs n w).
Proof.
  intros E1 E2 E3 E4 E5 (H1 & H2 & H3 & H4 & H5 & evs & T & F).
  unfold steady. cbn [fs trace with_fs].
  rewrite E1, E2, E3, E4, E5. repeat (split; [assumption|]).
  exists evs. now split.
Qed.

Lemma keeps_ret {A} (a : A) : keeps plat w1 (ret a).
Proof. intros w S. exact S. Qed.

Lemma keeps_raise {A} (e : exn) : keeps plat w1 (@raise A e).
Proof. intros w S. exact S. Qed.

Lemma keeps_bind {A B} (m : M A) (k : A -> M B) :
  keeps plat w1 m -> (forall a, keeps plat w1 (k a)) -> keeps plat w1 (bind m k).
Proof.
  intros Hm Hk w S. apply after_bind. specialize (Hm w S).
  unfold after in *. destruct (fst (m w)); [now apply Hk|exact Hm].
Qed.

Lemma keeps_log (e : event) : quiet e = true -> keeps plat w1 (log e).
Proof. intros Q w S. now apply steady_event. Qed.

Lemma keeps_fail {A} (m : string) : keeps plat w1 (@fail A m).
Proof.
  apply keeps_bind; [now apply keeps_log|]. intros _. apply keeps_raise.
Qed.

Lemma keeps_call (args : list str) (cancel use_path yes : bool) :
  genkey args = false -> keeps plat w1 (call ui args cancel use_path yes).
Proof.
  intros G w S. unfold after, call.
  destruct (tools (trace w) (fs w) (cwd w) args) as (E1 & E2 & E345).
  destruct (E345 G) as (E3 & E4 & E5).
  assert (quiet (Call args cancel use_path yes) = true) as Q
    by (simpl; now rewrite G).
  destruct (call_outcome ui (trace w) (fs w) (cwd w) args); simpl in *.
  - apply (steady_fs fs' (with_event _ w)); try assumption. now apply steady_event.
  - apply (steady_fs fs' (with_event _ w)); try assumption. now apply steady_event.
  - now apply steady_event.
Qed.

Lemma keeps_run_slow (args : list str) (use_path yes : bool) :
  genkey args = false -> keeps plat w1 (run_slow ui args use_path yes).
Proof.
  intros G w S. pose proof (keeps_call args true use_path yes G w S) as H.
  unfold after, run_slow in *.
  destruct (call ui args true use_path yes w) as [[u|[]] w']; exact H.
Qed.

Lemma text_not_genkey (p : path) : Paths.text p <> txt "-genkey".
Proof. destruct p; discriminate. Qed.

Lemma keeps_check_java : keeps plat w1 (check_java plat ui).
Proof.
  unfold check_java, info, success.
  apply keeps_bind; [now apply keeps_log|]. intros _.
  apply keeps_bind.
  { apply keeps_run_slow. simpl. apply bool_decide_eq_false_2, text_not_genkey. }
  intros ok1. apply keeps_bind.
  { destruct ok1; [apply keeps_ret|apply keeps_fail]. }
  intros _. apply keeps_bind; [now apply keeps_run_slow|].
  intros ok2. apply keeps_bind.
  { destruct ok2; [apply keeps_ret|apply keeps_fail]. }
  intros _. now apply keeps_log.
Qed.

Lemma genkey_packages (n : node) :
  genkey (Paths.text (sdkmanager plat) :: missing_packages plat n) = false.
Proof.
  unfold missing_packages, wanted_packages. simpl.
  destruct (negb (FS.exists_ _ n)); destruct (negb (FS.exists_ _ n)); reflexivity.
Qed.

(** As [keeps_bind], with something known about the value passed on. *)
Lemma keeps_bind_with {A B} (P : A -> Prop) (m : M A) (k : A -> M B) :
  (forall w, steady plat w1 w ->
     after m (fun r w' => steady plat w1 w'
                          /\ match r with Ok a => P a | Raise _ => True end) w) ->
  (forall a, P a -> keeps plat w1 (k a)) -> keeps plat w1 (bind m k).
Proof.
  intros Hm Hk w S. apply after_bind. specialize (Hm w S).
  unfold after in *. destruct (fst (m w)); [|tauto].
  destruct Hm as [S' Pa]. now apply Hk.
Qed.

Lemma keeps_get_packages : keeps plat w1 (get_packages plat ui).
Proof.
  unfold get_packages.
  apply (keeps_bind_with
           (fun ps => genkey (Paths.text (sdkmanager plat) :: ps) = false)).
  { intros w S. split; [exact S|apply genkey_packages]. }
  intros ps G. apply keeps_bind; [|intros _; now apply keeps_log].
  destruct ps as [|p ps]; [apply keeps_ret|].
  apply keeps_bind; [now apply keeps_log|]. intros _.
  apply keeps_bind; [now apply keeps_run_slow|].
  intros ok1. apply keeps_bind.
  { destruct ok1; [apply keeps_ret|apply keeps_fail]. }
  intros _. apply keeps_bind; [now apply keeps_run_slow|].
  intros ok2. apply keeps_bind.
  { destruct ok2; [apply keeps_ret|apply keeps_fail]. }
  intros _. apply keeps_bind; [now apply keeps_run_slow|].
  intros ok3. destruct ok3; [apply keeps_ret|apply keeps_fail].
Qed.

Hypothesis unpacked : FS.exists_ (sdkmanager plat) (fs w1) = true.
Hypothesis local_settled :
  settled plat (local_properties plat) "android.keystore" (fs w1) = true.
Hypothesis bundle_settled :
  settled plat (bundle_properties plat) "bundle.keystore" (fs w1) = true.
Hypothesis local_persisted : persisted plat (local_properties plat) (fs w1).
Hypothesis bundle_persisted : persisted plat (bundle_properties plat) (fs w1).

Lemma read_lines_same (p : path) (n n' : node) :
  FS.lookup p n = FS.lookup p n' -> read_lines p n = read_lines p n'.
Proof. unfold read_lines. now intros ->. Qed.

Lemma set_property_present (f : path) (k v : str) (w : world) :
  key_absent k (fst (read_lines f (fs w))) = false ->
  set_property f k v false w = (Ok tt, w).
Proof.
  intros H. rewrite set_property_unfold. now rewrite scan_lines_present.
Qed.

Lemma key_absent_snoc (k : str) (ls : list str) (l : str) :
  key_absent k ls = false -> key_absent k (ls ++ [l]) = false.
Proof. intros H. now rewrite key_absent_app, H. Qed.

Lemma keeps_copy_project : keeps plat w1 (copy_project plat).
Proof.
  intros w S. unfold copy_project. apply after_bind, after_path_exists.
  assert (FS.exists_ (plat_path plat (txt "project")) (fs w) = true) as ->.
  { destruct S as (E & _). destruct local_persisted as (ls & L & _).
    rewrite <- E in L. unfold FS.exists_.
    change (local_properties plat)
      with (rapt_path plat ++ (["project"%string] ++ ["local.properties"%string])) in L.
    rewrite app_assoc, lookup_app in L.
    change (plat_path plat (txt "project"))
      with (rapt_path plat ++ ["project"%string]).
    now destruct (FS.lookup (rapt_path plat ++ ["project"%string]) (fs w)). }
  exact S.
Qed.

Lemma keeps_unpack_sdk : keeps plat w1 (unpack_sdk plat ui).
Proof.
  intros w S. unfold unpack_sdk. apply after_bind, after_path_exists.
  assert (FS.exists_ (sdkmanager plat) (fs w) = true) as ->.
  { destruct S as (_ & _ & E & _). unfold FS.exists_ in *. now rewrite E. }
  now apply steady_event.
Qed.

(** In a steady world the default writes of a key step find their keys
    and write nothing, and the stored keystore path is read as in
    [w1]. *)
Lemma key_step_idle (props : path) (store : str) (k : option str -> M unit)
    (Q : result unit -> world -> Prop) (w : world) :
  persisted plat props (fs w1) ->
  FS.lookup props (fs w) = FS.lookup props (fs w1) ->
  (forall v, find_property (txt "key.store") (fst (read_lines props (fs w1)))
             = Some v -> after (k (Some v)) Q w) ->
  after (set_property props (txt "key.alias") (txt "android") false ;;
         set_property props (txt "key.store.password") (txt "android") false ;;
         set_property props (txt "key.alias.password") (txt "android") false ;;
         set_property props (txt "key.store") store false ;;
         let* stored := get_property props (txt "key.store") in
         k stored) Q w.
Proof.
  intros (ls & _ & R & _ & K1 & K2 & K3 & K4) E H.
  apply read_lines_same in E.
  assert (forall key, key_absent key ls = false ->
            key_absent key (fst (read_lines props (fs w))) = false) as P.
  { intros key A. rewrite E, R. now apply key_absent_snoc. }
  unfold after, bind.
  rewrite !set_property_present by now apply P.
  rewrite get_property_unfold.
  destruct (find_property_present _ _ (P _ K4)) as [v F].
  rewrite F. apply H. now rewrite <- E.
Qed.

Lemma keeps_generate_keys : keeps plat w1 (generate_keys plat ui).
Proof.
  intros w S. unfold generate_keys.
  apply key_step_idle; [assumption|apply S|].
  intros v F.
  destruct (negb (bool_decide (Some v = _))) eqn:D.
  { now apply steady_event. }
  apply after_bind, after_path_exists.
  assert (FS.exists_ (plat_path plat (txt "android.keystore")) (fs w) = true) as ->.
  { destruct S as (_ & _ & _ & E & _). unfold FS.exists_. rewrite E.
    unfold settled in local_settled. rewrite F, D in local_settled.
    now rewrite orb_false_r in local_settled. }
  now apply steady_event.
Qed.

Lemma keeps_generate_bundle_keys : keeps plat w1 (generate_bundle_keys plat ui).
Proof.
  intros w S. unfold generate_bundle_keys.
  apply key_step_idle; [assumption|apply S|].
  intros v F.
  destruct (negb (bool_decide (Some v = _))) eqn:D.
  { exact S. }
  apply after_bind, after_path_exists.
  assert (FS.exists_ (plat_path plat (txt "bundle.keystore")) (fs w) = true) as ->.
  { destruct S as (_ & _ & _ & _ & E & _). unfold FS.exists_. rewrite E.
    unfold settled in bundle_settled. rewrite F, D in bundle_settled.
    now rewrite orb_false_r in bundle_settled. }
  exact S.
Qed.

(** What the claim asks of the world a second run ends in. *)
Lemma steady_unchanged (w : world) :
  steady plat w1 w -> unchanged plat w1 w.
Proof. intros (E1 & E2 & _ & _ & _ & T). now repeat split. Qed.

(** Writing [sdk.dir] again writes the text that is there. *)
Lemma set_sdk_dir_idle (props : path) (w : world) :
  props <> [] ->
  persisted plat props (fs w1) ->
  FS.lookup props (fs w) = FS.lookup props (fs w1) ->
  exists n',
    set_property props (txt "sdk.dir") (sdk_dir plat) true w
    = (Ok tt, with_fs n' w)
    /\ FS.lookup props n' = FS.lookup props (fs w)
    /\ forall q, FS.diverge props q = true ->
                 FS.lookup q n' = FS.lookup q (fs w).
Proof.
  intros Hp (ls & L & R & A & _) E.
  rewrite <- E in L. rewrite <- (read_lines_same _ _ _ E) in R.
  rewrite set_property_unfold, R, scan_lines_replace. cbn [fst].
  unfold sdk_line. rewrite others_format by (reflexivity || assumption).
  destruct (write_text_over props
              (concat ls ++ Py.format_property (txt "sdk.dir") (sdk_dir plat))
              (fs w) _ Hp L) as (n' & W & P).
  exists n'. unfold on_fs. rewrite W. split; [reflexivity|]. split.
  - rewrite (lookup_put _ _ _ _ P). now rewrite L.
  - intros q D. now apply (lookup_put_diverge props q _ _ _ P).
Qed.

Lemma persist_idle (w : world) :
  steady plat w1 w ->
  after (persist_sdk_dir plat) (fun _ w' => unchanged plat w1 w') w.
Proof.
  intros (E1 & E2 & _ & _ & _ & evs & T & F). unfold persist_sdk_dir.
  assert (FS.diverge (local_properties plat) (bundle_properties plat) = true) as D
    by (unfold local_properties, bundle_properties, plat_path;
        now rewrite diverge_app).
  assert (forall name, plat_path plat name <> [] \/ Paths.components name = [])
    as Ne.
  { intros name. unfold plat_path.
    destruct (Paths.components name); [now right|left].
    now destruct (rapt_path plat). }
  assert (local_properties plat <> []) as Nl by (now destruct (Ne (txt "project/local.properties"))).
  assert (bundle_properties plat <> []) as Nb by (now destruct (Ne (txt "project/bundle.properties"))).
  destruct (set_sdk_dir_idle (local_properties plat) w Nl local_persisted E1)
    as (n1 & S1 & L1 & F1).
  assert (FS.lookup (bundle_properties plat) (fs (with_fs n1 w))
          = FS.lookup (bundle_properties plat) (fs w1)) as E2'
    by (cbn [fs with_fs]; now rewrite F1).
  destruct (set_sdk_dir_idle (bundle_properties plat) (with_fs n1 w)
              Nb bundle_persisted E2') as (n2 & S2 & L2 & F2).
  unfold after.
  rewrite (bind_ok _ _ _ _ _ S1), (bind_ok _ _ _ _ _ S2).
  unfold final_success, log, unchanged. cbn [fst snd fs trace with_fs with_event].
  cbn [fs with_fs] in L2, F2.
  split; [|split].
  - rewrite F2 by now rewrite diverge_sym. congruence.
  - cbn [fs with_fs] in E2'. congruence.
  - exists (evs ++ [FinalSuccess "It looks like you're ready to start packaging games."]).
    rewrite T, app_assoc. split; [reflexivity|].
    rewrite forallb_app, F. reflexivity.
Qed.

(** The second run as a whole. *)
Lemma second_run_unchanged :
  after (install_sdk plat ui) (fun _ w2 => unchanged plat w1 w2) w1.
Proof.
  assert (forall (m : M unit) (k : M unit) w,
            keeps plat w1 m -> steady plat w1 w ->
            (forall w', steady plat w1 w' ->
                        after k (fun _ w2 => unchanged plat w1 w2) w') ->
            after (m ;; k) (fun _ w2 => unchanged plat w1 w2) w) as Step.
  { intros m k w Hm S Hk. apply after_bind. specialize (Hm w S).
    unfold after in *. destruct (fst (m w)); [now apply Hk|].
    now apply steady_unchanged. }
  unfold install_sdk.
  apply Step; [apply keeps_copy_project|apply steady_refl|]. intros wa Sa.
  apply Step; [apply keeps_check_java|exact Sa|]. intros wb Sb.
  apply Step; [apply keeps_unpack_sdk|exact Sb|]. intros wc Sc.
  apply Step; [apply keeps_get_packages|exact Sc|]. intros wd Sd.
  apply Step; [apply keeps_generate_keys|exact Sd|]. intros we Se.
  apply Step; [apply keeps_generate_bundle_keys|exact Se|]. intros wf Sf.
  now apply persist_idle.
Qed.

End SecondRun.

(** ** What unpacking leaves alone *)

Section UnpackingFrame.

Lemma is_prefix_app_r (q a b : path) :
  FS.is_prefix q a = true -> FS.is_prefix q (a ++ b) = true.
Proof.
  revert a. induction q as [|c q IH]; intros a H; [reflexivity|].
  destruct a as [|d a]; [discriminate|]. simpl in *.
  apply andb_prop in H as [H1 H2]. rewrite H1. simpl. now apply IH.
Qed.

Lemma not_prefix_shorter (q a b : path) :
  FS.is_prefix q (a ++ b) = false -> FS.is_prefix q a = false.
Proof.
  intros H. destruct (FS.is_prefix q a) eqn:E; [|reflexivity].
  now rewrite (is_prefix_app_r q a b E) in H.
Qed.

Lemma not_prefix_removelast (q t : path) :
  FS.is_prefix q t = false -> FS.is_prefix q (removelast t) = false.
Proof.
  intros H. destruct t as [|c t]; [exact H|].
  assert (c :: t <> []) as Hne by discriminate.
  rewrite (app_removelast_last c Hne) in H.
  now apply not_prefix_shorter in H.
Qed.

Lemma diverge_app_l (d x q : path) :
  FS.diverge d q = true -> FS.diverge (d ++ x) q = true.
Proof.
  revert q. induction d as [|c d IH]; intros q H; [discriminate|].
  destruct q as [|e q]; [discriminate|]. simpl in *.
  destruct (String.eqb c e); [now apply IH|reflexivity].
Qed.

Lemma diverge_app_r (p q x : path) :
  FS.diverge p q = true -> FS.diverge p (q ++ x) = true.
Proof.
  intros H. rewrite diverge_sym. apply diverge_app_l. now rewrite diverge_sym.
Qed.

(** A new empty directory at [p] changes nothing at [q], unless [q]
    is [p] or above it. *)
Lemma lookup_put_new_dir (p q : path) (n n' : node) :
  FS.put p (Some (Dir ∅)) n = Some n' -> FS.lookup p n = None ->
  FS.is_prefix q p = false -> FS.lookup q n' = FS.lookup q n.
Proof.
  revert q n n'. induction p as [|c p IH]; intros q n n' P L N.
  - now rewrite put_nil in P.
  - destruct q as [|d q]; [discriminate|].
    destruct n as [f|es]; [discriminate|]. simpl in P, N.
    change (FS.lookup (d :: q) (Dir es))
      with (match es !! d with Some x => FS.lookup q x | None => None end).
    destruct (String.eqb d c) eqn:E.
    + apply String.eqb_eq in E. subst d. simpl in N.
      destruct p as [|e p].
      * injection P as <-. simpl in L.
        destruct (es !! c) eqn:Lc; [discriminate|].
        simpl. rewrite lookup_insert_eq.
        destruct q as [|a q]; [discriminate|]. simpl.
        now rewrite lookup_empty.
      * simpl in L. destruct (es !! c) as [n1|] eqn:Lc; [|discriminate].
        destruct (FS.put (e :: p) _ n1) as [n2|] eqn:P2; [|discriminate].
        injection P as <-.
        change (FS.lookup (c :: q) (Dir (<[c:=n2]> es)))
          with (match <[c:=n2]> es !! c with
                | Some x => FS.lookup q x | None => None end).
        rewrite lookup_insert_eq. now apply (IH q n1).
    + apply String.eqb_neq in E.
      destruct p as [|e p].
      * injection P as <-. simpl. rewrite lookup_insert_ne by congruence.
        reflexivity.
      * destruct (es !! c) as [n1|] eqn:Lc; [|discriminate].
        destruct (FS.put (e :: p) _ n1) as [n2|] eqn:P2; [|discriminate].
        injection P as <-.
        change (FS.lookup (d :: q) (Dir (<[c:=n2]> es)))
          with (match <[c:=n2]> es !! d with
                | Some x => FS.lookup q x | None => None end).
        now rewrite lookup_insert_ne by congruence.
Qed.

Lemma mkdir_frame (p q : path) (n n' : node) :
  FS.mkdir p n = Ok n' -> FS.is_prefix q p = false ->
  FS.lookup q n' = FS.lookup q n.
Proof.
  unfold FS.mkdir. destruct (FS.lookup p n) eqn:L; [discriminate|].
  destruct (FS.put p _ n) as [n1|] eqn:P; [|discriminate].
  intros [= <-] N. now apply (lookup_put_new_dir p q n n1).
Qed.

Lemma makedirs_from_frame (pre p q : path) (n n' : node) :
  FS.is_prefix q (pre ++ p) = false -> FS.makedirs_from pre p n = Ok n' ->
  FS.lookup q n' = FS.lookup q n.
Proof.
  revert pre n. induction p as [|c p IH]; intros pre n N M.
  - now injection M as <-.
  - simpl in M.
    replace (pre ++ c :: p) with ((pre ++ [c]) ++ p) in N
      by (rewrite <- app_assoc; reflexivity).
    destruct (FS.lookup (pre ++ [c]) n) as [[f|es]|] eqn:L.
    + discriminate.
    + now apply (IH (pre ++ [c]) n).
    + destruct (FS.mkdir (pre ++ [c]) n) as [n1|e] eqn:K; [|discriminate].
      rewrite (IH (pre ++ [c]) n1 N M).
      apply (mkdir_frame _ _ _ _ K). now apply not_prefix_shorter in N.
Qed.

Lemma write_file_frame (p q : path) (c : content) (n n' : node) :
  FS.write_file p c n = Ok n' -> FS.diverge p q = true ->
  FS.lookup q n' = FS.lookup q n.
Proof.
  unfold FS.write_file.
  destruct (FS.lookup p n) as [[f|es]|]; try discriminate;
    (destruct (FS.put p _ n) as [n1|] eqn:P; [|discriminate]);
    intros [= <-] D; now apply (lookup_put_diverge p q _ _ _ P).
Qed.

Lemma extract_member_frame (dest q : path) (m : member) (n n' : node) :
  FS.diverge dest q = true -> extract_member dest m n = Ok n' ->
  FS.lookup q n' = FS.lookup q n.
Proof.
  intros D. unfold extract_member.
  assert (FS.diverge (dest ++ m.1) q = true) as Dt by now apply diverge_app_l.
  assert (FS.is_prefix q (dest ++ m.1) = false) as Nt
    by (apply diverge_not_prefix; now rewrite diverge_sym).
  destruct (FS.makedirs _ n) as [n1|e] eqn:M; [|discriminate].
  apply (makedirs_from_frame [] _ q) in M;
    [|now apply not_prefix_removelast].
  destruct (m.2) as [data|].
  - intros W. rewrite <- M. now apply (write_file_frame _ _ _ _ _ W).
  - destruct (FS.is_dir _ n1); [now intros [= <-]|].
    intros K. rewrite <- M. now apply (mkdir_frame _ _ _ _ K).
Qed.

Lemma extractall_frame (dest q : path) (ms : list member) (n n' : node) :
  FS.diverge dest q = true -> extractall dest ms n = Ok n' ->
  FS.lookup q n' = FS.lookup q n.
Proof.
  intros D. revert n. induction ms as [|m ms IH]; intros n; simpl.
  - now intros [= <-].
  - destruct (extract_member dest m n) as [n1|e] eqn:E; [|discriminate].
    intros X. rewrite (IH n1 X). now apply (extract_member_frame dest q m).
Qed.

Lemma rename_frame (src dst q : path) (n n' : node) :
  FS.rename src dst n = Ok n' ->
  FS.diverge src q = true -> FS.diverge dst q = true ->
  FS.lookup q n' = FS.lookup q n.
Proof.
  unfold FS.rename. destruct (FS.lookup src n) as [v|]; [|discriminate].
  destruct (FS.is_prefix src dst).
  { destruct (FS.is_prefix dst src); [now intros [= <-]|discriminate]. }
  match goal with |- (if ?b then _ else _) = _ -> _ => destruct b end;
    [|discriminate].
  destruct (FS.put src None n) as [n1|] eqn:P1; [|discriminate].
  destruct (FS.put dst (Some v) n1) as [n2|] eqn:P2; [|discriminate].
  intros [= <-] D1 D2.
  rewrite (lookup_put_diverge dst q _ _ _ P2 D2).
  now apply (lookup_put_diverge src q _ _ _ P1).
Qed.

End UnpackingFrame.
(** ** A first run: what leaves the property files alone *)

Section FirstRunFrame.

Context (plat : platform) (ui : interface).

Hypothesis tools : tools_keep plat ui.

Lemma same_properties_refl (w : world) : same_properties plat w w.
Proof. now split. Qed.

Lemma same_properties_trans (w0 w w' : world) :
  same_properties plat w0 w -> same_properties plat w w' ->
  same_properties plat w0 w'.
Proof. intros [A B] [C D]. split; congruence. Qed.

Lemma same_properties_fs (w : world) (n : node) :
  FS.lookup (local_properties plat) n = FS.lookup (local_properties plat) (fs w) ->
  FS.lookup (bundle_properties plat) n = FS.lookup (bundle_properties plat) (fs w) ->
  same_properties plat w (with_fs n w).
Proof. now split. Qed.

Lemma frames_ret {A} (a : A) : frames plat (ret a).
Proof. intros w. apply same_properties_refl. Qed.

Lemma frames_raise {A} (e : exn) : frames plat (@raise A e).
Proof. intros w. apply same_properties_refl. Qed.

Lemma frames_bind {A B} (m : M A) (k : A -> M B) :
  frames plat m -> (forall a, frames plat (k a)) -> frames plat (bind m k).
Proof.
  intros Hm Hk w. apply after_bind. specialize (Hm w).
  unfold after in *. destruct (fst (m w)) as [a|e]; [|exact Hm].
  apply (same_properties_trans _ _ _ Hm), Hk.
Qed.

Lemma frames_log (e : event) : frames plat (log e).
Proof. intros w. now split. Qed.

Lemma frames_fail {A} (m : string) : frames plat (@fail A m).
Proof.
  apply frames_bind; [apply frames_log|]. intros _. apply frames_raise.
Qed.

(** A computation that only reads the world, or only adds events. *)
Lemma frames_same_fs {A} (m : M A) :
  (forall w, fs (snd (m w)) = fs w) -> frames plat m.
Proof. intros H w. unfold after, same_properties. now rewrite H. Qed.

Lemma frames_call (args : list str) (cancel use_path yes : bool) :
  frames plat (call ui args cancel use_path yes).
Proof.
  intros w. unfold after, call.
  destruct (tools (trace w) (fs w) (cwd w) args) as (E1 & E2 & _).
  destruct (call_outcome ui (trace w) (fs w) (cwd w) args);
    now split.
Qed.

Lemma frames_run_slow (args : list str) (use_path yes : bool) :
  frames plat (run_slow ui args use_path yes).
Proof.
  intros w. pose proof (frames_call args true use_path yes w) as H.
  unfold after, run_slow in *.
  destruct (call ui args true use_path yes w) as [[u|[]] w']; exact H.
Qed.

Lemma frames_run (args : list str) (use_path yes : bool) :
  frames plat (run ui args use_path yes).
Proof.
  intros w. pose proof (frames_call args false use_path yes w) as H.
  unfold after, run in *.
  destruct (call ui args false use_path yes w) as [[u|[]] w']; exact H.
Qed.

(** A file-system step that leaves both property files alone. *)
Lemma frames_on_fs (f : node -> result node) :
  (forall n n', f n = Ok n' ->
     FS.lookup (local_properties plat) n' = FS.lookup (local_properties plat) n
     /\ FS.lookup (bundle_properties plat) n' = FS.lookup (bundle_properties plat) n) ->
  frames plat (on_fs f).
Proof.
  intros H w. unfold after, on_fs.
  destruct (f (fs w)) as [n'|e] eqn:E; [|apply same_properties_refl].
  destruct (H _ _ E). now split.
Qed.

Lemma frames_check_java : frames plat (check_java plat ui).
Proof.
  unfold check_java, info, success.
  apply frames_bind; [apply frames_log|]. intros _.
  apply frames_bind; [apply frames_run_slow|].
  intros ok1. apply frames_bind.
  { destruct ok1; [apply frames_ret|apply frames_fail]. }
  intros _. apply frames_bind; [apply frames_run_slow|].
  intros ok2. apply frames_bind.
  { destruct ok2; [apply frames_ret|apply frames_fail]. }
  intros _. apply frames_log.
Qed.

Lemma frames_get_packages : frames plat (get_packages plat ui).
Proof.
  unfold get_packages, info, success.
  apply frames_bind; [now apply frames_same_fs|]. intros ps.
  apply frames_bind; [|intros _; apply frames_log].
  destruct ps as [|p ps]; [apply frames_ret|].
  apply frames_bind; [apply frames_log|]. intros _.
  apply frames_bind; [apply frames_run_slow|].
  intros ok1. apply frames_bind.
  { destruct ok1; [apply frames_ret|apply frames_fail]. }
  intros _. apply frames_bind; [apply frames_run_slow|].
  intros ok2. apply frames_bind.
  { destruct ok2; [apply frames_ret|apply frames_fail]. }
  intros _. apply frames_bind; [apply frames_run_slow|].
  intros ok3. destruct ok3; [apply frames_ret|apply frames_fail].
Qed.

(** The property files lie in the project directory. *)
Lemma properties_in_project (q : path) :
  q = local_properties plat \/ q = bundle_properties plat ->
  exists name, q = plat_path plat (txt "project") ++ [name].
Proof.
  intros [->| ->]; eexists;
    unfold local_properties, bundle_properties, plat_path;
    rewrite <- app_assoc; reflexivity.
Qed.

Lemma makedirs_from_below (pre p x : path) (n n' : node) :
  x <> [] -> FS.lookup (pre ++ p ++ x) n = None ->
  FS.makedirs_from pre p n = Ok n' ->
  FS.lookup (pre ++ p ++ x) n' = None.
Proof.
  intros Hx. revert pre n. induction p as [|c p IH]; intros pre n L M.
  - now injection M as <-.
  - simpl in M.
    replace (pre ++ (c :: p) ++ x) with ((pre ++ [c]) ++ p ++ x) in *
      by (rewrite <- app_assoc; reflexivity).
    destruct (FS.lookup (pre ++ [c]) n) as [[f|es]|] eqn:Lc.
    + discriminate.
    + now apply (IH (pre ++ [c]) n).
    + destruct (FS.mkdir (pre ++ [c]) n) as [n1|e] eqn:K; [|discriminate].
      apply (IH (pre ++ [c]) n1); [|exact M].
      unfold FS.mkdir in K. rewrite Lc in K.
      destruct (FS.put (pre ++ [c]) _ n) as [n2|] eqn:P; [|discriminate].
      injection K as <-.
      rewrite (lookup_put_under _ _ _ _ _ P).
      destruct (p ++ x) eqn:Q; [|reflexivity].
      apply app_eq_nil in Q. tauto.
Qed.

Lemma frames_copy_project : frames plat (copy_project plat).
Proof.
  intros w. unfold copy_project. apply after_bind, after_path_exists.
  destruct (FS.exists_ _ (fs w)) eqn:E; [apply same_properties_refl|].
  unfold after, on_fs, FS.makedirs.
  destruct (FS.makedirs_from [] _ (fs w)) as [n'|e] eqn:M;
    [|apply same_properties_refl].
  assert (forall q, q = local_properties plat \/ q = bundle_properties plat ->
            FS.lookup q n' = FS.lookup q (fs w)) as H.
  { intros q Hq. destruct (properties_in_project q Hq) as [name ->].
    unfold FS.exists_ in E.
    assert (FS.lookup (plat_path plat (txt "project") ++ [name]) (fs w) = None) as L.
    { rewrite lookup_app. now destruct (FS.lookup _ (fs w)). }
    rewrite L.
    apply (makedirs_from_below [] _ [name] (fs w) n'); try assumption.
    discriminate. }
  split; apply H; auto.
Qed.

Lemma segments_cons (c : ascii) (r : str) :
  Ascii.eqb c Py.SLASH = false ->
  exists x xs, Paths.segments (c :: r) = (c :: x) :: xs.
Proof.
  intros H. simpl. rewrite H. destruct (Paths.segments r); eauto.
Qed.

(** A name that begins with a letter has a first component that begins
    with it. *)
Lemma components_head (c : ascii) (r : str) :
  Ascii.eqb c Py.SLASH = false -> Ascii.eqb c "."%char = false ->
  exists s tl, Paths.components (c :: r) = String c s :: tl.
Proof.
  intros H1 H2. destruct (segments_cons c r H1) as (x & xs & E).
  assert (Paths.is_name (c :: x) = true) as N.
  { destruct x; simpl; [now rewrite H2|reflexivity]. }
  unfold Paths.components. rewrite E. cbn [List.filter]. rewrite N.
  simpl. eauto.
Qed.

(** The archive is stored away from the property files. *)
Lemma archive_away (a : str) :
  archive_name plat = Some a ->
  FS.diverge (plat_path plat a) (local_properties plat) = true
  /\ FS.diverge (plat_path plat a) (bundle_properties plat) = true.
Proof.
  intros H.
  assert (exists r, a = "c"%char :: r) as [r ->].
  { unfold archive_name in H.
    destruct (windows plat); [injection H as <-; simpl; eauto|].
    destruct (macintosh plat); [injection H as <-; simpl; eauto|].
    destruct (linux plat); [injection H as <-; simpl; eauto|discriminate]. }
  destruct (components_head "c"%char r eq_refl eq_refl) as (s & tl & E).
  unfold plat_path, local_properties, bundle_properties, plat_path.
  rewrite E, !diverge_app. split; reflexivity.
Qed.

Lemma after_relative {A} (name : string) (k : path -> M A)
    (Q : result A -> world -> Prop) (w : world) :
  after (k (cwd w ++ Paths.components (txt name))) Q w ->
  after (let* p := relative name in k p) Q w.
Proof. exact id. Qed.

Lemma after_getcwd {A} (k : path -> M A) (Q : result A -> world -> Prop)
    (w : world) :
  after (k (cwd w)) Q w -> after (let* d := getcwd in k d) Q w.
Proof. exact id. Qed.

Lemma after_chdir {A} (p : path) (k : M A) (Q : result A -> world -> Prop)
    (w : world) :
  Q (Raise OSError) w -> after k Q (with_cwd p w) ->
  after (chdir p ;; k) Q w.
Proof.
  intros H1 H2. unfold after, bind, chdir in *.
  destruct (FS.is_dir p (fs w)); assumption.
Qed.

(** A file-system step away from the property files, and what follows. *)
Lemma after_on_fs_away (w0 : world) (f : node -> result node) (k : M unit)
    (w : world) :
  same_properties plat w0 w ->
  (forall n n', f n = Ok n' ->
     FS.lookup (local_properties plat) n' = FS.lookup (local_properties plat) n
     /\ FS.lookup (bundle_properties plat) n' = FS.lookup (bundle_properties plat) n) ->
  (forall w', same_properties plat w0 w' -> cwd w' = cwd w ->
              after k (fun _ w2 => same_properties plat w0 w2) w') ->
  after (on_fs f ;; k) (fun _ w2 => same_properties plat w0 w2) w.
Proof.
  intros S F K. unfold after, bind, on_fs.
  destruct (f (fs w)) as [n'|e] eqn:E; [|exact S].
  apply K; [|reflexivity].
  apply (same_properties_trans _ _ _ S).
  destruct (F _ _ E). now apply same_properties_fs.
Qed.

Lemma in_sdk_away (p : path) :
  FS.diverge (rapt_path plat ++ "Sdk"%string :: p) (local_properties plat) = true
  /\ FS.diverge (rapt_path plat ++ "Sdk"%string :: p) (bundle_properties plat) = true.
Proof.
  unfold local_properties, bundle_properties, plat_path.
  rewrite !diverge_app. split; reflexivity.
Qed.

Lemma root_path : plat_path plat (txt ".") = rapt_path plat.
Proof. unfold plat_path. apply app_nil_r. Qed.

Lemma frames_extract (archive : str) : frames plat (extract plat archive).
Proof.
  intros w. unfold extract. rewrite root_path.
  apply after_bind. unfold after at 1, open_zip.
  destruct (FS.lookup _ (fs w)) as [[[s|ls e|zf]|es]|];
    cbn [fst snd]; try apply same_properties_refl.
  apply after_getcwd.
  apply after_chdir; [apply same_properties_refl|].
  apply after_relative. cbn [cwd with_cwd]. literal_components.
  apply after_on_fs_away; [now split| |].
  { intros n n' X.
    split; (eapply extractall_frame; [|exact X]); apply in_sdk_away. }
  intros wa Sa Ca. cbn [cwd with_cwd] in Ca.
  apply after_relative. apply after_relative. rewrite Ca. literal_components.
  apply after_on_fs_away; [exact Sa| |].
  { intros n n' X.
    split; (eapply rename_frame; [exact X| |]); apply in_sdk_away. }
  intros wb Sb Cb. rewrite Ca in Cb.
  apply after_on_fs_away; [exact Sb| |].
  { intros n n' X.
    split; (eapply mkdir_frame; [exact X|]);
      apply diverge_not_prefix; rewrite diverge_sym; apply in_sdk_away. }
  intros wc Sc Cc. rewrite Cb in Cc.
  apply after_relative. rewrite Cc. literal_components.
  apply after_on_fs_away; [exact Sc| |].
  { intros n n' X.
    split; (eapply rename_frame; [exact X| |]); apply in_sdk_away. }
  intros wd Sd Cd.
  unfold after, chdir. destruct (FS.is_dir _ (fs wd)); exact Sd.
Qed.

Lemma frames_unpack_sdk : frames plat (unpack_sdk plat ui).
Proof.
  unfold unpack_sdk, success, info.
  apply frames_bind; [now apply frames_same_fs|]. intros present.
  destruct present; [apply frames_log|].
  apply frames_bind.
  { apply frames_same_fs. intros w. unfold terms.
    destruct (bool_decide _); [reflexivity|].
    now destruct (terms_accepted ui (trace w)). }
  intros _. destruct (archive_name plat) as [archive|] eqn:A;
    [|apply frames_raise].
  apply frames_bind; [apply frames_log|]. intros _.
  apply frames_bind.
  { intros w. unfold after, download.
    destruct (download_result ui (trace w) _) as [c|]; [|now split].
    unfold on_fs. cbn [fs with_event].
    destruct (FS.write_file _ c (fs w)) as [n'|e] eqn:W; [|now split].
    destruct (archive_away archive A) as [D1 D2].
    split; cbn [fs snd with_fs]; now apply (write_file_frame _ _ _ _ _ W). }
  intros _. apply frames_bind; [apply frames_log|]. intros _.
  apply frames_bind.
  { unfold background. apply frames_bind; [apply frames_log|].
    intros _. apply frames_extract. }
  intros _. apply frames_log.
Qed.

Lemma frames_before_keys : frames plat (before_keys plat ui).
Proof.
  unfold before_keys.
  apply frames_bind; [apply frames_copy_project|]. intros _.
  apply frames_bind; [apply frames_check_java|]. intros _.
  apply frames_bind; [apply frames_unpack_sdk|]. intros _.
  apply frames_get_packages.
Qed.

End FirstRunFrame.

(** ** A first run: what the key steps and the last writes build *)

Section FirstRunWrites.

Lemma write_text_put (p : path) (s : str) (n n' : node) :
  FS.write_text p s n = Ok n' ->
  FS.put p (Some (File (Text s))) n = Some n'.
Proof.
  unfold FS.write_text, FS.write_file.
  destruct (FS.lookup p n) as [[f|es]|]; try discriminate;
    (destruct (FS.put p _ n); [|discriminate]); now intros [= <-].
Qed.

Lemma tidy_lines (props : path) (n : node) :
  tidy props n = true ->
  forallb whole_line (fst (read_lines props n)) = true.
Proof.
  unfold tidy, read_lines.
  destruct (FS.lookup props n) as [[[s|ls e|zf]|es]|]; try discriminate; auto.
Qed.

Lemma tidy_written (props : path) (ls : list str) (k v : str) (n n' : node) :
  FS.put props (Some (File (Text (concat ls ++ Py.format_property k v)))) n
  = Some n' ->
  forallb whole_line ls = true -> no_breaks k = true -> no_breaks v = true ->
  tidy props n' = true.
Proof.
  intros P W Hk Hv. unfold tidy. rewrite (lookup_put _ _ _ _ P).
  rewrite lines_of_written by assumption.
  rewrite forallb_app, W. simpl. now rewrite whole_line_format.
Qed.

(** One default write on a tidy file: the file stays tidy, the key is
    there afterwards, the keys that were there stay, and nothing
    changes elsewhere. *)
Lemma set_default_tidy (props : path) (k v : str) (w : world) :
  tidy props (fs w) = true -> clean_key k = true -> no_breaks v = true ->
  after (set_property props k v false)
    (fun r w' =>
       tidy props (fs w') = true
       /\ (r = Ok tt -> key_absent k (fst (read_lines props (fs w'))) = false)
       /\ (forall k', key_absent k' (fst (read_lines props (fs w))) = false ->
                      key_absent k' (fst (read_lines props (fs w'))) = false)
       /\ (forall q, FS.diverge props q = true ->
                     FS.lookup q (fs w') = FS.lookup q (fs w))) w.
Proof.
  intros T Hk Hv.
  pose proof (clean_key_spec k Hk) as (_ & Bk & _).
  pose proof (tidy_lines props (fs w) T) as W.
  unfold after. rewrite set_property_unfold.
  set (ls := fst (read_lines props (fs w))) in *.
  destruct (key_absent k ls) eqn:A.
  - rewrite scan_lines_absent by assumption. unfold on_fs.
    destruct (FS.write_text props _ (fs w)) as [n'|e] eqn:E; cbn [fst snd].
    + apply write_text_put in E.
      pose proof (read_lines_written props ls k v (fs w) n' E W Bk Hv) as R.
      cbn [fs with_fs]. rewrite R. cbn [fst].
      split; [now apply (tidy_written props ls k v (fs w))|].
      split; [intros _; rewrite key_absent_app, key_absent_format by assumption;
              apply andb_false_r|].
      split; [intros k' H; now rewrite key_absent_app, H|].
      intros q D. now apply (lookup_put_diverge props q _ _ _ E).
    + repeat split; auto. discriminate.
  - rewrite scan_lines_present by assumption. cbn [fst snd].
    repeat split; auto.
Qed.

Lemma key_absent_others (k k' : str) (ls : list str) :
  k' <> k -> key_absent k' (others k ls) = key_absent k' ls.
Proof.
  intros N. induction ls as [|l ls IH]; [reflexivity|].
  simpl. destruct (bool_decide (line_key l = k)) eqn:E; simpl.
  - apply bool_decide_eq_true in E.
    rewrite bool_decide_eq_false_2 by congruence. exact IH.
  - now rewrite IH.
Qed.

(** The write of [sdk.dir] on a tidy file. *)
Lemma set_replace_tidy (props : path) (k v : str) (w : world) :
  tidy props (fs w) = true -> clean_key k = true -> no_breaks v = true ->
  after (set_property props k v true)
    (fun r w' =>
       (r = Ok tt ->
        exists ls,
          FS.lookup props (fs w')
          = Some (File (Text (concat ls ++ Py.format_property k v)))
          /\ read_lines props (fs w') = (ls ++ [Py.format_property k v], None)
          /\ key_absent k ls = true
          /\ forall k', k' <> k ->
               key_absent k' (fst (read_lines props (fs w))) = false ->
               key_absent k' ls = false)
       /\ (forall q, FS.diverge props q = true ->
                     FS.lookup q (fs w') = FS.lookup q (fs w))) w.
Proof.
  intros T Hk Hv.
  pose proof (clean_key_spec k Hk) as (_ & Bk & _).
  pose proof (tidy_lines props (fs w) T) as W.
  unfold after. rewrite set_property_unfold, scan_lines_replace.
  set (ls := fst (read_lines props (fs w))) in *.
  unfold on_fs.
  destruct (FS.write_text props _ (fs w)) as [n'|e] eqn:E; cbn [fst snd].
  - apply write_text_put in E. cbn [fs with_fs]. split.
    + intros _. exists (others k ls).
      split; [apply (lookup_put _ _ _ _ E)|].
      split; [apply (read_lines_written props _ k v (fs w) n' E);
              try assumption; now apply others_whole|].
      split; [apply others_absent|].
      intros k' N H. now rewrite key_absent_others.
    + intros q D. now apply (lookup_put_diverge props q _ _ _ E).
  - split; [discriminate|auto].
Qed.

Lemma after_mono {A} (m : M A) (P Q : result A -> world -> Prop) (w : world) :
  after m P w -> (forall r w', P r w' -> Q r w') -> after m Q w.
Proof. unfold after. auto. Qed.

Lemma tidy_same (p : path) (n n' : node) :
  FS.lookup p n = FS.lookup p n' -> tidy p n = tidy p n'.
Proof. unfold tidy. now intros ->. Qed.

Lemma has_defaults_same (p : path) (n n' : node) :
  FS.lookup p n = FS.lookup p n' -> has_defaults p n = has_defaults p n'.
Proof. intros E. unfold has_defaults. now rewrite (read_lines_same p n n' E). Qed.

(** The four default writes on a tidy file. *)
Lemma seed_defaults_builds (props : path) (store : str) (w : world) :
  tidy props (fs w) = true -> no_breaks store = true ->
  after (seed_defaults props store)
    (fun r w' =>
       tidy props (fs w') = true
       /\ (r = Ok tt -> has_defaults props (fs w') = true)
       /\ (forall q, FS.diverge props q = true ->
                     FS.lookup q (fs w') = FS.lookup q (fs w))) w.
Proof.
  intros T Hs. unfold seed_defaults.
  apply after_bind.
  eapply after_mono;
    [apply (set_default_tidy props (txt "key.alias") (txt "android") w T eq_refl eq_refl)|].
  intros r1 w1 (T1 & K1 & P1 & F1).
  destruct r1 as [[]|e]; [|split; [exact T1|split; [discriminate|exact F1]]].
  apply after_bind.
  eapply after_mono;
    [apply (set_default_tidy props (txt "key.store.password") (txt "android") w1 T1 eq_refl eq_refl)|].
  intros r2 w2 (T2 & K2 & P2 & F2).
  destruct r2 as [[]|e];
    [|split; [exact T2|split; [discriminate|]];
      intros q D; now rewrite F2, F1].
  apply after_bind.
  eapply after_mono;
    [apply (set_default_tidy props (txt "key.alias.password") (txt "android") w2 T2 eq_refl eq_refl)|].
  intros r3 w3 (T3 & K3 & P3 & F3).
  destruct r3 as [[]|e];
    [|split; [exact T3|split; [discriminate|]];
      intros q D; now rewrite F3, F2, F1].
  eapply after_mono;
    [apply (set_default_tidy props (txt "key.store") store w3 T3 eq_refl Hs)|].
  intros r4 w4 (T4 & K4 & P4 & F4).
  split; [exact T4|]. split.
  - intros ->. unfold has_defaults.
    rewrite (P4 _ (P3 _ (P2 _ (K1 eq_refl)))).
    rewrite (P4 _ (P3 _ (K2 eq_refl))).
    rewrite (P4 _ (K3 eq_refl)).
    now rewrite (K4 eq_refl).
  - intros q D. now rewrite F4, F3, F2, F1.
Qed.

End FirstRunWrites.

(** ** A first run: the state it leaves *)

Section FirstRun.

Context (plat : platform) (ui : interface).

Hypothesis tools : tools_keep plat ui.

Lemma after_ext {A} (m m' : M A) (Q : result A -> world -> Prop) (w : world) :
  m w = m' w -> after m' Q w -> after m Q w.
Proof. unfold after. now intros ->. Qed.

Lemma frames_get_property (p : path) (k : str) : frames plat (get_property p k).
Proof.
  apply frames_same_fs. intros w. rewrite get_property_unfold.
  destruct (find_property k _); [reflexivity|].
  now destruct (snd (read_lines p (fs w))).
Qed.

Lemma properties_apart :
  FS.diverge (local_properties plat) (bundle_properties plat) = true
  /\ FS.diverge (bundle_properties plat) (local_properties plat) = true.
Proof.
  unfold local_properties, bundle_properties, plat_path.
  rewrite !diverge_app. split; reflexivity.
Qed.

(** A key step on a tidy property file: the file stays tidy and gets
    the four key properties; the other property file is not touched. *)
Lemma key_step_builds (props other : path) (store : str)
    (rest : option str -> M unit) (w : world) :
  (props = local_properties plat /\ other = bundle_properties plat)
  \/ (props = bundle_properties plat /\ other = local_properties plat) ->
  (forall s, frames plat (rest s)) ->
  tidy props (fs w) = true -> no_breaks store = true ->
  after (set_property props (txt "key.alias") (txt "android") false ;;
         set_property props (txt "key.store.password") (txt "android") false ;;
         set_property props (txt "key.alias.password") (txt "android") false ;;
         set_property props (txt "key.store") store false ;;
         let* stored := get_property props (txt "key.store") in
         rest stored)
    (fun r w' =>
       tidy props (fs w') = true
       /\ (r = Ok tt -> has_defaults props (fs w') = true)
       /\ FS.lookup other (fs w') = FS.lookup other (fs w)) w.
Proof.
  intros Which Hrest T Hs.
  assert (FS.diverge props other = true) as D
    by (destruct Which as [[-> ->]|[-> ->]]; apply properties_apart).
  apply (after_ext _ _ _ _ (seed_defaults_then props store _ w)).
  apply after_bind.
  eapply after_mono; [apply (seed_defaults_builds props store w T Hs)|].
  intros r ws (Ts & Hd & F).
  destruct r as [[]|e]; [|split; [exact Ts|split; [discriminate|now apply F]]].
  assert (frames plat (let* stored := get_property props (txt "key.store") in
                       rest stored)) as Tail
    by (apply frames_bind; [apply frames_get_property|exact Hrest]).
  eapply after_mono; [apply Tail|].
  intros r' w' [SL SB]. cbn beta in SL, SB.
  assert (FS.lookup props (fs w') = FS.lookup props (fs ws)
          /\ FS.lookup other (fs w') = FS.lookup other (fs ws)) as [Ep Eo]
    by (destruct Which as [[-> ->]|[-> ->]]; now split).
  split; [now rewrite (tidy_same _ _ _ Ep)|].
  split; [intros _; rewrite (has_defaults_same _ _ _ Ep); now apply Hd|].
  rewrite Eo. now apply F.
Qed.

Lemma generate_keys_builds (w : world) :
  tidy (local_properties plat) (fs w) = true ->
  no_breaks (default_keystore plat "android.keystore") = true ->
  after (generate_keys plat ui)
    (fun r w' =>
       tidy (local_properties plat) (fs w') = true
       /\ (r = Ok tt -> has_defaults (local_properties plat) (fs w') = true)
       /\ FS.lookup (bundle_properties plat) (fs w')
          = FS.lookup (bundle_properties plat) (fs w)) w.
Proof.
  intros T Hs. unfold generate_keys.
  apply key_step_builds; [now left| |exact T|exact Hs].
  intros stored. unfold info, success.
  destruct (negb (bool_decide _)); [apply frames_log|].
  apply frames_bind; [now apply frames_same_fs|]. intros present.
  destruct present; [apply frames_log|].
  apply frames_bind; [now apply frames_same_fs|]. intros create.
  destruct (negb create); [apply frames_ret|].
  apply frames_bind; [now apply frames_same_fs|]. intros backup.
  destruct (negb backup); [apply frames_ret|].
  apply frames_bind; [now apply frames_same_fs|]. intros org.
  apply frames_bind; [now apply frames_run|]. intros ok.
  apply frames_bind; [|intros _; apply frames_log].
  destruct (negb ok); [apply frames_fail|apply frames_ret].
Qed.

Lemma generate_bundle_keys_builds (w : world) :
  tidy (bundle_properties plat) (fs w) = true ->
  no_breaks (default_keystore plat "bundle.keystore") = true ->
  after (generate_bundle_keys plat ui)
    (fun r w' =>
       tidy (bundle_properties plat) (fs w') = true
       /\ (r = Ok tt -> has_defaults (bundle_properties plat) (fs w') = true)
       /\ FS.lookup (local_properties plat) (fs w')
          = FS.lookup (local_properties plat) (fs w)) w.
Proof.
  intros T Hs. unfold generate_bundle_keys.
  apply key_step_builds; [now right| |exact T|exact Hs].
  intros stored.
  destruct (negb (bool_decide _)); [apply frames_ret|].
  apply frames_bind; [now apply frames_same_fs|]. intros present.
  destruct present; [apply frames_ret|].
  apply frames_bind; [now apply frames_run|]. intros ok.
  destruct (negb ok); [apply frames_fail|apply frames_ret].
Qed.

Lemma has_defaults_spec (props : path) (n : node) :
  has_defaults props n = true ->
  let ls := fst (read_lines props n) in
  key_absent (txt "key.alias") ls = false
  /\ key_absent (txt "key.store.password") ls = false
  /\ key_absent (txt "key.alias.password") ls = false
  /\ key_absent (txt "key.store") ls = false.
Proof.
  unfold has_defaults. intros H.
  apply andb_prop in H as [H H4]. apply andb_prop in H as [H H3].
  apply andb_prop in H as [H1 H2].
  apply negb_true_iff in H1, H2, H3, H4. auto.
Qed.

(** The write of [sdk.dir] on a tidy file with the four key properties
    leaves the file as [persisted] describes it. *)
Lemma set_sdk_dir_builds (props : path) (w : world) :
  tidy props (fs w) = true -> has_defaults props (fs w) = true ->
  no_breaks (sdk_dir plat) = true ->
  after (set_property props (txt "sdk.dir") (sdk_dir plat) true)
    (fun r w' =>
       (r = Ok tt -> persisted plat props (fs w'))
       /\ (forall q, FS.diverge props q = true ->
                     FS.lookup q (fs w') = FS.lookup q (fs w))) w.
Proof.
  intros T H B.
  destruct (has_defaults_spec props (fs w) H) as (K1 & K2 & K3 & K4).
  eapply after_mono;
    [apply (set_replace_tidy props (txt "sdk.dir") (sdk_dir plat) w T eq_refl B)|].
  intros r w' [P F]. split; [|exact F].
  intros E. destruct (P E) as (ls & L & R & A & Keep).
  exists ls. unfold sdk_line.
  repeat split; try assumption; apply Keep; try assumption; discriminate.
Qed.

Lemma persisted_same (props : path) (n n' : node) :
  FS.lookup props n = FS.lookup props n' ->
  persisted plat props n' -> persisted plat props n.
Proof.
  intros E (ls & L & R & K). exists ls.
  rewrite E, (read_lines_same _ _ _ E). auto.
Qed.

Lemma persist_builds (w : world) :
  tidy (local_properties plat) (fs w) = true ->
  tidy (bundle_properties plat) (fs w) = true ->
  has_defaults (local_properties plat) (fs w) = true ->
  has_defaults (bundle_properties plat) (fs w) = true ->
  no_breaks (sdk_dir plat) = true ->
  after (persist_sdk_dir plat)
    (fun r w' =>
       r = Ok tt ->
       persisted plat (local_properties plat) (fs w')
       /\ persisted plat (bundle_properties plat) (fs w')) w.
Proof.
  intros Tl Tb Hl Hb B. unfold persist_sdk_dir.
  destruct properties_apart as [Dlb Dbl].
  apply after_bind.
  eapply after_mono; [apply (set_sdk_dir_builds _ w Tl Hl B)|].
  intros r1 wa [Pa Fa]. destruct r1 as [[]|e]; [|discriminate].
  specialize (Pa eq_refl). specialize (Fa _ Dlb).
  apply after_bind.
  eapply after_mono; [apply (set_sdk_dir_builds _ wa)|].
  - now rewrite (tidy_same _ _ _ Fa).
  - now rewrite (has_defaults_same _ _ _ Fa).
  - exact B.
  - intros r2 wb [Pb Fb]. destruct r2 as [[]|e]; [|discriminate].
    specialize (Pb eq_refl). specialize (Fb _ Dbl).
    unfold after, final_success, log. cbn [fst snd fs with_event].
    intros _. split; [|exact Pb].
    now apply (persisted_same _ _ _ Fb).
Qed.

Lemma install_sdk_split (w : world) :
  install_sdk plat ui w
  = (before_keys plat ui ;; generate_keys plat ui ;;
     generate_bundle_keys plat ui ;; persist_sdk_dir plat) w.
Proof.
  unfold install_sdk, before_keys. rewrite !bind_assoc.
  apply bind_ext; intros _ w1. rewrite !bind_assoc.
  apply bind_ext; intros _ w2. now rewrite !bind_assoc.
Qed.

(** A run that starts from tidy property files and completes leaves
    both as [persisted] describes them. *)
Lemma first_run_builds (w0 : world) :
  tidy (local_properties plat) (fs w0) = true ->
  tidy (bundle_properties plat) (fs w0) = true ->
  no_breaks (default_keystore plat "android.keystore") = true ->
  no_breaks (default_keystore plat "bundle.keystore") = true ->
  no_breaks (sdk_dir plat) = true ->
  after (install_sdk plat ui)
    (fun r w1 =>
       r = Ok tt ->
       persisted plat (local_properties plat) (fs w1)
       /\ persisted plat (bundle_properties plat) (fs w1)) w0.
Proof.
  intros Tl Tb Bk Bb Bs.
  apply (after_ext _ _ _ _ (install_sdk_split w0)).
  apply after_bind.
  eapply after_mono; [apply (frames_before_keys plat ui tools w0)|].
  intros r wa [El Eb]. cbn beta in El, Eb.
  destruct r as [[]|e]; [|discriminate].
  rewrite <- (tidy_same _ _ _ El) in Tl. rewrite <- (tidy_same _ _ _ Eb) in Tb.
  apply after_bind.
  eapply after_mono; [apply (generate_keys_builds wa Tl Bk)|].
  intros r wb (Tl' & Hl & Fb). destruct r as [[]|e]; [|discriminate].
  specialize (Hl eq_refl). rewrite <- (tidy_same _ _ _ Fb) in Tb.
  apply after_bind.
  eapply after_mono; [apply (generate_bundle_keys_builds wb Tb Bb)|].
  intros r wc (Tb' & Hb & Fl). destruct r as [[]|e]; [|discriminate].
  specialize (Hb eq_refl).
  rewrite <- (tidy_same _ _ _ Fl) in Tl'.
  rewrite <- (has_defaults_same _ _ _ Fl) in Hl.
  now apply persist_builds.
Qed.

End FirstRun.

(** ** Running the workflow twice *)

(** The sample processes are as [tools_keep] asks. *)
Lemma sample_tools_keep (agree_from : nat) :
  tools_keep Sample.plat (Sample.ui agree_from).
Proof.
  intros tr n d args. cbn [call_outcome Sample.ui]. unfold Sample.processes.
  destruct (Sample.keystore_of args) as [name|] eqn:K; [|now repeat split].
  assert (genkey args = true) as G.
  { unfold Sample.keystore_of in K.
    destruct args as [|a [|g [|x [|nm rest]]]]; try discriminate.
    unfold genkey.
    destruct (bool_decide (g = txt "-genkey")); [reflexivity|discriminate]. }
  destruct (bool_decide (name = _) || bool_decide (name = _)) eqn:N;
    [|split; [reflexivity|split; [reflexivity|congruence]]].
  destruct (FS.write_text _ _ n) as [n'|e] eqn:W;
    [|split; [reflexivity|split; [reflexivity|congruence]]].
  cbn [left_by].
  apply orb_true_iff in N as [N|N]; apply bool_decide_eq_true in N; subst name;
    (split; [now apply (write_file_frame _ _ _ _ _ W)|]);
    (split; [now apply (write_file_frame _ _ _ _ _ W)|congruence]).
Qed.

(** C1, as the code has it.  Take a first run that starts from property
    files that are not there yet or are text whose lines all end in a
    line break, on a platform whose paths have no line break in them,
    with external tools that leave the property files alone (and, the
    key generation apart, the SDK manager and the keystores).  If that
    run completes and leaves the SDK manager in place and each key step
    settled (its keystore is there, or its property file names another
    keystore), then a second run from the state it leaves, however it
    ends, leaves both property files exactly as they are and downloads
    nothing and generates no key. *)
Theorem second_run_is_idle (plat : platform) (ui : interface) (w0 w1 : world) :
  tools_keep plat ui ->
  tidy (local_properties plat) (fs w0) = true ->
  tidy (bundle_properties plat) (fs w0) = true ->
  no_breaks (default_keystore plat "android.keystore") = true ->
  no_breaks (default_keystore plat "bundle.keystore") = true ->
  no_breaks (sdk_dir plat) = true ->
  install_sdk plat ui w0 = (Ok tt, w1) ->
  FS.exists_ (sdkmanager plat) (fs w1) = true ->
  settled plat (local_properties plat) "android.keystore" (fs w1) = true ->
  settled plat (bundle_properties plat) "bundle.keystore" (fs w1) = true ->
  after (install_sdk plat ui) (fun _ w2 => unchanged plat w1 w2) w1.
Proof.
  intros tools Tl Tb Bk Bb Bs Run Sdk Kl Kb.
  pose proof (first_run_builds plat ui tools w0 Tl Tb Bk Bb Bs) as P.
  unfold after in P. rewrite Run in P. destruct (P eq_refl) as [Pl Pb].
  now apply second_run_unchanged.
Qed.

Lemma second_run_is_idle_witness :
  after (install_sdk Sample.plat (Sample.ui 0))
    (fun _ w2 => unchanged Sample.plat Sample.provisioned w2)
    Sample.provisioned.
Proof.
  apply (second_run_is_idle Sample.plat (Sample.ui 0) Sample.fresh
           Sample.provisioned).
  - apply sample_tools_keep.
  - reflexivity.
  - reflexivity.
  - reflexivity.
  - reflexivity.
  - reflexivity.
  - vm_compute. reflexivity.
  - vm_compute. reflexivity.
  - vm_compute. reflexivity.
  - vm_compute. reflexivity.
Defined.

(** C1, as the claim has it, fails.  A user who declines the key in a
    first run and agrees in the second: both runs complete and the
    second one runs the key tool.  And a property file whose last line
    has no line break: both runs complete and leave different
    property files. *)
Lemma second_run_not_idle :
  (let ui := Sample.ui 20 in
   let w1 := snd (install_sdk Sample.plat ui Sample.fresh) in
   let w2 := snd (install_sdk Sample.plat ui w1) in
   fst (install_sdk Sample.plat ui Sample.fresh) = Ok tt
   /\ fst (install_sdk Sample.plat ui w1) = Ok tt
   /\ existsb keygen_call (skipn (length (trace w1)) (trace w2)) = true)
  /\ (let ui := Sample.ui 0 in
      let w0 := Sample.with_properties (Text (txt "key.alias=me")) in
      let w1 := snd (install_sdk Sample.plat ui w0) in
      let w2 := snd (install_sdk Sample.plat ui w1) in
      fst (install_sdk Sample.plat ui w0) = Ok tt
      /\ fst (install_sdk Sample.plat ui w1) = Ok tt
      /\ FS.lookup Sample.properties (fs w2)
         <> FS.lookup Sample.properties (fs w1)).
Proof.
  split.
  - vm_compute. auto.
  - repeat split; try (vm_compute; reflexivity).
    vm_compute. discriminate.
Qed.

(** * More of the property store *)

Section MoreOfTheStore.

Lemma lstrip_blank (a s : str) :
  blank a = true -> Py.lstrip (a ++ s) = Py.lstrip s.
Proof.
  induction a as [|c a IH]; [reflexivity|].
  simpl. intros H. apply andb_prop in H as [Hc Ha]. rewrite Hc. now apply IH.
Qed.

Lemma rstrip_blank (s b : str) :
  blank b = true -> Py.rstrip (s ++ b) = Py.rstrip s.
Proof.
  intros H. unfold Py.rstrip. rewrite rev_app_distr. f_equal.
  apply lstrip_blank. unfold blank in *. rewrite forallb_forall in *.
  intros x Hx. apply H. now apply in_rev.
Qed.

(** White space around a stripped text is stripped away. *)
Lemma strip_padded (a s b : str) :
  blank a = true -> blank b = true -> Py.strip s = s ->
  Py.strip (a ++ s ++ b) = s.
Proof.
  intros Ha Hb Hs. unfold Py.strip. rewrite lstrip_blank by assumption.
  destruct s as [|c s].
  - simpl. rewrite <- (app_nil_r b).
    rewrite lstrip_blank by assumption. reflexivity.
  - rewrite lstrip_fixed_app
      by (try discriminate; now apply strip_fixed_lstrip).
    rewrite rstrip_blank by assumption. now apply strip_fixed_rstrip.
Qed.

Lemma blank_no_equals (a : str) : blank a = true -> Py.EQUALS ∉ a.
Proof.
  intros H Hin. unfold blank in H. rewrite forallb_forall in H.
  apply list_elem_of_In in Hin. now apply H in Hin.
Qed.

Lemma lines_with_others (k : str) (ls : list str) :
  lines_with k (others k ls) = [].
Proof.
  induction ls as [|l ls IH]; [reflexivity|].
  unfold others, lines_with in *. simpl.
  destruct (bool_decide (line_key l = k)) eqn:E; simpl; [exact IH|].
  now rewrite E.
Qed.

Lemma lines_with_app (k : str) (a b : list str) :
  lines_with k (a ++ b) = lines_with k a ++ lines_with k b.
Proof. unfold lines_with. apply List.filter_app. Qed.

(** A change that succeeds has a directory above it. *)
Lemma put_needs_parent (p : path) (v : option node) (n n' : node) :
  FS.put p v n = Some n' -> FS.is_dir (removelast p) n = true.
Proof.
  revert n n'. induction p as [|c p IH]; intros n n' H.
  - now rewrite put_nil in H.
  - destruct n as [f|es]; [discriminate|]. simpl in H.
    destruct p as [|d p]; [reflexivity|].
    destruct (es !! c) as [n1|] eqn:L; [|discriminate].
    destruct (FS.put (d :: p) v n1) as [n2|] eqn:P; [|discriminate].
    change (removelast (c :: d :: p)) with (c :: removelast (d :: p)).
    rewrite is_dir_cons, L. now apply (IH n1 n2).
Qed.

Lemma write_text_unwritable (f : path) (s : str) (n : node) :
  FS.writable f n = false -> FS.write_text f s n = Raise OSError.
Proof.
  unfold FS.writable, FS.write_text, FS.write_file.
  destruct f as [|c f].
  - intros _. destruct (FS.lookup [] n) as [[x|es]|]; try reflexivity;
      now rewrite put_nil.
  - destruct (FS.lookup (c :: f) n) as [[x|es]|] eqn:L; try discriminate;
      try reflexivity.
    intros D. destruct (FS.put (c :: f) _ n) as [n'|] eqn:P; [|reflexivity].
    apply put_needs_parent in P. congruence.
Qed.

End MoreOfTheStore.

(** X1: reading a property changes nothing; writing one leaves the
    trace, the working directory and the environment as they are and
    changes no path of the file system but the property file (and what
    lies on the way to it). *)
Theorem property_store_touches_only_its_file (f : path) (k v : str)
    (r : bool) (w : world) :
  snd (get_property f k w) = w
  /\ set_property_frame f w (snd (set_property f k v r w)).
Proof.
  split.
  - rewrite get_property_unfold. destruct (find_property k _); [reflexivity|].
    now destruct (snd (read_lines f (fs w))).
  - apply (after_set_property f k v r (fun _ w1 => set_property_frame f w w1)).
    auto.
Qed.

(** X2: after [set_property(f, k, v, replace=True)] on a file that can
    be written and whose lines are whole, however many lines had the
    key before, exactly one line has it, the last one; the lines of
    the other keys are kept in their order and [get_property(f, k)]
    returns [v]. *)
Theorem replace_leaves_one_line (f : path) (k v : str) (w : world) :
  clean_key k = true -> clean_value v = true ->
  FS.writable f (fs w) = true ->
  forallb whole_line (fst (read_lines f (fs w))) = true ->
  exists n',
    set_property f k v true w = (Ok tt, with_fs n' w)
    /\ read_lines f n'
       = (others k (fst (read_lines f (fs w))) ++ [Py.format_property k v], None)
    /\ lines_with k (fst (read_lines f n')) = [Py.format_property k v]
    /\ get_property f k (with_fs n' w) = (Ok (Some v), with_fs n' w).
Proof.
  intros Hk Hv Hw W.
  pose proof (clean_key_spec k Hk) as (_ & Bk & _).
  pose proof (clean_value_spec v Hv) as (_ & Bv).
  destruct (set_property_writes f k v true _ w Hw (scan_lines_replace k _))
    as (n' & S & P & R); try assumption.
  { now apply others_whole. }
  exists n'. split; [exact S|]. split; [exact R|]. split.
  - rewrite R. cbn [fst]. rewrite lines_with_app, lines_with_others.
    unfold lines_with. simpl. rewrite line_key_format by assumption.
    now rewrite bool_decide_eq_true_2.
  - rewrite get_property_unfold. cbn [fs with_fs]. rewrite R. cbn [fst snd].
    rewrite find_property_app, find_property_absent by apply others_absent.
    now rewrite find_property_format.
Qed.

Lemma replace_leaves_one_line_witness :
  let w := Sample.with_properties
             (Text (txt "a=1" ++ Py.LF :: txt "x=0" ++ Py.LF :: txt "a=2" ++ [Py.LF])) in
  exists n',
    set_property Sample.properties (txt "a") (txt "3") true w
    = (Ok tt, with_fs n' w)
    /\ read_lines Sample.properties n'
       = ([txt "x=0" ++ [Py.LF]; txt "a=3" ++ [Py.LF]], None)
    /\ lines_with (txt "a") (fst (read_lines Sample.properties n'))
       = [txt "a=3" ++ [Py.LF]]
    /\ get_property Sample.properties (txt "a") (with_fs n' w)
       = (Ok (Some (txt "3")), with_fs n' w).
Proof.
  apply (replace_leaves_one_line Sample.properties (txt "a") (txt "3"));
    reflexivity.
Defined.

(** X3: [get_property] reads the first line that has the key, whatever
    follows it, and strips white space: when that line is the key, an
    equals sign and the value [v], each with any white space around
    it, the result is [v]. *)
Theorem get_property_strips (f : path) (k v a b c d s : str)
    (pre post : list str) (w : world) :
  FS.lookup f (fs w) = Some (File (Text s)) ->
  Py.lines_of s = pre ++ (a ++ k ++ b ++ Py.EQUALS :: c ++ v ++ d) :: post ->
  key_absent k pre = true ->
  blank a = true -> blank b = true -> blank c = true -> blank d = true ->
  Py.strip k = k -> Py.EQUALS ∉ k -> Py.strip v = v ->
  get_property f k w = (Ok (Some v), w).
Proof.
  intros L E A Ha Hb Hc Hd Sk Nk Sv.
  rewrite get_property_unfold. unfold read_lines. rewrite L. cbn [fst snd].
  rewrite E, find_property_app, find_property_absent by assumption.
  simpl find_property.
  replace (a ++ k ++ b ++ Py.EQUALS :: c ++ v ++ d)
    with ((a ++ k ++ b) ++ Py.EQUALS :: c ++ v ++ d)
    by (rewrite <- !app_assoc; reflexivity).
  rewrite partition_at.
  - rewrite strip_padded by assumption.
    rewrite bool_decide_eq_true_2 by reflexivity.
    now rewrite strip_padded.
  - intros Hin. apply elem_of_app in Hin as [Hin|Hin];
      [now apply (blank_no_equals a)|].
    apply elem_of_app in Hin as [Hin|Hin]; [tauto|].
    now apply (blank_no_equals b).
Qed.

Lemma get_property_strips_witness :
  let w := Sample.with_properties
             (Text (txt "  key.store = /home/me/my.keystore  " ++ Py.LF ::
                    txt "key.store=/other" ++ [Py.LF])) in
  get_property Sample.properties (txt "key.store") w
  = (Ok (Some (txt "/home/me/my.keystore")), w).
Proof.
  apply (get_property_strips Sample.properties (txt "key.store")
           (txt "/home/me/my.keystore") (txt "  ") (txt " ") (txt " ")
           (txt "  " ++ [Py.LF])
           (txt "  key.store = /home/me/my.keystore  " ++ Py.LF ::
            txt "key.store=/other" ++ [Py.LF])
           [] [txt "key.store=/other" ++ [Py.LF]]);
    try reflexivity.
  vm_compute. intros H.
  repeat (apply elem_of_cons in H as [H|H]; [discriminate|]).
  now apply not_elem_of_nil in H.
Defined.

(** X4: when the property file cannot be written (its path is a
    directory, or nothing is there and neither is a directory to put it
    in) and the loop of [set_property] does not return early,
    [set_property] raises [OSError] and the world is as it was. *)
Theorem set_property_unwritable (f : path) (k v : str) (r : bool) (w : world) :
  FS.writable f (fs w) = false ->
  r = true \/ key_absent k (fst (read_lines f (fs w))) = true ->
  set_property f k v r w = (Raise OSError, w).
Proof.
  intros Hw C. rewrite set_property_unfold.
  assert (exists kept, scan_lines k r (fst (read_lines f (fs w))) = Collected kept)
    as [kept ->].
  { destruct C as [->|A]; [rewrite scan_lines_replace|
                           rewrite scan_lines_absent by assumption]; eauto. }
  unfold on_fs. now rewrite write_text_unwritable.
Qed.

Lemma set_property_unwritable_witness :
  set_property Sample.properties (txt "sdk.dir") (txt "/rapt/Sdk") true
    Sample.fresh
  = (Raise OSError, Sample.fresh).
Proof.
  apply set_property_unwritable; [reflexivity|now left].
Defined.

(** * More of the key steps *)

Section MoreOfTheKeySteps.

Lemma set_property_frame_refl (f : path) (w : world) : set_property_frame f w w.
Proof. now repeat split. Qed.

Lemma set_property_frame_trans (f : path) (w w1 w2 : world) :
  set_property_frame f w w1 -> set_property_frame f w1 w2 ->
  set_property_frame f w w2.
Proof.
  intros (T1 & C1 & E1 & F1) (T2 & C2 & E2 & F2).
  repeat split; try congruence. intros q D. now rewrite F2, F1.
Qed.

Lemma seed_line_whole (k v : str) (ls : list str) :
  no_breaks k = true -> no_breaks v = true ->
  forallb whole_line ls = true -> forallb whole_line (seed_line k v ls) = true.
Proof.
  intros Hk Hv W. unfold seed_line. destruct (key_absent k ls); [|exact W].
  rewrite forallb_app, W. simpl. now rewrite whole_line_format.
Qed.

(** One default write on a file that can be written and has whole
    lines. *)
Lemma set_default_step (f : path) (k v : str) (w : world) :
  clean_key k = true -> no_breaks v = true ->
  FS.writable f (fs w) = true ->
  forallb whole_line (fst (read_lines f (fs w))) = true ->
  exists w',
    set_property f k v false w = (Ok tt, w')
    /\ fst (read_lines f (fs w')) = seed_line k v (fst (read_lines f (fs w)))
    /\ FS.writable f (fs w') = true
    /\ set_property_frame f w w'.
Proof.
  intros Hk Hv Hw W.
  pose proof (clean_key_spec k Hk) as (_ & Bk & _).
  unfold seed_line.
  destruct (key_absent k (fst (read_lines f (fs w)))) eqn:A.
  - destruct (set_property_writes f k v false _ w Hw
                (scan_lines_absent k false _ A)) as (n' & S & P & R);
      try assumption.
    exists (with_fs n' w). split; [exact S|]. cbn [fs with_fs]. rewrite R.
    split; [reflexivity|]. split; [now apply written_writable in P|].
    repeat split. intros q D. now apply (lookup_put_diverge f q _ _ _ P).
  - exists w. split; [now apply set_property_present|].
    split; [reflexivity|]. split; [exact Hw|apply set_property_frame_refl].
Qed.



(** The four default writes, one after the other. *)
Lemma seed_defaults_steps (f : path) (store : str) (w : world) :
  no_breaks store = true ->
  FS.writable f (fs w) = true ->
  forallb whole_line (fst (read_lines f (fs w))) = true ->
  exists w',
    seed_defaults f store w = (Ok tt, w')
    /\ fst (read_lines f (fs w')) = seeded_lines store (fst (read_lines f (fs w)))
    /\ FS.writable f (fs w') = true
    /\ set_property_frame f w w'.
Proof.
  intros Hs Hw W.
  destruct (set_default_step f (txt "key.alias") (txt "android") w
              eq_refl eq_refl Hw W) as (w1 & S1 & R1 & W1 & F1).
  assert (forallb whole_line (fst (read_lines f (fs w1))) = true) as L1
    by (rewrite R1; now apply seed_line_whole).
  destruct (set_default_step f (txt "key.store.password") (txt "android") w1
              eq_refl eq_refl W1 L1) as (w2 & S2 & R2 & W2 & F2).
  assert (forallb whole_line (fst (read_lines f (fs w2))) = true) as L2
    by (rewrite R2; now apply seed_line_whole).
  destruct (set_default_step f (txt "key.alias.password") (txt "android") w2
              eq_refl eq_refl W2 L2) as (w3 & S3 & R3 & W3 & F3).
  assert (forallb whole_line (fst (read_lines f (fs w3))) = true) as L3
    by (rewrite R3; now apply seed_line_whole).
  destruct (set_default_step f (txt "key.store") store w3
              eq_refl Hs W3 L3) as (w4 & S4 & R4 & W4 & F4).
  exists w4. split; [|split; [|split; [exact W4|]]].
  - unfold seed_defaults.
    rewrite (bind_ok _ _ _ _ _ S1), (bind_ok _ _ _ _ _ S2).
    now rewrite (bind_ok _ _ _ _ _ S3).
  - unfold seeded_lines. now rewrite R4, R3, R2, R1.
  - eauto using set_property_frame_trans.
Qed.


Lemma seed_line_has (k v : str) (ls : list str) :
  clean_key k = true -> key_absent k (seed_line k v ls) = false.
Proof.
  intros Hk. unfold seed_line. destruct (key_absent k ls) eqn:A; [|exact A].
  rewrite key_absent_app, key_absent_format by assumption. apply andb_false_r.
Qed.

Lemma seed_line_keeps (k k' v' : str) (ls : list str) :
  key_absent k ls = false -> key_absent k (seed_line k' v' ls) = false.
Proof.
  intros H. unfold seed_line. destruct (key_absent k' ls); [|exact H].
  now rewrite key_absent_app, H.
Qed.

End MoreOfTheKeySteps.

(** X5: on a property file that can be written and whose lines are
    whole, the four default writes of a key step all succeed; each
    default whose key no line has joins the lines at the end, in the
    order [key.alias], [key.store.password], [key.alias.password],
    [key.store], and the lines that were there stay as they are.
    Nothing else in the world changes. *)
Theorem seed_defaults_in_order (f : path) (store : str) (w : world) :
  no_breaks store = true ->
  FS.writable f (fs w) = true ->
  forallb whole_line (fst (read_lines f (fs w))) = true ->
  exists w',
    seed_defaults f store w = (Ok tt, w')
    /\ fst (read_lines f (fs w')) = seeded_lines store (fst (read_lines f (fs w)))
    /\ set_property_frame f w w'.
Proof.
  intros Hs Hw W.
  destruct (seed_defaults_steps f store w Hs Hw W) as (w' & S & R & _ & F).
  exists w'. auto.
Qed.

Lemma seed_defaults_in_order_witness :
  let w := Sample.with_properties
             (Text (txt "key.alias.password=secret" ++ [Py.LF])) in
  exists w',
    seed_defaults Sample.properties (txt "/rapt/android.keystore") w = (Ok tt, w')
    /\ fst (read_lines Sample.properties (fs w'))
       = [txt "key.alias.password=secret" ++ [Py.LF];
          txt "key.alias=android" ++ [Py.LF];
          txt "key.store.password=android" ++ [Py.LF];
          txt "key.store=/rapt/android.keystore" ++ [Py.LF]]
    /\ set_property_frame Sample.properties w w'.
Proof.
  apply (seed_defaults_in_order Sample.properties (txt "/rapt/android.keystore"));
    reflexivity.
Defined.



(** X7: [generate_bundle_keys] never asks the user anything.  For every
    world and every interface, all it adds to the trace is nothing, or
    the one run of the key tool for [bundle.keystore] with the fixed
    name [CN=Ren'Py Creator], or that run and the failure message. *)
Theorem bundle_key_is_silent (plat : platform) (ui : interface) (w : world) :
  let keygen :=
    Call (keytool_args plat "bundle.keystore" (txt "CN=Ren'Py Creator"))
      false true false in
  after (generate_bundle_keys plat ui)
    (fun _ w' =>
       exists evs,
         trace w' = trace w ++ evs
         /\ (evs = [] \/ evs = [keygen]
             \/ evs = [keygen;
                       Fail "Could not create bundle.keystore. Is keytool in your path?"]))
    w.
Proof.
  intros keygen. unfold generate_bundle_keys.
  apply (seeding_frame _ (rapt_path plat ++ ["bundle.keystore"%string])).
  { apply (properties_part_from plat "bundle.keystore"); reflexivity. }
  intros w1 T _.
  assert (exists evs, trace w1 = trace w ++ evs
                      /\ (evs = [] \/ evs = [keygen]
                          \/ evs = [keygen;
                                    Fail "Could not create bundle.keystore. Is keytool in your path?"]))
    as Quiet by (exists []; rewrite app_nil_r; auto).
  split; [intros e; exact Quiet|].
  apply after_bind, after_get_property. intros [stored|e]; [|exact Quiet].
  destruct (negb (bool_decide (stored = _))); [exact Quiet|].
  apply after_bind, after_path_exists.
  destruct (FS.exists_ _ (fs w1)); [exact Quiet|].
  unfold fail. unfold after, bind, run, call, log, raise, ret. cbn [fst snd].
  destruct (call_outcome ui (trace w1) (fs w1) (cwd w1) _);
    cbn [fst snd negb trace with_event with_fs]; rewrite T.
  - exists [keygen]. auto.
  - exists [keygen; Fail "Could not create bundle.keystore. Is keytool in your path?"].
    rewrite <- app_assoc. auto.
  - exists [keygen; Fail "Could not create bundle.keystore. Is keytool in your path?"].
    rewrite <- app_assoc. auto.
Qed.

(** X8: when [generate_keys] gets as far as its questions and the user
    agrees to both, the name the user enters goes into the key as
    [CN=<name>] and the key tool is run once.  When the tool exits with
    status zero [generate_keys] reports success and returns; when it
    exits otherwise or is not found, [generate_keys] reports the
    failure and ends the run. *)
Theorem agreed_key_is_made (plat : platform) (ui : interface) (w ws : world) :
  let store := default_keystore plat "android.keystore" in
  let asked := [YesNo create_question true; YesNo backup_question true] in
  let name :=
    input_answer ui (trace ws ++ asked)
      "Please enter your name or the name of your organization." in
  let entered :=
    asked ++ [Input "Please enter your name or the name of your organization." name] in
  let args := keytool_args plat "android.keystore" (txt "CN=" ++ name) in
  let told := entered ++ [Call args false true false] in
  seed_defaults (local_properties plat) store w = (Ok tt, ws) ->
  fst (get_property (local_properties plat) (txt "key.store") ws)
  = Ok (Some store) ->
  FS.exists_ (plat_path plat (txt "android.keystore")) (fs ws) = false ->
  yesno_answer ui (trace ws) create_question = true ->
  yesno_answer ui (trace ws ++ [YesNo create_question true]) backup_question
  = true ->
  generate_keys plat ui w
  = match call_outcome ui (trace ws ++ entered) (fs ws) (cwd ws) args with
    | Exit0 n' =>
        (Ok tt,
         World n' (cwd ws) (environ ws)
           (trace ws ++ told ++
            [Success "I've finished creating android.keystore. Please back it up, and keep it in a safe place."]))
    | ExitNonZero n' =>
        (Raise SystemExit,
         World n' (cwd ws) (environ ws)
           (trace ws ++ told ++
            [Fail "Could not create android.keystore. Is keytool in your path?"]))
    | NotFound =>
        (Raise SystemExit,
         World (fs ws) (cwd ws) (environ ws)
           (trace ws ++ told ++
            [Fail "Could not create android.keystore. Is keytool in your path?"]))
    end.
Proof.
  intros store asked name entered args told S G E Y1 Y2.
  subst asked name entered args told.
  assert (get_property (local_properties plat) (txt "key.store") ws
          = (Ok (Some store), ws)) as G'.
  { rewrite get_property_unfold in G |- *.
    destruct (find_property _ _); [simpl in G; congruence|].
    destruct (snd _); discriminate. }
  unfold generate_keys. rewrite seed_defaults_then. fold store.
  rewrite (bind_ok _ _ _ _ _ S), (bind_ok _ _ _ _ _ G').
  rewrite bool_decide_eq_true_2 by reflexivity. cbn [negb].
  rewrite (bind_ok (path_exists _) _ false ws ws)
    by (unfold path_exists; now rewrite E).
  rewrite (bind_ok (yesno ui create_question) _ _ ws _ eq_refl).
  rewrite Y1. cbn [negb].
  rewrite (bind_ok (yesno ui backup_question) _ _ _ _ eq_refl).
  cbn [trace with_event]. rewrite Y2. cbn [negb].
  rewrite (bind_ok (input ui _) _ _ _ _ eq_refl).
  cbn [trace with_event]. rewrite <- !app_assoc. cbn [app].
  unfold fail, success.
  unfold bind, run, call, log, raise, ret, with_event, with_fs.
  cbn [fst snd trace fs cwd environ]. rewrite <- !app_assoc. cbn [app].
  match goal with
  | |- context [call_outcome ?a ?b ?c ?d ?e] =>
      destruct (call_outcome a b c d e)
  end;
    cbn [negb fst snd trace fs cwd environ]; rewrite <- ?app_assoc; reflexivity.
Qed.

Lemma agreed_key_is_made_witness :
  generate_keys Sample.plat (Sample.ui 0) Sample.project_only
  = (Ok tt,
     World
       (match FS.write_text ["rapt"; "android.keystore"]%string (txt "KEY")
                (fs Sample.seeded) with
        | Ok n => n
        | Raise _ => fs Sample.seeded
        end)
       [] []
       [YesNo create_question true; YesNo backup_question true;
        Input "Please enter your name or the name of your organization." (txt "Me");
        Call (keytool_args Sample.plat "android.keystore" (txt "CN=Me"))
          false true false;
        Success "I've finished creating android.keystore. Please back it up, and keep it in a safe place."]).
Proof.
  rewrite (agreed_key_is_made Sample.plat (Sample.ui 0) Sample.project_only
             Sample.seeded); reflexivity.
Defined.

(** * More of the toolchain check and of the SDK steps *)

Section CallsInOrder.

Context (ui : interface).


Lemma bind_raise {A B} (m : M A) (k : A -> M B) (e : exn) (w w1 : world) :
  m w = (Raise e, w1) -> bind m k w = (Raise e, w1).
Proof. unfold bind. now intros ->. Qed.

Lemma fail_result {A} (m : string) (w : world) :
  @fail A m w = (Raise SystemExit, with_event (Fail m) w).
Proof. reflexivity. Qed.

End CallsInOrder.


(** X10: when both wanted packages are in the SDK directory,
    [get_packages] runs no process at all: it reports that the packages
    are installed and returns, the file system as it was. *)
Theorem get_packages_nothing_missing (plat : platform) (ui : interface)
    (w : world) :
  FS.exists_ (sdk plat ++ ["platform-tools"%string]) (fs w) = true ->
  FS.exists_ (sdk plat ++ ["platforms"%string; "android-30"%string]) (fs w) = true ->
  get_packages plat ui w
  = (Ok tt,
     with_event
       (Success "I've finished installing the required Android packages.") w).
Proof.
  intros H1 H2. unfold get_packages, bind, missing_packages, wanted_packages.
  cbn [List.filter fst snd map]. literal_components.
  now rewrite H1, H2.
Qed.

Lemma get_packages_nothing_missing_witness :
  get_packages Sample.plat Cases.nothing_works Cases.with_packages
  = (Ok tt,
     with_event
       (Success "I've finished installing the required Android packages.")
       Cases.with_packages).
Proof.
  apply get_packages_nothing_missing; reflexivity.
Defined.



(** * More of the unpacking *)

Section UnpackingTrace.

Context (plat : platform) (ui : interface).

Lemma silent_bind {A B} (m : M A) (k : A -> M B) :
  (forall w, trace (snd (m w)) = trace w) ->
  (forall a w, trace (snd (k a w)) = trace w) ->
  forall w, trace (snd (bind m k w)) = trace w.
Proof.
  intros Hm Hk w. unfold bind. specialize (Hm w).
  destruct (m w) as [[a|e] w1]; cbn [snd] in *; [|exact Hm].
  now rewrite Hk.
Qed.

Lemma silent_on_fs (f : node -> result node) (w : world) :
  trace (snd (on_fs f w)) = trace w.
Proof. unfold on_fs. now destruct (f (fs w)). Qed.

Lemma silent_chdir (p : path) (w : world) :
  trace (snd (chdir p w)) = trace w.
Proof. unfold chdir. now destruct (FS.is_dir p (fs w)). Qed.

(** The extraction adds nothing to the trace. *)
Lemma silent_extract (archive : str) (w : world) :
  trace (snd (extract plat archive w)) = trace w.
Proof.
  unfold extract. revert w.
  apply silent_bind.
  { intros w. unfold open_zip.
    now destruct (FS.lookup _ (fs w)) as [[[s|ls e|zf]|es]|]. }
  intros zf. apply silent_bind; [reflexivity|]. intros old.
  apply silent_bind; [apply silent_chdir|]. intros _.
  apply silent_bind; [reflexivity|]. intros dest.
  apply silent_bind; [apply silent_on_fs|]. intros _.
  apply silent_bind; [reflexivity|]. intros tools.
  apply silent_bind; [reflexivity|]. intros latest.
  apply silent_bind; [apply silent_on_fs|]. intros _.
  apply silent_bind; [apply silent_on_fs|]. intros _.
  apply silent_bind; [reflexivity|]. intros nested.
  apply silent_bind; [apply silent_on_fs|]. intros _.
  apply silent_chdir.
Qed.

Lemma download_trace (url : str) (dest : path) (w : world) :
  trace (snd (download ui url dest w)) = trace w ++ [Download url dest].
Proof.
  unfold download, on_fs. destruct (download_result ui (trace w) url);
    [|reflexivity].
  cbn [fs with_event]. now destruct (FS.write_file dest c (fs w)).
Qed.

End UnpackingTrace.

(** X12: when the SDK is not unpacked, the variable [RAPT_NO_TERMS] is
    not set and the user does not accept the terms, [unpack_sdk] ends
    the run right after the terms prompt: nothing is downloaded and the
    file system is as it was. *)
Theorem declined_terms_end_the_run (plat : platform) (ui : interface)
    (w : world) :
  FS.exists_ (sdkmanager plat) (fs w) = false ->
  "RAPT_NO_TERMS"%string ∉ environ w ->
  terms_accepted ui (trace w) = false ->
  unpack_sdk plat ui w
  = (Raise SystemExit,
     with_event
       (Terms "https://developer.android.com/studio/terms"
          "Do you accept the Android SDK Terms and Conditions?") w).
Proof.
  intros E N T. unfold unpack_sdk.
  rewrite (bind_ok (path_exists _) _ false w w)
    by (unfold path_exists; now rewrite E).
  apply bind_raise. rewrite bool_decide_eq_false_2 by assumption.
  unfold terms. now rewrite T.
Qed.

Lemma declined_terms_end_the_run_witness :
  unpack_sdk Sample.plat Cases.nothing_works Sample.fresh
  = (Raise SystemExit,
     with_event
       (Terms "https://developer.android.com/studio/terms"
          "Do you accept the Android SDK Terms and Conditions?") Sample.fresh).
Proof.
  apply declined_terms_end_the_run.
  - reflexivity.
  - apply not_elem_of_nil.
  - reflexivity.
Defined.

(** X13: whatever happens, the trace [unpack_sdk] adds is the one
    message that the SDK is unpacked already, or a beginning of this
    sequence: the terms prompt (left out when [RAPT_NO_TERMS] is set), a
    message, the download of the platform's archive to its place in the
    RAPT directory, a message, the extraction in the background, the
    message of success.  When [unpack_sdk] returns normally it is the
    whole sequence. *)
Theorem unpack_sdk_in_order (plat : platform) (ui : interface) (w : world)
    (archive : str) :
  let steps :=
    (if bool_decide ("RAPT_NO_TERMS"%string ∈ environ w) then []
     else [Terms "https://developer.android.com/studio/terms"
             "Do you accept the Android SDK Terms and Conditions?"])
    ++ [Info "I'm downloading the Android SDK. This might take a while.";
        Download (txt "https://dl.google.com/android/repository/" ++ archive)
          (plat_path plat archive);
        Info "I'm extracting the Android SDK.";
        Background;
        Success "I've finished unpacking the Android SDK."] in
  archive_name plat = Some archive ->
  after (unpack_sdk plat ui)
    (fun r w' =>
       exists evs,
         trace w' = trace w ++ evs
         /\ (evs = [Success "The Android SDK has already been unpacked."]
             \/ (evs `prefix_of` steps /\ (r = Ok tt -> evs = steps)))) w.
Proof.
  intros steps A. unfold after, unpack_sdk.
  rewrite (bind_ok (path_exists _) _ _ w w eq_refl).
  destruct (FS.exists_ (sdkmanager plat) (fs w)).
  { unfold success, log. cbn [fst snd trace with_event]. eauto. }
  rewrite A.
  set (terms_part := if bool_decide ("RAPT_NO_TERMS"%string ∈ environ w) then []
     else [Terms "https://developer.android.com/studio/terms"
             "Do you accept the Android SDK Terms and Conditions?"]) in *.
  (* the terms *)
  match goal with
  | |- context [bind ?m _ w] =>
      destruct (m w) as [r0 w0] eqn:E0;
      assert (trace w0 = trace w ++ terms_part) as T0
  end.
  { subst terms_part. destruct (bool_decide _).
    - injection E0 as <- <-. now rewrite app_nil_r.
    - unfold terms in E0. destruct (terms_accepted ui (trace w));
        now injection E0 as <- <-. }
  assert (forall evs rest, steps = (terms_part ++ evs) ++ rest ->
            forall r w', trace w' = trace w0 ++ evs -> r <> Ok tt ->
            exists out, trace w' = trace w ++ out
                        /\ (out = [Success "The Android SDK has already been unpacked."]
                            \/ (out `prefix_of` steps /\ (r = Ok tt -> out = steps))))
    as Stop.
  { intros evs rest S r w' T N. exists (terms_part ++ evs).
    rewrite T, T0, app_assoc. split; [reflexivity|]. right.
    split; [exists rest; exact S|tauto]. }
  destruct r0 as [[]|e0].
  2: { rewrite (bind_raise _ _ _ _ _ E0). cbn [fst snd].
       apply (Stop [] (skipn (length terms_part) steps));
         [|now rewrite app_nil_r|discriminate].
       rewrite app_nil_r. unfold steps. fold terms_part.
       now rewrite skipn_app, skipn_all, Nat.sub_diag. }
  rewrite (bind_ok _ _ _ _ _ E0). unfold info.
  rewrite (bind_ok (log _) _ tt w0 _ eq_refl).
  (* the download *)
  match goal with
  | |- context [bind (download ui ?u ?d) _ ?x] =>
      destruct (download ui u d x) as [r1 w1] eqn:E1;
      pose proof (download_trace ui u d x) as T1; rewrite E1 in T1;
      cbn [snd trace with_event] in T1
  end.
  destruct r1 as [[]|e1].
  2: { rewrite (bind_raise _ _ _ _ _ E1). cbn [fst snd].
       eapply (Stop [_; _]); [|rewrite T1, <- app_assoc; reflexivity|discriminate].
       unfold steps. fold terms_part. rewrite <- app_assoc. reflexivity. }
  rewrite (bind_ok _ _ _ _ _ E1).
  rewrite (bind_ok (log _) _ tt w1 _ eq_refl).
  (* the extraction *)
  unfold background. rewrite bind_assoc.
  rewrite (bind_ok (log _) _ tt _ _ eq_refl).
  match goal with
  | |- context [bind (extract plat archive) _ ?x] =>
      destruct (extract plat archive x) as [r2 w2] eqn:E2;
      pose proof (silent_extract plat archive x) as T2; rewrite E2 in T2;
      cbn [snd trace with_event] in T2
  end.
  destruct r2 as [[]|e2].
  2: { rewrite (bind_raise _ _ _ _ _ E2). cbn [fst snd].
       eapply (Stop [_; _; _; _]);
         [|rewrite T2, T1, <- !app_assoc; reflexivity|discriminate].
       unfold steps. fold terms_part. rewrite <- app_assoc. reflexivity. }
  rewrite (bind_ok _ _ _ _ _ E2).
  unfold success, log. cbn [fst snd trace with_event].
  exists steps. rewrite T2, T1, T0. unfold steps. fold terms_part.
  rewrite <- !app_assoc. split; [reflexivity|]. right. split; [|reflexivity].
  exists []. now rewrite app_nil_r.
Qed.

Lemma unpack_sdk_in_order_witness :
  after (unpack_sdk Sample.plat (Sample.ui 0))
    (fun r w' =>
       exists evs,
         trace w' = trace Sample.fresh ++ evs
         /\ (evs = [Success "The Android SDK has already been unpacked."]
             \/ (evs `prefix_of`
                   [Terms "https://developer.android.com/studio/terms"
                      "Do you accept the Android SDK Terms and Conditions?";
                    Info "I'm downloading the Android SDK. This might take a while.";
                    Download
                      (txt "https://dl.google.com/android/repository/commandlinetools-linux-7583922_latest.zip")
                      ["rapt"; "commandlinetools-linux-7583922_latest.zip"]%string;
                    Info "I'm extracting the Android SDK.";
                    Background;
                    Success "I've finished unpacking the Android SDK."]
                 /\ (r = Ok tt ->
                     evs =
                     [Terms "https://developer.android.com/studio/terms"
                        "Do you accept the Android SDK Terms and Conditions?";
                      Info "I'm downloading the Android SDK. This might take a while.";
                      Download
                        (txt "https://dl.google.com/android/repository/commandlinetools-linux-7583922_latest.zip")
                        ["rapt"; "commandlinetools-linux-7583922_latest.zip"]%string;
                      Info "I'm extracting the Android SDK.";
                      Background;
                      Success "I've finished unpacking the Android SDK."]))))
    Sample.fresh.
Proof.
  apply (unpack_sdk_in_order Sample.plat (Sample.ui 0) Sample.fresh
           (txt "commandlinetools-linux-7583922_latest.zip")).
  reflexivity.
Defined.

(** * More of the orchestrator *)

(** X14: without a working [javac] nothing is provisioned.  When the
    project directory is prepared and [javac] then exits with a status
    other than zero or is not found, [install_sdk] ends the run after
    the failure message: nothing is downloaded, no key is made and no
    property is written, and the file system is what [javac] left. *)
Theorem no_jdk_ends_the_run (plat : platform) (ui : interface) (w wa : world) :
  let told :=
    trace wa ++
    [Info "I'm compiling a short test program, to see if you have a working JDK on your system."] in
  let args :=
    [javac plat; Paths.text (plat_path plat (txt "buildlib/CheckJDK8.java"))] in
  let tried := call_outcome ui told (fs wa) (cwd wa) args in
  copy_project plat w = (Ok tt, wa) ->
  (forall n, tried <> Exit0 n) ->
  exists m,
    install_sdk plat ui w
    = (Raise SystemExit,
       World (left_by tried (fs wa)) (cwd wa) (environ wa)
         (told ++ [Call args true true false; Fail m])).
Proof.
  intros told args tried C N. subst told args tried.
  unfold install_sdk. rewrite (bind_ok _ _ _ _ _ C).
  unfold check_java, info.
  eexists. apply bind_raise.
  rewrite (bind_ok (log _) _ tt wa _ eq_refl).
  match goal with
  | |- bind ?m _ ?x = _ =>
      assert (exists n, m x = (Ok false, n)
                        /\ n = World (left_by (call_outcome ui (trace x) (fs x) (cwd x)
                                                 [javac plat; Paths.text (plat_path plat (txt "buildlib/CheckJDK8.java"))])
                                        (fs x)) (cwd x) (environ x)
                                 (trace x ++ [Call [javac plat; Paths.text (plat_path plat (txt "buildlib/CheckJDK8.java"))] true true false]))
        as (n & E & ->)
  end.
  { unfold run_slow, call. cbn [trace fs cwd with_event] in *.
    destruct (call_outcome ui _ (fs wa) (cwd wa) _) as [n|n|] eqn:O;
      [now destruct (N n)|eauto|eauto]. }
  rewrite (bind_ok _ _ _ _ _ E). cbn [negb].
  apply bind_raise. rewrite fail_result.
  unfold with_event. cbn [trace fs cwd environ]. rewrite <- app_assoc.
  reflexivity.
Qed.

Lemma no_jdk_ends_the_run_witness :
  exists m,
    install_sdk Sample.plat Cases.nothing_works Sample.project_only
    = (Raise SystemExit,
       World (fs Sample.project_only) [] []
         [Info "I'm compiling a short test program, to see if you have a working JDK on your system.";
          Call [txt "javac"; txt "/rapt/buildlib/CheckJDK8.java"] true true false;
          Fail m]).
Proof.
  apply (no_jdk_ends_the_run Sample.plat Cases.nothing_works
           Sample.project_only Sample.project_only).
  - reflexivity.
  - discriminate.
Defined.

(** X15: a run of [install_sdk] that starts from property files that
    are not there yet or are text of whole lines and that completes
    leaves both property files with the four key properties and with
    [sdk.dir]: [get_property] reads the SDK directory back from both.
    (The paths of the platform have no line break in them and the
    external tools leave the property files alone.) *)
Theorem completed_run_has_sdk_dir (plat : platform) (ui : interface)
    (w0 w1 : world) :
  tools_keep plat ui ->
  tidy (local_properties plat) (fs w0) = true ->
  tidy (bundle_properties plat) (fs w0) = true ->
  no_breaks (default_keystore plat "android.keystore") = true ->
  no_breaks (default_keystore plat "bundle.keystore") = true ->
  clean_value (sdk_dir plat) = true ->
  install_sdk plat ui w0 = (Ok tt, w1) ->
  (get_property (local_properties plat) (txt "sdk.dir") w1
   = (Ok (Some (sdk_dir plat)), w1)
   /\ has_defaults (local_properties plat) (fs w1) = true)
  /\ (get_property (bundle_properties plat) (txt "sdk.dir") w1
      = (Ok (Some (sdk_dir plat)), w1)
      /\ has_defaults (bundle_properties plat) (fs w1) = true).
Proof.
  intros tools Tl Tb Bk Bb Cs Run.
  pose proof (clean_value_spec _ Cs) as [_ Bs].
  pose proof (first_run_builds plat ui tools w0 Tl Tb Bk Bb Bs) as P.
  unfold after in P. rewrite Run in P. destruct (P eq_refl) as [Pl Pb].
  assert (forall props, persisted plat props (fs w1) ->
            get_property props (txt "sdk.dir") w1 = (Ok (Some (sdk_dir plat)), w1)
            /\ has_defaults props (fs w1) = true) as Read.
  { intros props (ls & _ & R & A & K1 & K2 & K3 & K4). split.
    - rewrite get_property_unfold, R. cbn [fst snd].
      rewrite find_property_app, find_property_absent by assumption.
      unfold sdk_line. now rewrite find_property_format.
    - unfold has_defaults. rewrite R. cbn [fst].
      now rewrite !key_absent_snoc. }
  split; now apply Read.
Qed.

Lemma completed_run_has_sdk_dir_witness :
  (get_property Sample.properties (txt "sdk.dir") Sample.provisioned
   = (Ok (Some (txt "/rapt/Sdk")), Sample.provisioned)
   /\ has_defaults Sample.properties (fs Sample.provisioned) = true)
  /\ (get_property ["rapt"; "project"; "bundle.properties"]%string
        (txt "sdk.dir") Sample.provisioned
      = (Ok (Some (txt "/rapt/Sdk")), Sample.provisioned)
      /\ has_defaults ["rapt"; "project"; "bundle.properties"]%string
           (fs Sample.provisioned) = true).
Proof.
  apply (completed_run_has_sdk_dir Sample.plat (Sample.ui 0) Sample.fresh
           Sample.provisioned).
  - apply sample_tools_keep.
  - reflexivity.
  - reflexivity.
  - reflexivity.
  - reflexivity.
  - reflexivity.
  - vm_compute. reflexivity.
Defined.

(** * The signing arguments *)

Section SigningArguments.

Lemma get_property_found (f : path) (k v : str) (w : world) :
  find_property k (fst (read_lines f (fs w))) = Some v ->
  get_property f k w = (Ok (Some v), w).
Proof. intros H. now rewrite get_property_unfold, H. Qed.

Lemma get_property_none (f : path) (k : str) (w : world) :
  snd (read_lines f (fs w)) = None ->
  key_absent k (fst (read_lines f (fs w))) = true ->
  get_property f k w = (Ok None, w).
Proof.
  intros R A. now rewrite get_property_unfold, find_property_absent, R.
Qed.

Lemma get_property_readable (f : path) (k : str) (w : world) :
  snd (read_lines f (fs w)) = None ->
  get_property f k w
  = (Ok (find_property k (fst (read_lines f (fs w)))), w).
Proof.
  intros R. rewrite get_property_unfold, R.
  now destruct (find_property k _).
Qed.

Lemma seeded_lines_have (store : str) (ls : list str) :
  key_absent (txt "key.store") (seeded_lines store ls) = false
  /\ key_absent (txt "key.store.password") (seeded_lines store ls) = false
  /\ key_absent (txt "key.alias") (seeded_lines store ls) = false
  /\ key_absent (txt "key.alias.password") (seeded_lines store ls) = false.
Proof.
  unfold seeded_lines. repeat split.
  - now apply seed_line_has.
  - do 2 apply seed_line_keeps. now apply seed_line_has.
  - do 3 apply seed_line_keeps. now apply seed_line_has.
  - apply seed_line_keeps. now apply seed_line_has.
Qed.



End SigningArguments.

(** X16: a readable [local.properties] without one of the two
    passwords makes [get_local_key_properties] end in the [TypeError] of
    ["pass:" + None]; no list is returned and nothing is changed. *)
Theorem missing_password_is_a_type_error (plat : platform) (w : world) :
  let ls := fst (read_lines (local_properties plat) (fs w)) in
  snd (read_lines (local_properties plat) (fs w)) = None ->
  key_absent (txt "key.store.password") ls = true
  \/ key_absent (txt "key.alias.password") ls = true ->
  get_local_key_properties plat w = (KeyTypeError, w).
Proof.
  intros ls R A. subst ls. unfold get_local_key_properties.
  rewrite (get_property_readable _ (txt "key.store") w R).
  rewrite (get_property_readable _ (txt "key.store.password") w R).
  destruct (find_property (txt "key.store.password") _) as [sp|] eqn:SP;
    [|reflexivity].
  rewrite (get_property_readable _ (txt "key.alias") w R).
  rewrite (get_property_readable _ (txt "key.alias.password") w R).
  destruct A as [A|A].
  - now rewrite find_property_absent in SP.
  - now rewrite (find_property_absent _ _ A).
Qed.

Lemma missing_password_is_a_type_error_witness :
  let w := Sample.with_properties
             (Text (txt "key.store=/k" ++ Py.LF :: txt "key.store.password=pw" ++ [Py.LF])) in
  get_local_key_properties Sample.plat w = (KeyTypeError, w).
Proof.
  apply (missing_password_is_a_type_error Sample.plat).
  - reflexivity.
  - right. reflexivity.
Defined.

(** X17: a missing [key.store] or [key.alias] is no error.  With both
    passwords in a readable [local.properties],
    [get_local_key_properties] returns its eight arguments, and the
    keystore and the alias are [None] where the file has no line for
    them. *)
Theorem missing_store_is_none (plat : platform) (w : world) (sp ap : str) :
  let ls := fst (read_lines (local_properties plat) (fs w)) in
  snd (read_lines (local_properties plat) (fs w)) = None ->
  find_property (txt "key.store.password") ls = Some sp ->
  find_property (txt "key.alias.password") ls = Some ap ->
  get_local_key_properties plat w
  = (KeyArgs [Some (txt "--ks"); find_property (txt "key.store") ls;
              Some (txt "--ks-pass"); Some (txt "pass:" ++ sp);
              Some (txt "--ks-key-alias"); find_property (txt "key.alias") ls;
              Some (txt "--key-pass"); Some (txt "pass:" ++ ap)],
     w)
  /\ (key_absent (txt "key.store") ls = true ->
      find_property (txt "key.store") ls = None)
  /\ (key_absent (txt "key.alias") ls = true ->
      find_property (txt "key.alias") ls = None).
Proof.
  intros ls R SP AP. subst ls. split; [|split; apply find_property_absent].
  unfold get_local_key_properties.
  rewrite (get_property_readable _ (txt "key.store") w R).
  rewrite (get_property_readable _ (txt "key.store.password") w R), SP.
  rewrite (get_property_readable _ (txt "key.alias") w R).
  rewrite (get_property_readable _ (txt "key.alias.password") w R), AP.
  reflexivity.
Qed.

Lemma missing_store_is_none_witness :
  let w := Sample.with_properties
             (Text (txt "key.store.password=pw" ++ Py.LF
                      :: txt "key.alias.password = pa " ++ [Py.LF])) in
  get_local_key_properties Sample.plat w
  = (KeyArgs [Some (txt "--ks"); None;
              Some (txt "--ks-pass"); Some (txt "pass:pw");
              Some (txt "--ks-key-alias"); None;
              Some (txt "--key-pass"); Some (txt "pass:pa")],
     w).
Proof.
  apply (missing_store_is_none Sample.plat
           (Sample.with_properties
              (Text (txt "key.store.password=pw" ++ Py.LF
                       :: txt "key.alias.password = pa " ++ [Py.LF])))
           (txt "pw") (txt "pa")); reflexivity.
Defined.

(** X18: after the four default writes of [generate_keys] the signing
    arguments are complete.  On a writable [local.properties] of whole
    lines, [get_local_key_properties] after the defaults returns eight
    arguments none of which is [None], whatever the file had before. *)
Theorem seeded_arguments_are_complete (plat : platform) (store : str)
    (w : world) :
  no_breaks store = true ->
  FS.writable (local_properties plat) (fs w) = true ->
  forallb whole_line (fst (read_lines (local_properties plat) (fs w))) = true ->
  exists w' s sp a ap,
    seed_defaults (local_properties plat) store w = (Ok tt, w')
    /\ get_local_key_properties plat w'
       = (KeyArgs [Some (txt "--ks"); Some s;
                   Some (txt "--ks-pass"); Some (txt "pass:" ++ sp);
                   Some (txt "--ks-key-alias"); Some a;
                   Some (txt "--key-pass"); Some (txt "pass:" ++ ap)],
          w').
Proof.
  intros Hs Hw W.
  destruct (seed_defaults_steps _ store w Hs Hw W) as (w' & S & R & _ & _).
  destruct (seeded_lines_have store
              (fst (read_lines (local_properties plat) (fs w))))
    as (A1 & A2 & A3 & A4).
  rewrite <- R in A1, A2, A3, A4.
  apply find_property_present in A1 as (s & F1).
  apply find_property_present in A2 as (sp & F2).
  apply find_property_present in A3 as (a & F3).
  apply find_property_present in A4 as (ap & F4).
  exists w', s, sp, a, ap. split; [exact S|].
  unfold get_local_key_properties.
  rewrite (get_property_found _ _ _ _ F1), (get_property_found _ _ _ _ F2),
    (get_property_found _ _ _ _ F3), (get_property_found _ _ _ _ F4).
  reflexivity.
Qed.

Lemma seeded_arguments_are_complete_witness :
  exists w' s sp a ap,
    seed_defaults (local_properties Sample.plat) (txt "/rapt/android.keystore")
      (Sample.with_properties (Text (txt "key.alias=me" ++ [Py.LF])))
    = (Ok tt, w')
    /\ get_local_key_properties Sample.plat w'
       = (KeyArgs [Some (txt "--ks"); Some s;
                   Some (txt "--ks-pass"); Some (txt "pass:" ++ sp);
                   Some (txt "--ks-key-alias"); Some a;
                   Some (txt "--key-pass"); Some (txt "pass:" ++ ap)],
          w').
Proof.
  apply (seeded_arguments_are_complete Sample.plat); reflexivity.
Defined.



(** X20: the bundle key is made without a word to the user.  When the
    default properties are written, the stored keystore is the default
    one and no [bundle.keystore] is there, [generate_bundle_keys] runs
    the key tool once with the name [CN=Ren'Py Creator]: it returns
    when the tool exits with status zero, and otherwise reports the
    failure and ends the run. *)
Theorem bundle_key_is_made (plat : platform) (ui : interface) (w ws : world) :
  let store := default_keystore plat "bundle.keystore" in
  let args := keytool_args plat "bundle.keystore" (txt "CN=Ren'Py Creator") in
  let told := [Call args false true false] in
  seed_defaults (bundle_properties plat) store w = (Ok tt, ws) ->
  fst (get_property (bundle_properties plat) (txt "key.store") ws)
  = Ok (Some store) ->
  FS.exists_ (plat_path plat (txt "bundle.keystore")) (fs ws) = false ->
  generate_bundle_keys plat ui w
  = match call_outcome ui (trace ws) (fs ws) (cwd ws) args with
    | Exit0 n' =>
        (Ok tt, World n' (cwd ws) (environ ws) (trace ws ++ told))
    | ExitNonZero n' =>
        (Raise SystemExit,
         World n' (cwd ws) (environ ws)
           (trace ws ++ told ++
            [Fail "Could not create bundle.keystore. Is keytool in your path?"]))
    | NotFound =>
        (Raise SystemExit,
         World (fs ws) (cwd ws) (environ ws)
           (trace ws ++ told ++
            [Fail "Could not create bundle.keystore. Is keytool in your path?"]))
    end.
Proof.
  intros store args told S G E. subst args told.
  assert (get_property (bundle_properties plat) (txt "key.store") ws
          = (Ok (Some store), ws)) as G'.
  { rewrite get_property_unfold in G |- *.
    destruct (find_property _ _); [simpl in G; congruence|].
    destruct (snd _); discriminate. }
  unfold generate_bundle_keys. rewrite seed_defaults_then. fold store.
  rewrite (bind_ok _ _ _ _ _ S), (bind_ok _ _ _ _ _ G').
  rewrite bool_decide_eq_true_2 by reflexivity. cbn [negb].
  rewrite (bind_ok (path_exists _) _ false ws ws)
    by (unfold path_exists; now rewrite E).
  unfold fail.
  unfold bind, run, call, log, raise, ret, with_event, with_fs.
  cbn [fst snd trace fs cwd environ].
  match goal with
  | |- context [call_outcome ?a ?b ?c ?d ?e] =>
      destruct (call_outcome a b c d e)
  end;
    cbn [negb fst snd trace fs cwd environ]; rewrite <- ?app_assoc; reflexivity.
Qed.

Lemma bundle_key_is_made_witness :
  exists n,
    FS.write_text ["rapt"; "bundle.keystore"]%string (txt "KEY")
      (fs (snd (seed_defaults (bundle_properties Sample.plat)
                  (txt "/rapt/bundle.keystore") Sample.project_only)))
    = Ok n
    /\ generate_bundle_keys Sample.plat (Sample.ui 0) Sample.project_only
       = (Ok tt,
          World n [] []
            [Call (keytool_args Sample.plat "bundle.keystore"
                     (txt "CN=Ren'Py Creator"))
               false true false]).
Proof.
  eexists. split; [vm_compute; reflexivity|].
  rewrite (bundle_key_is_made Sample.plat (Sample.ui 0) Sample.project_only
             (snd (seed_defaults (bundle_properties Sample.plat)
                     (txt "/rapt/bundle.keystore") Sample.project_only)));
    reflexivity.
Defined.

(** X21: [run] and [run_slow] never raise, and what the process did
    stays.  Each logs one call, [run_slow] with [cancel] set and [run]
    without; the file system afterwards is the one the process left,
    also when it failed; the verdict is [True] for exit status zero
    only. *)
Theorem run_keeps_what_the_process_did (ui : interface) (args : list str)
    (use_path yes : bool) (w : world) :
  let o := call_outcome ui (trace w) (fs w) (cwd w) args in
  let verdict := match o with Exit0 _ => true | _ => false end in
  let after cancel :=
    World (left_by o (fs w)) (cwd w) (environ w)
      (trace w ++ [Call args cancel use_path yes]) in
  run ui args use_path yes w = (Ok verdict, after false)
  /\ run_slow ui args use_path yes w = (Ok verdict, after true).
Proof.
  unfold run, run_slow, call.
  destruct (call_outcome ui (trace w) (fs w) (cwd w) args); split; reflexivity.
Qed.
